(** * cog/server/runner.py: the prediction runner

    A shallow embedding of [python/cog/server/runner.py]: the event handler
    that builds a [PredictionResponse], the two coroutines [setup] and
    [predict] that translate a worker's event stream, and the
    [PredictionRunner] that admits one task at a time.

    Python objects that are shared by reference (the response, the tasks)
    live in stores indexed by handles; exceptions are values of an error
    monad; the asyncio event loop is a transition that resumes a task from
    one [await] to the next. *)

From Stdlib Require Import ZArith QArith List String Bool Lia.
From stdpp Require Import base option list.
Import ListNotations.
Local Open Scope string_scope.

(** ** Data *)

(** Modelled from the spec: [schema.Status] (schema.py is not among the
    sources); a job result's status is one of processing, succeeded, failed,
    canceled. *)
Inductive Status := PROCESSING | SUCCEEDED | FAILED | CANCELED.

Definition Status_eqb (a b : Status) : bool :=
  match a, b with
  | PROCESSING, PROCESSING | SUCCEEDED, SUCCEEDED
  | FAILED, FAILED | CANCELED, CANCELED => true
  | _, _ => false
  end.

Definition terminal (s : Status) : bool :=
  match s with PROCESSING => false | _ => true end.

(** Modelled from the spec: [schema.WebhookEvent], the four notification
    tags; [default_events] is all of them. *)
Inductive WebhookEvent := START | OUTPUT | LOGS | COMPLETED.

Definition WebhookEvent_eqb (a b : WebhookEvent) : bool :=
  match a, b with
  | START, START | OUTPUT, OUTPUT | LOGS, LOGS | COMPLETED, COMPLETED => true
  | _, _ => false
  end.

Definition default_events : list WebhookEvent := [START; OUTPUT; LOGS; COMPLETED].

(** Python values that travel as outputs ([Any] in the source). *)
#[warnings="-register-all"]
Inductive value :=
| VNone
| VStr (s : string)
| VList (items : list value).

Definition is_None (v : value) : bool :=
  match v with VNone => true | _ => false end.

(** Exceptions: a class and the message [str(e)] returns. *)
Inductive exn_class :=
| AssertionError
| FileUploadError
| RunnerBusyError
| UnknownPredictionError
| RequestException
| OtherException.

Record exn := Exn { exn_cls : exn_class; exn_msg : string }.

Definition is_RequestException (e : exn) : bool :=
  match exn_cls e with RequestException => true | _ => false end.

(** An input field: a plain value, or a [types.URLPath] whose [convert()]
    either fetches a value or raises. *)
Inductive input_value :=
| Plain (v : value)
| URLPath (convert : exn + value).

Record PredictionRequest := {
  rq_id : option string;
  rq_input : list (string * input_value);
  rq_webhook : option string;
  rq_webhook_events_filter : option (list WebhookEvent);
}.

(** Timestamps are microseconds since the epoch; a [timedelta] is a
    difference of two of them ([total_seconds] is that count over 10^6). *)
Definition datetime := Z.
Definition timedelta := Z.

Record PredictionResponse := {
  pr_id : option string;
  pr_input : list (string * input_value);
  pr_status : Status;
  pr_output : value;
  pr_logs : string;
  pr_error : option string;
  pr_started_at : datetime;
  pr_completed_at : option datetime;
  pr_metrics : option timedelta;   (* {"predict_time": ...} *)
}.

Definition with_status (x : Status) (r : PredictionResponse) :=
  {| pr_id := pr_id r; pr_input := pr_input r; pr_status := x;
     pr_output := pr_output r; pr_logs := pr_logs r; pr_error := pr_error r;
     pr_started_at := pr_started_at r; pr_completed_at := pr_completed_at r;
     pr_metrics := pr_metrics r |}.
Definition with_output (x : value) (r : PredictionResponse) :=
  {| pr_id := pr_id r; pr_input := pr_input r; pr_status := pr_status r;
     pr_output := x; pr_logs := pr_logs r; pr_error := pr_error r;
     pr_started_at := pr_started_at r; pr_completed_at := pr_completed_at r;
     pr_metrics := pr_metrics r |}.
Definition with_logs (x : string) (r : PredictionResponse) :=
  {| pr_id := pr_id r; pr_input := pr_input r; pr_status := pr_status r;
     pr_output := pr_output r; pr_logs := x; pr_error := pr_error r;
     pr_started_at := pr_started_at r; pr_completed_at := pr_completed_at r;
     pr_metrics := pr_metrics r |}.
Definition with_error (x : option string) (r : PredictionResponse) :=
  {| pr_id := pr_id r; pr_input := pr_input r; pr_status := pr_status r;
     pr_output := pr_output r; pr_logs := pr_logs r; pr_error := x;
     pr_started_at := pr_started_at r; pr_completed_at := pr_completed_at r;
     pr_metrics := pr_metrics r |}.
Definition with_started_at (x : datetime) (r : PredictionResponse) :=
  {| pr_id := pr_id r; pr_input := pr_input r; pr_status := pr_status r;
     pr_output := pr_output r; pr_logs := pr_logs r; pr_error := pr_error r;
     pr_started_at := x; pr_completed_at := pr_completed_at r;
     pr_metrics := pr_metrics r |}.
Definition with_completed_at (x : option datetime) (r : PredictionResponse) :=
  {| pr_id := pr_id r; pr_input := pr_input r; pr_status := pr_status r;
     pr_output := pr_output r; pr_logs := pr_logs r; pr_error := pr_error r;
     pr_started_at := pr_started_at r; pr_completed_at := x;
     pr_metrics := pr_metrics r |}.
Definition with_metrics (x : option timedelta) (r : PredictionResponse) :=
  {| pr_id := pr_id r; pr_input := pr_input r; pr_status := pr_status r;
     pr_output := pr_output r; pr_logs := pr_logs r; pr_error := pr_error r;
     pr_started_at := pr_started_at r; pr_completed_at := pr_completed_at r;
     pr_metrics := x |}.

Record SetupResult := {
  sr_started_at : datetime;
  sr_completed_at : datetime;
  sr_logs : string;
  sr_status : Status;
}.

(** Modelled from the spec: the worker's events (eventtypes.py is not among
    the sources). [Done] carries canceled, error and error_detail;
    [done_error] is the truth value of [event.error], [done_error_detail] the
    optional description. [Unrecognized] stands for any other object. *)
Inductive event :=
| Heartbeat
| Log (message : string)
| PredictionOutputType (multi : bool)
| PredictionOutput (payload : value)
| Done (done_canceled done_error : bool) (done_error_detail : option string)
| Unrecognized.

(** What a worker generator does when it is advanced: it is exhausted, it
    raises, or it yields an event and goes on. *)
Inductive gen :=
| Exhausted
| Raises (e : exn)
| Yield (ev : event) (rest : gen).

Fixpoint prepend (evs : list event) (g : gen) : gen :=
  match evs with
  | [] => g
  | ev :: evs' => Yield ev (prepend evs' g)
  end.

Definition is_Done (ev : event) : bool :=
  match ev with Done _ _ _ => true | _ => false end.

(** [str(x)] of an optional string. *)
Definition py_str (x : option string) : string :=
  match x with None => "None" | Some s => s end.

(** ** Effects of a driving task

    What a coroutine touches besides the response: the shared cancellation
    event, the clock, the webhook sender, the worker's [cancel()] and the
    readiness probe. *)
Record Eff := {
  should_cancel : bool;
  clock_reads : nat;
  webhooks_sent : list (WebhookEvent * PredictionResponse);
  worker_cancels : nat;
  probes_ready : nat;
}.

Definition with_should_cancel (b : bool) (e : Eff) :=
  {| should_cancel := b; clock_reads := clock_reads e;
     webhooks_sent := webhooks_sent e; worker_cancels := worker_cancels e;
     probes_ready := probes_ready e |}.

(** The state a predict coroutine runs on: the response it owns and the
    effects. *)
Record TS := { ts_p : PredictionResponse; ts_eff : Eff }.

(** ** A state and exception monad *)

Definition M (S A : Type) : Type := S -> (exn + A) * S.

Definition ret {S A} (a : A) : M S A := fun s => (inr a, s).
Definition raise {S A} (e : exn) : M S A := fun s => (inl e, s).
Definition bind {S A B} (c : M S A) (k : A -> M S B) : M S B :=
  fun s => match c s with
           | (inl e, s') => (inl e, s')
           | (inr a, s') => k a s'
           end.
Definition try_except {S A} (c : M S A) (handler : exn -> M S A) : M S A :=
  fun s => match c s with
           | (inl e, s') => handler e s'
           | (inr a, s') => (inr a, s')
           end.
Definition gets {S A} (f : S -> A) : M S A := fun s => (inr (f s), s).
Definition modify {S} (f : S -> S) : M S unit := fun s => (inr tt, f s).
Definition py_assert {S} (c : bool) (msg : string) : M S unit :=
  if c then ret tt else raise (Exn AssertionError msg).

Declare Scope py_scope.
Delimit Scope py_scope with py.
Notation "x <- c ;; k" := (bind c (fun x => k))
  (at level 100, c at next level, right associativity) : py_scope.
Notation "c ;; k" := (bind c (fun _ => k))
  (at level 100, right associativity) : py_scope.
Local Open Scope py_scope.

Definition lift_eff {A} (c : M Eff A) : M TS A :=
  fun s => let '(r, e) := c (ts_eff s) in (r, {| ts_p := ts_p s; ts_eff := e |}).
Definition modify_p (f : PredictionResponse -> PredictionResponse) : M TS unit :=
  modify (fun s => {| ts_p := f (ts_p s); ts_eff := ts_eff s |}).

(** [PredictionEventHandler]'s own attributes. The response [self.p] is the
    [ts_p] of the state; a webhook sender is given by its filter set, a file
    uploader by what it returns ([None] when the upload raises). *)
Record PredictionEventHandler := {
  _webhook_sender : option (list WebhookEvent);
  _file_uploader : option (value -> option value);
}.

(** ** The file-upload HTTP client *)






(** The library behind the adapter (urllib3) is not part of the
    repository. The definitions below follow its [Retry] class (1.26) and the
    retry loop of its [urlopen], method by method and under their names,
    for a request whose redirects are not followed (as [requests] calls
    it) and whose method is written in upper case. *)










(** ** A sample environment and sample jobs

    Concrete values on which the model is run further down. *)
Definition sample_clock : nat -> datetime := fun n => (1000 * Z.of_nat n)%Z.
Definition sample_format_exc : exn -> string := fun e => "Traceback: " ++ exn_msg e.
Definition sample_store : string -> value -> option value := fun _ v => Some v.

Definition job_a : PredictionRequest :=
  {| rq_id := Some "a"; rq_input := [("text", Plain (VStr "hi"))];
     rq_webhook := None; rq_webhook_events_filter := None |}.

Definition job_anonymous : PredictionRequest :=
  {| rq_id := None; rq_input := [("text", Plain (VStr "hi"))];
     rq_webhook := None; rq_webhook_events_filter := None |}.

Definition plain_handler : PredictionEventHandler :=
  {| _webhook_sender := None; _file_uploader := None |}.

Definition stream_single (_ : list (string * value)) : gen :=
  Yield (PredictionOutputType false)
    (Yield (PredictionOutput (VStr "HI")) (Yield (Done false false None) Exhausted)).

Definition stream_two_outputs (_ : list (string * value)) : gen :=
  Yield (PredictionOutputType false)
    (Yield (PredictionOutput (VStr "x")) (Yield (PredictionOutput (VStr "y")) Exhausted)).


Definition stream_two_done (_ : list (string * value)) : gen :=
  Yield (Done false false None) (Yield (Done true false None) Exhausted).

Definition stream_empty (_ : list (string * value)) : gen := Exhausted.

Definition stream_multi (_ : list (string * value)) : gen :=
  Yield (PredictionOutputType true)
    (Yield (PredictionOutput (VStr "a"))
       (Yield (PredictionOutput (VStr "b")) (Yield (Done false false None) Exhausted))).

Definition webhook_handler : PredictionEventHandler :=
  {| _webhook_sender := Some default_events; _file_uploader := None |}.

Definition sample_eff : Eff :=
  {| should_cancel := false; clock_reads := 1; webhooks_sent := [];
     worker_cancels := 0; probes_ready := 0 |}.

Definition job_url_fails : PredictionRequest :=
  {| rq_id := Some "u";
     rq_input := [("text", Plain (VStr "hi"));
                  ("image", URLPath (inl (Exn RequestException "404")))];
     rq_webhook := None; rq_webhook_events_filter := None |}.

Definition job_hooked : PredictionRequest :=
  {| rq_id := Some "h"; rq_input := [];
     rq_webhook := Some "https://example.test/hook";
     rq_webhook_events_filter := None |}.

Definition failing_upload_handler : PredictionEventHandler :=
  {| _webhook_sender := None; _file_uploader := Some (fun _ => None) |}.

Definition stream_logs_only (_ : list (string * value)) : gen :=
  Yield (Log "a") (Yield Heartbeat Exhausted).

(** Handles of responses and of tasks in their stores. *)
Abbreviation loc := nat (only parsing).
Abbreviation tid := nat (only parsing).

Section Runner.

(** ** The environment *)

(** [datetime.now(tz=timezone.utc)]: the n-th reading of the clock. *)
Variable clock : nat -> datetime.
(** [traceback.format_exc()] for the exception being handled. *)
Variable format_exc : exn -> string.
(** [webhook.SKIP_START_EVENT]. *)
Variable SKIP_START_EVENT : bool.
(** The remote store behind [put_file_to_signed_endpoint]/[upload_files]:
    the output with its files replaced, or [None] when the upload raises. *)
Variable remote_store : string -> value -> option value.

Definition now : M Eff datetime :=
  fun e => (inr (clock (clock_reads e)),
            {| should_cancel := should_cancel e; clock_reads := S (clock_reads e);
               webhooks_sent := webhooks_sent e; worker_cancels := worker_cancels e;
               probes_ready := probes_ready e |}).

(** ** PredictionEventHandler *)

(** Modelled from the spec: [webhook_caller_filtered] (webhook.py is not among
    the sources) sends the snapshot only if the event tag is in the filter
    set, and never fails the job. *)
Definition webhook_caller_filtered (filter : list WebhookEvent)
    (snapshot : PredictionResponse) (ev : WebhookEvent) : M Eff unit :=
  modify (fun e =>
    {| should_cancel := should_cancel e; clock_reads := clock_reads e;
       webhooks_sent :=
         if existsb (WebhookEvent_eqb ev) filter
         then webhooks_sent e ++ [(ev, snapshot)] else webhooks_sent e;
       worker_cancels := worker_cancels e; probes_ready := probes_ready e |}).

Definition _send_webhook (self : PredictionEventHandler) (ev : WebhookEvent) : M TS unit :=
  match _webhook_sender self with
  | None => ret tt
  | Some filter =>
      dict_response <- gets ts_p ;;
      lift_eff (webhook_caller_filtered filter dict_response ev)
  end.

Definition _upload_files (self : PredictionEventHandler) (output : value) : M TS value :=
  match _file_uploader self with
  | None => ret output
  | Some uploader =>
      match uploader output with
      | Some v => ret v
      | None => raise (Exn FileUploadError "Got error trying to upload output files")
      end
  end.

Definition _set_completed_at : M TS unit :=
  t <- lift_eff now ;;
  modify_p (with_completed_at (Some t)).

(** [PredictionEventHandler.__init__], run on the freshly built response. *)
Definition handler_init (self : PredictionEventHandler) : M TS unit :=
  modify_p (with_status PROCESSING) ;;
  modify_p (with_output VNone) ;;
  modify_p (with_logs "") ;;
  t <- lift_eff now ;;
  modify_p (with_started_at t) ;;
  if negb SKIP_START_EVENT then _send_webhook self START else ret tt.

Definition set_output (self : PredictionEventHandler) (output : value) : M TS unit :=
  cur <- gets (fun s => pr_output (ts_p s)) ;;
  py_assert (is_None cur) "Predictor unexpectedly returned multiple outputs" ;;
  v <- _upload_files self output ;;
  modify_p (with_output v).

Definition append_output (self : PredictionEventHandler) (output : value) : M TS unit :=
  cur <- gets (fun s => pr_output (ts_p s)) ;;
  match cur with
  | VList items =>
      v <- _upload_files self output ;;
      modify_p (with_output (VList (items ++ [v]))) ;;
      _send_webhook self OUTPUT
  | _ => raise (Exn AssertionError "Cannot append output before setting output")
  end.

(** [self.p.logs] is a string from [__init__] on, so the assertion that it
    is not None cannot fail. *)
Definition append_logs (self : PredictionEventHandler) (logs : string) : M TS unit :=
  modify_p (fun r => with_logs (pr_logs r ++ logs) r) ;;
  _send_webhook self LOGS.

Definition succeeded (self : PredictionEventHandler) : M TS unit :=
  modify_p (with_status SUCCEEDED) ;;
  _set_completed_at ;;
  done_at <- gets (fun s => pr_completed_at (ts_p s)) ;;
  match done_at with
  | None => raise (Exn AssertionError "")
  | Some t =>
      modify_p (fun r => with_metrics (Some (t - pr_started_at r)%Z) r) ;;
      _send_webhook self COMPLETED
  end.

Definition failed (self : PredictionEventHandler) (error : string) : M TS unit :=
  modify_p (with_status FAILED) ;;
  modify_p (with_error (Some error)) ;;
  _set_completed_at ;;
  _send_webhook self COMPLETED.

Definition canceled_ (self : PredictionEventHandler) : M TS unit :=
  modify_p (with_status CANCELED) ;;
  _set_completed_at ;;
  _send_webhook self COMPLETED.

(** ** The event translator *)

(** How one iteration of the [for event in worker.predict(...)] loop ends:
    the loop goes on with the shape recorded so far, or it breaks. *)
Inductive control :=
| Continue (output_type : option bool)
| Break.

(** [if should_cancel.is_set(): worker.cancel(); should_cancel.clear()] *)
Definition poll_cancel : M TS unit :=
  lift_eff (fun e =>
    if should_cancel e
    then (inr tt, {| should_cancel := false; clock_reads := clock_reads e;
                     webhooks_sent := webhooks_sent e;
                     worker_cancels := S (worker_cancels e);
                     probes_ready := probes_ready e |})
    else (inr tt, e)).

Definition unexpected_output : string := "Predictor returned unexpected output".

(** The body of the loop of [_predict], from the [await] to the end of the
    iteration. [output_type] holds the [multi] flag of the recorded
    [PredictionOutputType] event. *)
Definition loop_body (event_handler : PredictionEventHandler)
    (output_type : option bool) (ev : event) : M TS control :=
  poll_cancel ;;
  match ev with
  | Heartbeat => ret (Continue output_type)
  | Log message =>
      append_logs event_handler message ;;
      ret (Continue output_type)
  | PredictionOutputType multi =>
      match output_type with
      | Some _ =>
          failed event_handler unexpected_output ;;
          ret Break
      | None =>
          (if multi then set_output event_handler (VList []) else ret tt) ;;
          ret (Continue (Some multi))
      end
  | PredictionOutput payload =>
      match output_type with
      | None =>
          failed event_handler unexpected_output ;;
          ret Break
      | Some true =>
          append_output event_handler payload ;;
          ret (Continue output_type)
      | Some false =>
          set_output event_handler payload ;;
          ret (Continue output_type)
      end
  | Done done_canceled done_error done_error_detail =>
      (if done_canceled then canceled_ event_handler
       else if done_error then failed event_handler (py_str done_error_detail)
       else succeeded event_handler) ;;
      ret (Continue output_type)
  | Unrecognized => ret (Continue output_type)
  end.

Fixpoint _predict_loop (event_handler : PredictionEventHandler)
    (output_type : option bool) (g : gen) : M TS unit :=
  match g with
  | Exhausted => ret tt
  | Raises e => raise e
  | Yield ev rest =>
      c <- loop_body event_handler output_type ev ;;
      match c with
      | Break => ret tt
      | Continue output_type' => _predict_loop event_handler output_type' rest
      end
  end.

(** The loop over [input_dict.items()]: [Some d] is the converted dict,
    [None] the early [return event_handler.response] after a download
    failure. Only [RequestException] is caught. *)
Fixpoint convert_inputs (event_handler : PredictionEventHandler)
    (items : list (string * input_value))
    : M TS (option (list (string * value))) :=
  match items with
  | [] => ret (Some [])
  | (k, Plain v) :: rest =>
      r <- convert_inputs event_handler rest ;;
      ret (option_map (cons (k, v)) r)
  | (k, URLPath (inr v)) :: rest =>
      r <- convert_inputs event_handler rest ;;
      ret (option_map (cons (k, v)) r)
  | (k, URLPath (inl e)) :: rest =>
      if is_RequestException e then
        append_logs event_handler (format_exc e) ;;
        failed event_handler (exn_msg e) ;;
        ret None
      else raise e
  end.

(** [_predict]. [worker_predict] is [worker.predict(input_dict, poll=0.1)]:
    the events the worker produces for these inputs. *)
Definition _predict (worker_predict : list (string * value) -> gen)
    (request : PredictionRequest) (event_handler : PredictionEventHandler)
    : M TS unit :=
  r <- convert_inputs event_handler (rq_input request) ;;
  match r with
  | None => ret tt
  | Some input_dict => _predict_loop event_handler None (worker_predict input_dict)
  end.

(** The [except Exception as e] clause of [predict]. *)
Definition predict_except (event_handler : PredictionEventHandler) (e : exn) : M TS unit :=
  append_logs event_handler (format_exc e) ;;
  failed event_handler (exn_msg e) ;;
  raise e.

(** [predict], run from start to completion. *)
Definition predict (worker_predict : list (string * value) -> gen)
    (request : PredictionRequest) (event_handler : PredictionEventHandler)
    : M TS unit :=
  try_except (_predict worker_predict request event_handler)
             (predict_except event_handler).

(** *** The same coroutine, one resumption at a time

    A predict coroutine is suspended either before its first run or at the
    [await asyncio.sleep(0)] of the loop, holding the event just fetched. *)
Inductive PredictFrame :=
| PF_start
| PF_loop (output_type : option bool) (ev : event) (rest : gen).

(** Advancing the generator at the head of the [for] loop. *)
Definition fetch (output_type : option bool) (g : gen) : M TS (option PredictFrame) :=
  match g with
  | Exhausted => ret None
  | Raises e => raise e
  | Yield ev rest => ret (Some (PF_loop output_type ev rest))
  end.

Definition resume_body (worker_predict : list (string * value) -> gen)
    (request : PredictionRequest) (event_handler : PredictionEventHandler)
    (frame : PredictFrame) : M TS (option PredictFrame) :=
  match frame with
  | PF_start =>
      r <- convert_inputs event_handler (rq_input request) ;;
      match r with
      | None => ret None
      | Some input_dict => fetch None (worker_predict input_dict)
      end
  | PF_loop output_type ev rest =>
      c <- loop_body event_handler output_type ev ;;
      match c with
      | Break => ret None
      | Continue output_type' => fetch output_type' rest
      end
  end.

(** One resumption of [predict]: [Some frame] when it suspends again, [None]
    when it returns the response, an exception when it raises. *)
Definition resume_predict (worker_predict : list (string * value) -> gen)
    (request : PredictionRequest) (event_handler : PredictionEventHandler)
    (frame : PredictFrame) : M TS (option PredictFrame) :=
  try_except (resume_body worker_predict request event_handler frame)
             (fun e => predict_except event_handler e ;; ret None).

(** Resuming until the coroutine completes. *)
Fixpoint drive_predict (fuel : nat) (worker_predict : list (string * value) -> gen)
    (request : PredictionRequest) (event_handler : PredictionEventHandler)
    (frame : PredictFrame) : M TS (option unit) :=
  match fuel with
  | O => ret None
  | S fuel' =>
      f <- resume_predict worker_predict request event_handler frame ;;
      match f with
      | None => ret (Some tt)
      | Some frame' => drive_predict fuel' worker_predict request event_handler frame'
      end
  end.

Fixpoint gen_length (g : gen) : nat :=
  match g with
  | Yield _ rest => S (gen_length rest)
  | _ => O
  end.

(** The response as the caller finds it after each resumption of the
    coroutine, up to and including the one that completes it. *)
Fixpoint snapshots (fuel : nat) (worker_predict : list (string * value) -> gen)
    (request : PredictionRequest) (event_handler : PredictionEventHandler)
    (frame : PredictFrame) (s : TS) : list PredictionResponse :=
  match fuel with
  | O => []
  | S fuel' =>
      match resume_predict worker_predict request event_handler frame s with
      | (inr (Some frame'), s') =>
          ts_p s' :: snapshots fuel' worker_predict request event_handler frame' s'
      | (_, s') => [ts_p s']
      end
  end.

(** No event and no exception follows a [Done] event. *)
Fixpoint done_last (g : gen) : bool :=
  match g with
  | Yield ev rest =>
      if is_Done ev
      then match rest with Exhausted => true | _ => false end
      else done_last rest
  | _ => true
  end.

(** The events still to come in a suspended coroutine satisfy [done_last]. *)
Definition frame_done_last (worker_predict : list (string * value) -> gen)
    (frame : PredictFrame) : Prop :=
  match frame with
  | PF_start => forall input_dict, done_last (worker_predict input_dict) = true
  | PF_loop _ ev rest => done_last (Yield ev rest) = true
  end.

(** ** setup *)

Definition missing_done : string := "Error: did not receive 'done' event from setup!".

(** The [try] block of [setup]: the loop over [worker.setup()] with its
    [except Exception] clause. *)
Fixpoint setup_loop (g : gen) (logs : list string) (status : option Status)
    : list string * option Status :=
  match g with
  | Exhausted => (logs, status)
  | Raises e => ((logs ++ [format_exc e])%list, Some FAILED)
  | Yield ev rest =>
      match ev with
      | Log message => setup_loop rest (logs ++ [message])%list status
      | Done _ done_error _ =>
          setup_loop rest logs (Some (if done_error then FAILED else SUCCEEDED))
      | _ => setup_loop rest logs status
      end
  end.

(** [ProbeHelper().ready()] *)
Definition probes_ready_call : M Eff unit :=
  modify (fun e =>
    {| should_cancel := should_cancel e; clock_reads := clock_reads e;
       webhooks_sent := webhooks_sent e; worker_cancels := worker_cancels e;
       probes_ready := S (probes_ready e) |}).

(** What follows the [try] block of [setup]. *)
Definition setup_finish (started_at : datetime) (logs : list string)
    (status : option Status) : M Eff SetupResult :=
  let '(logs, status) :=
    match status with
    | None => ((logs ++ [missing_done])%list, FAILED)
    | Some st => (logs, st)
    end in
  completed_at <- now ;;
  (if Status_eqb status SUCCEEDED then probes_ready_call else ret tt) ;;
  ret {| sr_started_at := started_at; sr_completed_at := completed_at;
         sr_logs := String.concat "" logs; sr_status := status |}.

(** [setup], run from start to completion; [g] is [worker.setup()]. *)
Definition setup (g : gen) : M Eff SetupResult :=
  started_at <- now ;;
  let '(logs, status) := setup_loop g [] None in
  setup_finish started_at logs status.

(** The setup coroutine suspended at its [await], holding the event just
    fetched, or before its first run. *)
Inductive SetupFrame :=
| SF_start (g : gen)
| SF_loop (started_at : datetime) (logs : list string) (status : option Status)
          (ev : event) (rest : gen).

(** Advancing [worker.setup()] at the head of the loop: suspend on the next
    event, or leave the [try] block and finish. *)
Definition setup_fetch (started_at : datetime) (logs : list string)
    (status : option Status) (g : gen) : M Eff (SetupFrame + SetupResult) :=
  match g with
  | Exhausted => r <- setup_finish started_at logs status ;; ret (inr r)
  | Raises e =>
      r <- setup_finish started_at (logs ++ [format_exc e])%list (Some FAILED) ;;
      ret (inr r)
  | Yield ev rest => ret (inl (SF_loop started_at logs status ev rest))
  end.

Definition resume_setup (frame : SetupFrame) : M Eff (SetupFrame + SetupResult) :=
  match frame with
  | SF_start g =>
      started_at <- now ;;
      setup_fetch started_at [] None g
  | SF_loop started_at logs status ev rest =>
      match ev with
      | Log message => setup_fetch started_at (logs ++ [message])%list status rest
      | Done _ done_error _ =>
          setup_fetch started_at logs
            (Some (if done_error then FAILED else SUCCEEDED)) rest
      | _ => setup_fetch started_at logs status rest
      end
  end.

Fixpoint drive_setup (fuel : nat) (frame : SetupFrame) : M Eff (option SetupResult) :=
  match fuel with
  | O => ret None
  | S fuel' =>
      f <- resume_setup frame ;;
      match f with
      | inr r => ret (Some r)
      | inl frame' => drive_setup fuel' frame'
      end
  end.

(** ** PredictionRunner

    Responses and tasks are Python objects held by reference: the runner,
    the coroutine and the caller all hold a handle into a store. *)

Inductive Coroutine :=
| SetupCoro (frame : SetupFrame)
| PredictCoro (p : loc) (event_handler : PredictionEventHandler)
              (request : PredictionRequest)
              (worker_predict : list (string * value) -> gen)
              (frame : PredictFrame).

Inductive TaskResult :=
| SetupReturned (r : SetupResult)
| PredictReturned (p : loc)
| TaskRaised (e : exn)
| TaskCancelled.

Inductive TaskState :=
| Pending (c : Coroutine)
| Finished (r : TaskResult).

(** An [asyncio.Task]: its coroutine or its result, and whether
    [Task.cancel()] was requested. *)
Record Task := { t_state : TaskState; t_must_cancel : bool }.

(** The runner's attributes; [self._should_cancel] is [should_cancel] of the
    effects, since the predict coroutine shares it. *)
Record PredictionRunner := {
  _response : option loc;
  _result : option tid;
  _shutdown_event : option bool;
  _upload_url : option string;
}.

Record System := {
  runner : PredictionRunner;
  responses : list PredictionResponse;
  tasks : list Task;
  eff : Eff;
  worker_terminated : bool;
}.

Definition set_runner (f : PredictionRunner -> PredictionRunner) (s : System) :=
  {| runner := f (runner s); responses := responses s; tasks := tasks s;
     eff := eff s; worker_terminated := worker_terminated s |}.
Definition set_responses (x : list PredictionResponse) (s : System) :=
  {| runner := runner s; responses := x; tasks := tasks s;
     eff := eff s; worker_terminated := worker_terminated s |}.
Definition set_tasks (x : list Task) (s : System) :=
  {| runner := runner s; responses := responses s; tasks := x;
     eff := eff s; worker_terminated := worker_terminated s |}.
Definition set_eff (x : Eff) (s : System) :=
  {| runner := runner s; responses := responses s; tasks := tasks s;
     eff := x; worker_terminated := worker_terminated s |}.
Definition set_worker_terminated (x : bool) (s : System) :=
  {| runner := runner s; responses := responses s; tasks := tasks s;
     eff := eff s; worker_terminated := x |}.

Definition with__response (x : option loc) (r : PredictionRunner) :=
  {| _response := x; _result := _result r;
     _shutdown_event := _shutdown_event r; _upload_url := _upload_url r |}.
Definition with__result (x : option tid) (r : PredictionRunner) :=
  {| _response := _response r; _result := x;
     _shutdown_event := _shutdown_event r; _upload_url := _upload_url r |}.
Definition with__shutdown_event (x : option bool) (r : PredictionRunner) :=
  {| _response := _response r; _result := _result r;
     _shutdown_event := x; _upload_url := _upload_url r |}.

(** [PredictionRunner.__init__] *)
Definition init (shutdown_event : option bool) (upload_url : option string) : System :=
  {| runner := {| _response := None; _result := None;
                  _shutdown_event := shutdown_event; _upload_url := upload_url |};
     responses := []; tasks := [];
     eff := {| should_cancel := false; clock_reads := 0; webhooks_sent := [];
               worker_cancels := 0; probes_ready := 0 |};
     worker_terminated := false |}.

Definition is_pending (tk : Task) : bool :=
  match t_state tk with Pending _ => true | Finished _ => false end.

(** [task.done()] *)
Definition task_done (s : System) (t : tid) : bool :=
  match tasks s !! t with
  | Some tk => negb (is_pending tk)
  | None => false
  end.

(** [self._response.id] *)
Definition response_id (s : System) (l : loc) : option string :=
  match responses s !! l with
  | Some r => pr_id r
  | None => None
  end.

(** [a == b] on optional identities. *)
Definition id_eqb (a b : option string) : bool :=
  match a, b with
  | Some x, Some y => String.eqb x y
  | None, None => true
  | _, _ => false
  end.

Definition is_busy : M System bool :=
  res <- gets (fun s => _result (runner s)) ;;
  match res with
  | None => ret false
  | Some t =>
      d <- gets (fun s => task_done s t) ;;
      if negb d then ret true
      else
        modify (set_runner (with__response None)) ;;
        modify (set_runner (with__result None)) ;;
        ret false
  end.

(** [asyncio.create_task(coro)]: a new pending task, under a new handle. *)
Definition create_task (c : Coroutine) : M System tid :=
  t <- gets (fun s => length (tasks s)) ;;
  modify (fun s => set_tasks (tasks s ++ [{| t_state := Pending c; t_must_cancel := false |}]) s) ;;
  ret t.

(** [PredictionRunner.setup]; [g] is what [worker.setup()] will produce. *)
Definition Runner_setup (g : gen) : M System tid :=
  busy <- is_busy ;;
  if busy then raise (Exn RunnerBusyError "")
  else
    t <- create_task (SetupCoro (SF_start g)) ;;
    modify (set_runner (with__result (Some t))) ;;
    ret t.

(** [create_event_handler]: builds the response from the request, the
    handler around it, and runs the handler's [__init__]; the new response
    gets a new handle. Fields the request does not carry start out unset
    ([status], [logs] and [started_at] are overwritten by [__init__]). *)
Definition create_event_handler (prediction : PredictionRequest)
    (upload_url : option string) : M System (loc * PredictionEventHandler) :=
  let response :=
    {| pr_id := rq_id prediction; pr_input := rq_input prediction;
       pr_status := PROCESSING; pr_output := VNone; pr_logs := "";
       pr_error := None; pr_started_at := 0%Z; pr_completed_at := None;
       pr_metrics := None |} in
  let events_filter :=
    match rq_webhook_events_filter prediction with
    | None | Some [] => default_events
    | Some f => f
    end in
  let webhook_sender :=
    match rq_webhook prediction with
    | Some _ => Some events_filter
    | None => None
    end in
  let file_uploader := option_map remote_store upload_url in
  let event_handler :=
    {| _webhook_sender := webhook_sender; _file_uploader := file_uploader |} in
  fun s =>
    let '(r, ts) := handler_init event_handler {| ts_p := response; ts_eff := eff s |} in
    let s' := set_eff (ts_eff ts) (set_responses (responses s ++ [ts_p ts]) s) in
    match r with
    | inl e => (inl e, s')
    | inr _ => (inr (length (responses s), event_handler), s')
    end.

(** [PredictionRunner.predict]; [worker_predict] is what the worker will
    produce for this job. *)
Definition Runner_predict (prediction : PredictionRequest) (upload : bool)
    (worker_predict : list (string * value) -> gen) : M System (loc * tid) :=
  busy <- is_busy ;;
  if busy then
    resp <- gets (fun s => _response (runner s)) ;;
    match resp with
    | None => raise (Exn RunnerBusyError "")
    | Some l =>
        res <- gets (fun s => _result (runner s)) ;;
        match res with
        | None => raise (Exn AssertionError "")
        | Some t =>
            rid <- gets (fun s => response_id s l) ;;
            if negb (id_eqb (rq_id prediction) None) && id_eqb (rq_id prediction) rid
            then ret (l, t)
            else raise (Exn RunnerBusyError "")
        end
    end
  else
    modify (fun s => set_eff (with_should_cancel false (eff s)) s) ;;
    upload_url <- gets (fun s => if upload then _upload_url (runner s) else None) ;;
    h <- create_event_handler prediction upload_url ;;
    let '(l, event_handler) := h in
    modify (set_runner (with__response (Some l))) ;;
    t <- create_task (PredictCoro l event_handler prediction worker_predict PF_start) ;;
    modify (set_runner (with__result (Some t))) ;;
    ret (l, t).

(** [Task.cancel()]: a request, honoured when the task is next resumed. *)
Definition task_cancel (t : tid) (s : System) : System :=
  match tasks s !! t with
  | Some tk =>
      if is_pending tk
      then set_tasks (<[t := {| t_state := t_state tk; t_must_cancel := true |}]> (tasks s)) s
      else s
  | None => s
  end.

Definition shutdown : M System unit :=
  res <- gets (fun s => _result (runner s)) ;;
  match res with
  | Some t => modify (task_cancel t)
  | None => ret tt
  end ;;
  modify (set_worker_terminated true).

Definition cancel (prediction_id : option string) : M System unit :=
  busy <- is_busy ;;
  if negb busy then ret tt
  else
    resp <- gets (fun s => _response (runner s)) ;;
    match resp with
    | None => raise (Exn AssertionError "")
    | Some l =>
        rid <- gets (fun s => response_id s l) ;;
        if negb (id_eqb prediction_id None) && negb (id_eqb prediction_id rid)
        then raise (Exn UnknownPredictionError "")
        else modify (fun s => set_eff (with_should_cancel true (eff s)) s)
    end.

(** *** The event loop *)

(** The done-callback made by [make_error_handler]: [task.exception()] is
    an exception only for a task that raised; then the shutdown event, if
    there is one, is set. (For a cancelled task [task.exception()] itself
    raises inside the callback, and nothing is set.) *)
Definition handle_error (r : TaskResult) (s : System) : System :=
  match r with
  | TaskRaised _ =>
      set_runner (fun rn => with__shutdown_event
                    (option_map (fun _ => true) (_shutdown_event rn)) rn) s
  | _ => s
  end.

(** A task completes: its result is stored and its done-callbacks run.
    ([handle_cleanup] only touches the request's input object.) *)
Definition finish (t : tid) (r : TaskResult) (s : System) : System :=
  handle_error r
    (set_tasks (<[t := {| t_state := Finished r; t_must_cancel := false |}]> (tasks s)) s).

Definition suspend (t : tid) (c : Coroutine) (s : System) : System :=
  set_tasks (<[t := {| t_state := Pending c; t_must_cancel := false |}]> (tasks s)) s.

(** The event loop resumes task [t] and runs it to its next [await] or to
    completion. A task whose cancellation was requested gets
    [CancelledError] thrown in, which no [except Exception] catches. *)
Definition run_task (t : tid) (s : System) : System :=
  match tasks s !! t with
  | Some {| t_state := Pending c; t_must_cancel := must_cancel |} =>
      if must_cancel then finish t TaskCancelled s
      else
        match c with
        | SetupCoro frame =>
            match resume_setup frame (eff s) with
            | (inr (inl frame'), e') => suspend t (SetupCoro frame') (set_eff e' s)
            | (inr (inr r), e') => finish t (SetupReturned r) (set_eff e' s)
            | (inl ex, e') => finish t (TaskRaised ex) (set_eff e' s)
            end
        | PredictCoro l event_handler request worker_predict frame =>
            match responses s !! l with
            | None => s
            | Some r =>
                let '(res, ts) :=
                  resume_predict worker_predict request event_handler frame
                    {| ts_p := r; ts_eff := eff s |} in
                let s' := set_eff (ts_eff ts)
                            (set_responses (<[l := ts_p ts]> (responses s)) s) in
                match res with
                | inr (Some frame') =>
                    suspend t (PredictCoro l event_handler request worker_predict frame') s'
                | inr None => finish t (PredictReturned l) s'
                | inl ex => finish t (TaskRaised ex) s'
                end
            end
        end
  | _ => s
  end.

(** What can happen to the system: a call of one of the runner's methods,
    or the event loop resuming a task. *)
Inductive action :=
| Call_setup (g : gen)
| Call_predict (prediction : PredictionRequest) (upload : bool)
               (worker_predict : list (string * value) -> gen)
| Call_is_busy
| Call_cancel (prediction_id : option string)
| Call_shutdown
| Loop_run (t : tid).

Definition perform (a : action) (s : System) : System :=
  match a with
  | Call_setup g => snd (Runner_setup g s)
  | Call_predict prediction upload worker_predict =>
      snd (Runner_predict prediction upload worker_predict s)
  | Call_is_busy => snd (is_busy s)
  | Call_cancel prediction_id => snd (cancel prediction_id s)
  | Call_shutdown => snd (shutdown s)
  | Loop_run t => run_task t s
  end.

Inductive reachable : System -> Prop :=
| reachable_init shutdown_event upload_url :
    reachable (init shutdown_event upload_url)
| reachable_step s a : reachable s -> reachable (perform a s).

(** The task the runner holds, when it is still outstanding. *)
Definition outstanding (s : System) : option (tid * Coroutine) :=
  match _result (runner s) with
  | Some t =>
      match tasks s !! t with
      | Some {| t_state := Pending c |} => Some (t, c)
      | _ => None
      end
  | None => None
  end.

(** What holds of every reachable state: the runner holds a response
    exactly while its task is a predict task, that response is the one the
    coroutine writes to and carries the request's identity, and no other
    task is pending. *)
Definition current_ok (s : System) (tk : Task) : Prop :=
  match t_state tk with
  | Pending (SetupCoro _) => _response (runner s) = None
  | Pending (PredictCoro l _ request _ _) =>
      _response (runner s) = Some l /\
      exists r, responses s !! l = Some r /\ pr_id r = rq_id request
  | Finished _ => True
  end.

Record wf (s : System) : Prop := {
  wf_idle : _result (runner s) = None -> _response (runner s) = None;
  wf_current : forall t, _result (runner s) = Some t ->
      exists tk, tasks s !! t = Some tk /\ current_ok s tk;
  wf_others : forall t tk, tasks s !! t = Some tk -> is_pending tk = true ->
      _result (runner s) = Some t;
}.

(** Iterations of the loop of [_predict] over a list of events. *)
Fixpoint run_events (event_handler : PredictionEventHandler)
    (output_type : option bool) (evs : list event) : M TS control :=
  match evs with
  | [] => ret (Continue output_type)
  | ev :: rest =>
      c <- loop_body event_handler output_type ev ;;
      match c with
      | Break => ret Break
      | Continue output_type' => run_events event_handler output_type' rest
      end
  end.

(** Whether a webhook sender passes the tag on. *)
Definition sends (self : PredictionEventHandler) (ev : WebhookEvent) : bool :=
  match _webhook_sender self with
  | Some filter => existsb (WebhookEvent_eqb ev) filter
  | None => false
  end.

(** The state after a terminal method: the response [r'], one more clock
    reading, and the "completed" notification if the sender passes it on. *)
Definition completed_state (self : PredictionEventHandler)
    (r' : PredictionResponse) (s : TS) : TS :=
  {| ts_p := r';
     ts_eff := {| should_cancel := should_cancel (ts_eff s);
                  clock_reads := S (clock_reads (ts_eff s));
                  webhooks_sent :=
                    if sends self COMPLETED
                    then (webhooks_sent (ts_eff s) ++ [(COMPLETED, r')])%list
                    else webhooks_sent (ts_eff s);
                  worker_cancels := worker_cancels (ts_eff s);
                  probes_ready := probes_ready (ts_eff s) |} |}.


(** The messages of the [Log] events of a list. *)
Fixpoint log_messages (evs : list event) : list string :=
  match evs with
  | [] => []
  | Log message :: rest => message :: log_messages rest
  | _ :: rest => log_messages rest
  end.

(** The fields that only a terminal method or [__init__] writes. *)
Definition same_verdict (r r' : PredictionResponse) : Prop :=
  pr_id r' = pr_id r /\ pr_status r' = pr_status r /\ pr_error r' = pr_error r /\
  pr_completed_at r' = pr_completed_at r /\ pr_metrics r' = pr_metrics r /\
  pr_started_at r' = pr_started_at r.

(** A finished run, seen as the result of resuming to completion. *)
Definition completed {S A} (r : (exn + A) * S) : (exn + option A) * S :=
  match r with
  | (inl e, s) => (inl e, s)
  | (inr a, s) => (inr (Some a), s)
  end.

(** What [is_busy] does to the runner when it finds its task done. *)
Definition reclaim (s : System) : System :=
  set_runner (with__result None) (set_runner (with__response None) s).

(** Effects that differ at most in the clock and in the webhooks sent. *)
Definition eff_frame (e e' : Eff) : Prop :=
  should_cancel e' = should_cancel e /\
  worker_cancels e' = worker_cancels e /\
  probes_ready e' = probes_ready e.

(** The response [create_event_handler] builds, once [__init__] has run at
    clock value [t]. *)
Definition fresh_response (prediction : PredictionRequest) (t : datetime)
    : PredictionResponse :=
  {| pr_id := rq_id prediction; pr_input := rq_input prediction;
     pr_status := PROCESSING; pr_output := VNone; pr_logs := "";
     pr_error := None; pr_started_at := t; pr_completed_at := None;
     pr_metrics := None |}.

(** An input item whose conversion does not raise. *)
Definition converts (item : string * input_value) : bool :=
  match snd item with
  | URLPath (inl _) => false
  | _ => true
  end.

(** What [_upload_files] returns for an output; [None] when it raises. *)
Definition uploaded (self : PredictionEventHandler) (output : value) : option value :=
  match _file_uploader self with
  | None => Some output
  | Some uploader => uploader output
  end.

(** The response [failed(error)] leaves when it runs at clock value [t],
    after [append_logs(tb)]. *)
Definition failed_response (tb error : string) (t : datetime)
    (r : PredictionResponse) : PredictionResponse :=
  with_completed_at (Some t)
    (with_error (Some error)
       (with_status FAILED (with_logs (pr_logs r ++ tb) r))).

(** A later state of the same response: identity, input and start time as
    they were, and the logs extended. *)
Definition continues (r r' : PredictionResponse) : Prop :=
  pr_id r' = pr_id r /\ pr_input r' = pr_input r /\
  pr_started_at r' = pr_started_at r /\
  exists suffix, pr_logs r' = (pr_logs r ++ suffix)%string.

(** A step of the translator for this handler: the response continues, and
    nothing was sent if the handler has no webhook sender. *)
Definition advance (self : PredictionEventHandler) (s s' : TS) : Prop :=
  continues (ts_p s) (ts_p s') /\
  (_webhook_sender self = None ->
   webhooks_sent (ts_eff s') = webhooks_sent (ts_eff s)).

(** The handler [create_event_handler] builds for a request and an upload
    url. *)
Definition handler_for (prediction : PredictionRequest) (upload_url : option string)
    : PredictionEventHandler :=
  {| _webhook_sender :=
       match rq_webhook prediction with
       | Some _ =>
           Some match rq_webhook_events_filter prediction with
                | None | Some [] => default_events
                | Some f => f
                end
       | None => None
       end;
     _file_uploader := option_map remote_store upload_url |}.

(** A pending predict task runs with the handler built for its request,
    with no upload url or with the runner's. *)
Definition handler_ok (url : option string) (tk : Task) : Prop :=
  match t_state tk with
  | Pending (PredictCoro _ event_handler request _ _) =>
      exists upload_url,
        event_handler = handler_for request upload_url /\
        (upload_url = None \/ upload_url = url)
  | _ => True
  end.

(** The event loop resuming task [t] [n] times in a row. *)
Fixpoint run_loop (n : nat) (t : tid) (s : System) : System :=
  match n with
  | O => s
  | S n' => run_loop n' t (run_task t s)
  end.

(** How a task ends for a result of [predict] on the response at [l]. *)
Definition task_result_of {A} (l : loc) (res : exn + A) : TaskResult :=
  match res with
  | inl e => TaskRaised e
  | inr _ => PredictReturned l
  end.

(** ** Theorems *)

(** *** The event handler's methods *)

Lemma poll_cancel_run s :
  poll_cancel s =
    (inr tt,
     {| ts_p := ts_p s;
        ts_eff := {| should_cancel := false;
                     clock_reads := clock_reads (ts_eff s);
                     webhooks_sent := webhooks_sent (ts_eff s);
                     worker_cancels :=
                       if should_cancel (ts_eff s)
                       then S (worker_cancels (ts_eff s))
                       else worker_cancels (ts_eff s);
                     probes_ready := probes_ready (ts_eff s) |} |}).
Proof.
  destruct s as [r [sc n w k pr]]; cbv [poll_cancel lift_eff]; simpl.
  destruct sc; reflexivity.
Qed.

Lemma _send_webhook_run self ev s :
  _send_webhook self ev s =
    (inr tt,
     {| ts_p := ts_p s;
        ts_eff := {| should_cancel := should_cancel (ts_eff s);
                     clock_reads := clock_reads (ts_eff s);
                     webhooks_sent :=
                       if sends self ev
                       then (webhooks_sent (ts_eff s) ++ [(ev, ts_p s)])%list
                       else webhooks_sent (ts_eff s);
                     worker_cancels := worker_cancels (ts_eff s);
                     probes_ready := probes_ready (ts_eff s) |} |}).
Proof.
  destruct s as [r [sc n w k pr]], self as [[f|] u];
    cbv [_send_webhook sends bind gets lift_eff webhook_caller_filtered modify ret]; simpl;
    reflexivity.
Qed.

Lemma failed_run self error s :
  failed self error s =
    (inr tt,
     completed_state self
       (with_completed_at (Some (clock (clock_reads (ts_eff s))))
          (with_error (Some error) (with_status FAILED (ts_p s)))) s).
Proof.
  unfold failed, bind at 1 2 3. cbv [modify_p modify _set_completed_at lift_eff now bind].
  rewrite _send_webhook_run. reflexivity.
Qed.

Lemma canceled_run self s :
  canceled_ self s =
    (inr tt,
     completed_state self
       (with_completed_at (Some (clock (clock_reads (ts_eff s))))
          (with_status CANCELED (ts_p s))) s).
Proof.
  unfold canceled_, bind at 1 2. cbv [modify_p modify _set_completed_at lift_eff now bind].
  rewrite _send_webhook_run. reflexivity.
Qed.

Lemma succeeded_run self s :
  succeeded self s =
    (inr tt,
     completed_state self
       (with_metrics
          (Some (clock (clock_reads (ts_eff s)) - pr_started_at (ts_p s))%Z)
          (with_completed_at (Some (clock (clock_reads (ts_eff s))))
             (with_status SUCCEEDED (ts_p s)))) s).
Proof.
  unfold succeeded, bind at 1 2 3.
  cbv [modify_p modify _set_completed_at lift_eff now bind gets]. simpl.
  cbv [bind modify]. rewrite _send_webhook_run. reflexivity.
Qed.

Lemma append_logs_run self logs s :
  append_logs self logs s =
    _send_webhook self LOGS
      {| ts_p := with_logs (pr_logs (ts_p s) ++ logs) (ts_p s); ts_eff := ts_eff s |}.
Proof. reflexivity. Qed.

(** *** One iteration of the loop *)

Lemma loop_body_unfold event_handler output_type ev s :
  loop_body event_handler output_type ev s =
    match ev with
    | Heartbeat => ret (Continue output_type)
    | Log message =>
        append_logs event_handler message ;; ret (Continue output_type)
    | PredictionOutputType multi =>
        match output_type with
        | Some _ => failed event_handler unexpected_output ;; ret Break
        | None =>
            (if multi then set_output event_handler (VList []) else ret tt) ;;
            ret (Continue (Some multi))
        end
    | PredictionOutput payload =>
        match output_type with
        | None => failed event_handler unexpected_output ;; ret Break
        | Some true =>
            append_output event_handler payload ;; ret (Continue output_type)
        | Some false =>
            set_output event_handler payload ;; ret (Continue output_type)
        end
    | Done done_canceled done_error done_error_detail =>
        (if done_canceled then canceled_ event_handler
         else if done_error then failed event_handler (py_str done_error_detail)
         else succeeded event_handler) ;;
        ret (Continue output_type)
    | Unrecognized => ret (Continue output_type)
    end (snd (poll_cancel s)).
Proof.
  unfold loop_body, bind at 1. rewrite poll_cancel_run. reflexivity.
Qed.

(** The response a [Done] event leaves, read at clock value [t]. *)
Lemma loop_body_Done event_handler output_type c e d s :
  loop_body event_handler output_type (Done c e d) s =
    (inr (Continue output_type),
     completed_state event_handler
       (let t := clock (clock_reads (ts_eff s)) in
        if c then with_completed_at (Some t) (with_status CANCELED (ts_p s))
        else if e then
          with_completed_at (Some t)
            (with_error (Some (py_str d)) (with_status FAILED (ts_p s)))
        else
          with_metrics (Some (t - pr_started_at (ts_p s))%Z)
            (with_completed_at (Some t) (with_status SUCCEEDED (ts_p s))))
       (snd (poll_cancel s))).
Proof.
  rewrite loop_body_unfold, poll_cancel_run.
  destruct c; [unfold bind; rewrite canceled_run; reflexivity|].
  destruct e; [unfold bind; rewrite failed_run; reflexivity|].
  unfold bind; rewrite succeeded_run; reflexivity.
Qed.


Lemma same_verdict_refl r : same_verdict r r.
Proof. vm_compute. repeat split. Qed.

Lemma same_verdict_trans r1 r2 r3 :
  same_verdict r1 r2 -> same_verdict r2 r3 -> same_verdict r1 r3.
Proof. unfold same_verdict; intuition congruence. Qed.

Lemma _upload_files_p self output s r s' :
  _upload_files self output s = (r, s') -> s' = s.
Proof.
  unfold _upload_files. destruct (_file_uploader self) as [u|]; [destruct (u output)|];
    cbv [ret raise]; congruence.
Qed.

Lemma set_output_verdict self output s r s' :
  set_output self output s = (r, s') -> same_verdict (ts_p s) (ts_p s').
Proof.
  unfold set_output. cbv [bind gets py_assert].
  destruct (is_None (pr_output (ts_p s))); cbv [ret raise].
  - destruct (_upload_files self output s) as [[e|v] s1] eqn:E;
      apply _upload_files_p in E; subst s1.
    + intros [= <- <-]. apply same_verdict_refl.
    + cbv [modify_p modify]. intros [= <- <-]. repeat split.
  - intros [= <- <-]. apply same_verdict_refl.
Qed.

Lemma append_output_verdict self output s r s' :
  append_output self output s = (r, s') -> same_verdict (ts_p s) (ts_p s').
Proof.
  unfold append_output. cbv [bind gets].
  destruct (pr_output (ts_p s)); cbv [raise];
    try (intros [= <- <-]; apply same_verdict_refl).
  destruct (_upload_files self output s) as [[e|v] s1] eqn:E;
    apply _upload_files_p in E; subst s1.
  - intros [= <- <-]. apply same_verdict_refl.
  - cbv [modify_p modify]. rewrite _send_webhook_run. intros [= <- <-]. repeat split.
Qed.

(** An iteration on an event that is not [Done] and does not break the
    loop leaves status, error, timestamps and metrics as they were,
    whether it returns or raises. *)
Lemma loop_body_verdict event_handler output_type ev s r s' :
  is_Done ev = false ->
  loop_body event_handler output_type ev s = (r, s') ->
  r <> inr Break ->
  same_verdict (ts_p s) (ts_p s').
Proof.
  intros Hd. rewrite loop_body_unfold, poll_cancel_run. cbn [snd].
  set (s1 := {| ts_p := ts_p s; ts_eff := _ |}).
  change (ts_p s) with (ts_p s1). clearbody s1.
  destruct ev as [|m|multi|payload| | ]; try discriminate Hd.
  - intros [= <- <-] _. apply same_verdict_refl.
  - unfold bind. rewrite append_logs_run, _send_webhook_run.
    intros [= <- <-] _. repeat split.
  - destruct output_type.
    + unfold bind. rewrite failed_run. intros [= <- <-] H. congruence.
    + unfold bind. destruct multi.
      * destruct (set_output event_handler (VList []) s1) as [[e|[]] s2] eqn:E;
          apply set_output_verdict in E; cbv [ret]; intros [= <- <-] _; exact E.
      * cbv [ret]. intros [= <- <-] _. apply same_verdict_refl.
  - destruct output_type as [[|]|]; unfold bind.
    + destruct (append_output event_handler payload s1) as [[e|[]] s2] eqn:E;
        apply append_output_verdict in E; cbv [ret]; intros [= <- <-] _; exact E.
    + destruct (set_output event_handler payload s1) as [[e|[]] s2] eqn:E;
        apply set_output_verdict in E; cbv [ret]; intros [= <- <-] _; exact E.
    + rewrite failed_run. intros [= <- <-] H. congruence.
  - intros [= <- <-] _. apply same_verdict_refl.
Qed.

Lemma run_events_verdict event_handler evs : forall output_type s output_type' s',
  existsb is_Done evs = false ->
  run_events event_handler output_type evs s = (inr (Continue output_type'), s') ->
  same_verdict (ts_p s) (ts_p s').
Proof.
  induction evs as [|ev evs IH]; intros ot s ot' s' Hd; simpl.
  - intros [= <- <-]. apply same_verdict_refl.
  - simpl in Hd. apply orb_false_iff in Hd as [Hev Hd].
    unfold bind.
    destruct (loop_body event_handler ot ev s) as [[e|[ot1|]] s1] eqn:E;
      try discriminate.
    intros Hrun. eapply same_verdict_trans.
    + eapply loop_body_verdict; [exact Hev | exact E | discriminate].
    + eapply IH; eauto.
Qed.

(** C7, amended. A [Done] event never raises and does not break the loop.
    If it carries the canceled flag the response is marked canceled and its
    error message is left as it was: [canceled] does not reset it, so the
    message of an earlier failed [Done] stays. Else if it carries an error
    the response is marked failed with [str(error_detail)]; else it is
    marked succeeded and, then only, [metrics] is set to the time between
    [started_at] and [completed_at]. In all three cases [completed_at] is
    the clock reading taken now and the "completed" notification goes to the
    webhook sender. A canceled response has no error message when the stream
    started on a response without one and no [Done] event came before in the
    stream. *)
Theorem done_event_marks_result event_handler output_type c e d s :
  let t := clock (clock_reads (ts_eff s)) in
  exists r',
    loop_body event_handler output_type (Done c e d) s =
      (inr (Continue output_type),
       completed_state event_handler r' (snd (poll_cancel s))) /\
    pr_status r' = (if c then CANCELED else if e then FAILED else SUCCEEDED) /\
    pr_error r' =
      (if c then pr_error (ts_p s) else if e then Some (py_str d)
       else pr_error (ts_p s)) /\
    pr_metrics r' =
      (if c || e then pr_metrics (ts_p s)
       else Some (t - pr_started_at (ts_p s))%Z) /\
    pr_completed_at r' = Some t /\
    pr_started_at r' = pr_started_at (ts_p s) /\
    pr_output r' = pr_output (ts_p s) /\ pr_logs r' = pr_logs (ts_p s) /\
    webhooks_sent (ts_eff (completed_state event_handler r' (snd (poll_cancel s)))) =
      (if sends event_handler COMPLETED
       then webhooks_sent (ts_eff s) ++ [(COMPLETED, r')]
       else webhooks_sent (ts_eff s))%list /\
    (forall pre s0 output_type0,
        existsb is_Done pre = false ->
        run_events event_handler output_type0 pre s0 = (inr (Continue output_type), s) ->
        c = true ->
        pr_error (ts_p s0) = None ->
        pr_error r' = None).
Proof.
  intros t. eexists. split; [apply loop_body_Done|].
  rewrite poll_cancel_run. fold t.
  repeat split; try (destruct c, e; reflexivity).
  intros pre s0 ot0 Hpre Hrun -> Hnone.
  apply run_events_verdict in Hrun; [|exact Hpre].
  destruct Hrun as (_ & _ & He & _).
  transitivity (pr_error (ts_p s0)); [exact He | exact Hnone].
Qed.

(** *** The loop over a stream *)

Lemma _predict_loop_prepend event_handler g pre : forall output_type s,
  _predict_loop event_handler output_type (prepend pre g) s =
    match run_events event_handler output_type pre s with
    | (inl e, s') => (inl e, s')
    | (inr Break, s') => (inr tt, s')
    | (inr (Continue output_type'), s') => _predict_loop event_handler output_type' g s'
    end.
Proof.
  induction pre as [|ev pre IH]; intros ot s; simpl; [reflexivity|].
  unfold bind. destruct (loop_body event_handler ot ev s) as [[e|[ot1|]] s1];
    [reflexivity | apply IH | reflexivity].
Qed.


(** *** setup *)

Lemma concat_snoc (l : list string) (x : string) :
  String.concat "" (l ++ [x]) = (String.concat "" l ++ x)%string.
Proof.
  induction l as [|a l IH]; [reflexivity|].
  destruct l as [|b l].
  - simpl. reflexivity.
  - change (String.concat "" ((a :: b :: l) ++ [x]))
      with (a ++ String.concat "" ((b :: l) ++ [x]))%string.
    rewrite IH.
    change (String.concat "" (a :: b :: l)) with (a ++ String.concat "" (b :: l))%string.
    induction a as [|ch a IHa]; simpl; [reflexivity | f_equal; exact IHa].
Qed.

Lemma setup_loop_no_done evs : forall logs status,
  existsb is_Done evs = false ->
  setup_loop (prepend evs Exhausted) logs status = ((logs ++ log_messages evs)%list, status).
Proof.
  induction evs as [|ev evs IH]; intros logs status Hd; simpl.
  - rewrite app_nil_r. reflexivity.
  - simpl in Hd. apply orb_false_iff in Hd as [Hev Hd].
    destruct ev; try discriminate Hev; rewrite IH by exact Hd; try reflexivity.
    rewrite <- app_assoc. reflexivity.
Qed.

Lemma setup_finish_run started_at logs status e :
  exists r e',
    setup_finish started_at logs status e = (inr r, e') /\
    sr_status r = match status with None => FAILED | Some st => st end /\
    sr_logs r =
      String.concat ""
        (match status with None => logs ++ [missing_done] | Some _ => logs end)%list /\
    probes_ready e' =
      (if Status_eqb (sr_status r) SUCCEEDED then S (probes_ready e) else probes_ready e).
Proof.
  destruct status as [st|]; unfold setup_finish.
  - destruct st; do 2 eexists; (split; [reflexivity|]); repeat split.
  - do 2 eexists; (split; [reflexivity|]); repeat split.
Qed.

(** C8. A setup whose stream is exhausted without a [Done] event returns a
    result with status failed whose logs are the logged messages followed
    by the missing-done diagnostic. For every stream, [setup] returns, and
    the readiness probe is signalled once if the returned status is
    succeeded and not at all otherwise. *)
Theorem setup_without_done_and_probe :
  (forall evs e,
      existsb is_Done evs = false ->
      exists r e',
        setup (prepend evs Exhausted) e = (inr r, e') /\
        sr_status r = FAILED /\
        sr_logs r =
          (String.concat "" (log_messages evs) ++
           "Error: did not receive 'done' event from setup!")%string /\
        probes_ready e' = probes_ready e) /\
  (forall g e,
      exists r e',
        setup g e = (inr r, e') /\
        (sr_status r = SUCCEEDED \/ sr_status r = FAILED) /\
        probes_ready e' =
          (if Status_eqb (sr_status r) SUCCEEDED
           then S (probes_ready e) else probes_ready e)).
Proof.
  split.
  - intros evs e Hd. unfold setup, bind, now.
    rewrite (setup_loop_no_done evs [] None Hd). simpl app.
    match goal with |- context [setup_finish ?a ?l ?st ?e0] =>
      destruct (setup_finish_run a l st e0) as (r & e' & Hrun & Hst & Hlogs & Hpr) end.
    exists r, e'. rewrite Hrun. split; [reflexivity|].
    rewrite Hst in Hpr. simpl in Hpr.
    repeat split; [exact Hst | | exact Hpr].
    rewrite Hlogs. apply concat_snoc.
  - intros g e. unfold setup, bind, now.
    assert (Hst : forall g logs status,
      (status = None \/ status = Some SUCCEEDED \/ status = Some FAILED) ->
      snd (setup_loop g logs status) = None \/
      snd (setup_loop g logs status) = Some SUCCEEDED \/
      snd (setup_loop g logs status) = Some FAILED).
    { clear. induction g as [|ex|ev g IH]; intros logs status H; simpl; auto.
      destruct ev; try (apply IH; exact H).
      apply IH. destruct done_error; auto. }
    specialize (Hst g [] None (or_introl eq_refl)).
    destruct (setup_loop g [] None) as [logs status]. simpl in Hst.
    match goal with |- context [setup_finish ?a ?l ?st ?e0] =>
      destruct (setup_finish_run a l st e0) as (r & e' & Hrun & Hs & _ & Hpr) end.
    exists r, e'. rewrite Hrun. repeat split; [|exact Hpr].
    rewrite Hs. destruct Hst as [->|[->| ->]]; auto.
Qed.

(** *** The observable history of a response *)

Lemma predict_except_run event_handler e s :
  exists s', predict_except event_handler e s = (inl e, s') /\
             pr_status (ts_p s') = FAILED /\
             pr_error (ts_p s') = Some (exn_msg e) /\
             pr_logs (ts_p s') = (pr_logs (ts_p s) ++ format_exc e)%string /\
             pr_id (ts_p s') = pr_id (ts_p s).
Proof.
  unfold predict_except, bind. rewrite append_logs_run, _send_webhook_run, failed_run.
  eexists. split; [reflexivity|]. repeat split.
Qed.

Lemma convert_inputs_Some event_handler items : forall s input_dict s',
  convert_inputs event_handler items s = (inr (Some input_dict), s') -> s' = s.
Proof.
  induction items as [|[k v] items IH]; intros s d s'; simpl.
  - intros [= _ <-]. reflexivity.
  - destruct v as [v|[e|v]].
    + unfold bind. destruct (convert_inputs event_handler items s) as [[e|r] s1] eqn:E;
        [discriminate|].
      destruct r as [d'|]; cbv [ret option_map]; intros [= _ <-]. eapply IH; eauto.
    + destruct (is_RequestException e).
      * unfold bind. rewrite append_logs_run, _send_webhook_run, failed_run. discriminate.
      * discriminate.
    + unfold bind. destruct (convert_inputs event_handler items s) as [[e|r] s1] eqn:E;
        [discriminate|].
      destruct r as [d'|]; cbv [ret option_map]; intros [= _ <-]. eapply IH; eauto.
Qed.

Lemma fetch_Some output_type g s frame s' :
  fetch output_type g s = (inr (Some frame), s') ->
  exists ev rest, g = Yield ev rest /\ frame = PF_loop output_type ev rest /\ s' = s.
Proof.
  destruct g as [|e|ev rest]; cbv [fetch ret raise]; try discriminate.
  intros [= <- <-]. eauto.
Qed.

(** A resumption that suspends again has translated an event that is not
    terminal, when [Done] only comes last. *)
Lemma resume_suspends worker_predict request event_handler frame s frame' s' :
  frame_done_last worker_predict frame ->
  resume_predict worker_predict request event_handler frame s = (inr (Some frame'), s') ->
  same_verdict (ts_p s) (ts_p s') /\ frame_done_last worker_predict frame'.
Proof.
  intros Hok. unfold resume_predict, try_except.
  destruct (resume_body worker_predict request event_handler frame s) as [[e|f] s1] eqn:E.
  { destruct (predict_except_run event_handler e s1) as (s2 & H2 & _).
    unfold bind. rewrite H2. discriminate. }
  intros [= -> ->].
  destruct frame as [|ot ev rest]; simpl in E; unfold bind in E.
  - destruct (convert_inputs event_handler (rq_input request) s) as [[e|[d|]] s1] eqn:Ec;
      try discriminate.
    apply convert_inputs_Some in Ec. subst s1.
    apply fetch_Some in E as (ev & rest & Hg & -> & ->).
    split; [apply same_verdict_refl|]. unfold frame_done_last. rewrite <- Hg. apply Hok.
  - destruct (loop_body event_handler ot ev s) as [[e|[ot1|]] s1] eqn:El; try discriminate.
    apply fetch_Some in E as (ev' & rest' & -> & -> & ->).
    simpl in Hok. destruct (is_Done ev) eqn:Hd; [discriminate|].
    split; [|exact Hok].
    eapply loop_body_verdict; [exact Hd | exact El | discriminate].
Qed.

Lemma snapshots_processing worker_predict request event_handler fuel :
  forall frame s,
    frame_done_last worker_predict frame ->
    pr_status (ts_p s) = PROCESSING ->
    forall i r,
      snapshots fuel worker_predict request event_handler frame s !! i = Some r ->
      S i < length (snapshots fuel worker_predict request event_handler frame s) ->
      pr_status r = PROCESSING.
Proof.
  induction fuel as [|fuel IH]; intros frame s Hok Hst i r; simpl; [discriminate|].
  destruct (resume_predict worker_predict request event_handler frame s)
    as [[e|[frame'|]] s1] eqn:E.
  - destruct i; simpl; [lia | discriminate].
  - apply resume_suspends in E as [(_ & Hs & _) Hok']; [|exact Hok].
    destruct i as [|i]; simpl.
    + intros [= <-] _. rewrite Hs. exact Hst.
    + intros Hi Hlen. eapply IH; [exact Hok' | rewrite Hs; exact Hst | exact Hi | lia].
  - destruct i; simpl; [lia | discriminate].
Qed.

(** C4, amended. In a stream in which nothing follows a [Done] event, the
    history of the response as the caller can observe it, from the state
    [__init__] leaves (status processing) through every resumption of the
    coroutine, changes in no field once its status is terminal. *)
Theorem terminal_status_is_final worker_predict request event_handler s fuel i j r r' :
  pr_status (ts_p s) = PROCESSING ->
  (forall input_dict, done_last (worker_predict input_dict) = true) ->
  let history :=
    ts_p s :: snapshots fuel worker_predict request event_handler PF_start s in
  i <= j ->
  history !! i = Some r ->
  terminal (pr_status r) = true ->
  history !! j = Some r' ->
  r' = r.
Proof.
  intros Hst Hdl history Hij Hi Hterm Hj.
  destruct i as [|i]; simpl in Hi.
  { injection Hi as <-. rewrite Hst in Hterm. discriminate. }
  destruct j as [|j]; [lia|]. simpl in Hj.
  assert (Hlast : ~ S i < length (snapshots fuel worker_predict request event_handler PF_start s)).
  { intros Hlt.
    pose proof (snapshots_processing worker_predict request event_handler fuel
                  PF_start s Hdl Hst i r Hi Hlt) as Hp.
    rewrite Hp in Hterm. discriminate. }
  pose proof (lookup_lt_Some _ _ _ Hj) as Hlt.
  assert (j = i) by lia. subst j.
  rewrite Hi in Hj. injection Hj as <-. reflexivity.
Qed.

(** *** Resumptions against the whole run

    Resuming a coroutine until it completes does what the function does
    when run from start to completion. *)

Lemma drive_predict_loop worker_predict request event_handler rest :
  forall fuel output_type ev s,
    gen_length rest < fuel ->
    drive_predict fuel worker_predict request event_handler
      (PF_loop output_type ev rest) s =
    completed (try_except (_predict_loop event_handler output_type (Yield ev rest))
                 (predict_except event_handler) s).
Proof.
  induction rest as [|ex|ev' rest IH]; intros fuel ot ev s Hfuel;
    (destruct fuel as [|fuel]; [simpl in Hfuel; lia|]);
    simpl; unfold bind, resume_predict, try_except, resume_body, bind;
    destruct (loop_body event_handler ot ev s) as [[e|[ot1|]] s1];
    try (destruct (predict_except_run event_handler e s1) as (s2 & -> & _); reflexivity);
    try reflexivity.
  - simpl. destruct (predict_except_run event_handler ex s1) as (s2 & -> & _). reflexivity.
  - cbv [fetch ret]. rewrite IH by (simpl in Hfuel; lia).
    unfold try_except. reflexivity.
Qed.

Lemma drive_predict_complete worker_predict request event_handler fuel s :
  (forall input_dict, S (gen_length (worker_predict input_dict)) < fuel) ->
  drive_predict fuel worker_predict request event_handler PF_start s =
  completed (predict worker_predict request event_handler s).
Proof.
  intros Hfuel. destruct fuel as [|fuel]; [specialize (Hfuel []); lia|].
  simpl. unfold bind, resume_predict, try_except, resume_body, predict, try_except,
    _predict, bind.
  destruct (convert_inputs event_handler (rq_input request) s) as [[e|[d|]] s1].
  - destruct (predict_except_run event_handler e s1) as (s2 & -> & _). reflexivity.
  - specialize (Hfuel d). destruct (worker_predict d) as [|ex|ev rest]; simpl.
    + reflexivity.
    + destruct (predict_except_run event_handler ex s1) as (s2 & -> & _). reflexivity.
    + cbv [ret]. rewrite drive_predict_loop by (simpl in Hfuel; lia).
      unfold try_except. reflexivity.
  - reflexivity.
Qed.

Lemma drive_setup_loop rest :
  forall fuel started_at logs status ev e,
    gen_length rest < fuel ->
    drive_setup fuel (SF_loop started_at logs status ev rest) e =
    completed
      ((let '(logs', status') := setup_loop (Yield ev rest) logs status in
        setup_finish started_at logs' status') e).
Proof.
  induction rest as [|ex|ev' rest IH]; intros fuel started_at logs status ev e Hfuel;
    (destruct fuel as [|fuel]; [simpl in Hfuel; lia|]).
  - simpl. destruct ev; simpl; unfold bind;
      first [ reflexivity
            | match goal with |- context [setup_finish ?a ?b ?c ?d] =>
                destruct (setup_finish a b c d) as [[x|r] e'] end; reflexivity ].
  - simpl. destruct ev; simpl; unfold bind;
      first [ reflexivity
            | match goal with |- context [setup_finish ?a ?b ?c ?d] =>
                destruct (setup_finish a b c d) as [[x|r] e'] end; reflexivity ].
  - simpl drive_setup. unfold bind at 1.
    destruct ev; simpl resume_setup; cbv [setup_fetch ret];
      rewrite IH by (simpl in Hfuel; lia); reflexivity.
Qed.

Lemma drive_setup_complete g fuel e :
  S (gen_length g) < fuel ->
  drive_setup fuel (SF_start g) e = completed (setup g e).
Proof.
  intros Hfuel. destruct fuel as [|fuel]; [lia|].
  simpl. unfold setup, now. unfold bind.
  destruct g as [|ex|ev rest].
  - reflexivity.
  - reflexivity.
  - cbv [setup_fetch ret]. rewrite drive_setup_loop by (simpl in Hfuel; lia).
    reflexivity.
Qed.

(** *** What a resumption leaves alone *)

Lemma eff_frame_refl e : eff_frame e e.
Proof. vm_compute. repeat split. Qed.

Lemma eff_frame_trans e1 e2 e3 : eff_frame e1 e2 -> eff_frame e2 e3 -> eff_frame e1 e3.
Proof. unfold eff_frame; intuition congruence. Qed.

Lemma set_output_frame self output s r s' :
  set_output self output s = (r, s') ->
  eff_frame (ts_eff s) (ts_eff s') /\ pr_id (ts_p s') = pr_id (ts_p s).
Proof.
  unfold set_output. cbv [bind gets py_assert].
  destruct (is_None (pr_output (ts_p s))); cbv [ret raise].
  - destruct (_upload_files self output s) as [[e|v] s1] eqn:E;
      apply _upload_files_p in E; subst s1.
    + intros [= <- <-]. split; [apply eff_frame_refl | reflexivity].
    + cbv [modify_p modify]. intros [= <- <-]. split; [apply eff_frame_refl | reflexivity].
  - intros [= <- <-]. split; [apply eff_frame_refl | reflexivity].
Qed.

Lemma append_output_frame self output s r s' :
  append_output self output s = (r, s') ->
  eff_frame (ts_eff s) (ts_eff s') /\ pr_id (ts_p s') = pr_id (ts_p s).
Proof.
  unfold append_output. cbv [bind gets].
  destruct (pr_output (ts_p s)); cbv [raise];
    try (intros [= <- <-]; split; [apply eff_frame_refl | reflexivity]).
  destruct (_upload_files self output s) as [[e|v] s1] eqn:E;
    apply _upload_files_p in E; subst s1.
  - intros [= <- <-]. split; [apply eff_frame_refl | reflexivity].
  - cbv [modify_p modify]. rewrite _send_webhook_run. intros [= <- <-].
    split; [repeat split | reflexivity].
Qed.

(** An iteration polls the cancellation event once, at its start: it
    leaves the event clear, and has called [worker.cancel()] once if the
    event was set and not at all otherwise. It never touches the identity
    or the readiness probe. *)
Lemma loop_body_frame event_handler output_type ev s r s' :
  loop_body event_handler output_type ev s = (r, s') ->
  eff_frame (ts_eff (snd (poll_cancel s))) (ts_eff s') /\
  pr_id (ts_p s') = pr_id (ts_p s).
Proof.
  rewrite loop_body_unfold, poll_cancel_run. cbn [snd].
  set (s1 := {| ts_p := ts_p s; ts_eff := _ |}).
  change (ts_p s) with (ts_p s1). clearbody s1.
  assert (Hany : forall (c : (exn + unit) * TS),
    eff_frame (ts_eff s1) (ts_eff (snd c)) /\ pr_id (ts_p (snd c)) = pr_id (ts_p s1) ->
    forall k : control,
      (let (x, s3) := c in
       match x with inl e => (inl e, s3) | inr _ => ret k s3 end) = (r, s') ->
      eff_frame (ts_eff s1) (ts_eff s') /\ pr_id (ts_p s') = pr_id (ts_p s1)).
  { intros [[e|[]] s2] H k; cbv [ret]; intros [= <- <-]; exact H. }
  destruct ev as [|m|multi|payload|c e d|]; unfold bind.
  - intros [= <- <-]. split; [apply eff_frame_refl | reflexivity].
  - apply Hany. rewrite append_logs_run, _send_webhook_run. repeat split.
  - destruct output_type.
    + apply Hany. rewrite failed_run. repeat split.
    + destruct multi.
      * apply Hany.
        destruct (set_output event_handler (VList []) s1) as [x s2] eqn:E.
        apply set_output_frame in E. exact E.
      * apply Hany. split; [apply eff_frame_refl | reflexivity].
  - destruct output_type as [[|]|].
    + apply Hany.
      destruct (append_output event_handler payload s1) as [x s2] eqn:E.
      apply append_output_frame in E. exact E.
    + apply Hany.
      destruct (set_output event_handler payload s1) as [x s2] eqn:E.
      apply set_output_frame in E. exact E.
    + apply Hany. rewrite failed_run. repeat split.
  - apply Hany. destruct c; [rewrite canceled_run; repeat split|].
    destruct e; [rewrite failed_run | rewrite succeeded_run]; repeat split.
  - intros [= <- <-]. split; [apply eff_frame_refl | reflexivity].
Qed.

Lemma predict_except_frame event_handler e s r s' :
  predict_except event_handler e s = (r, s') ->
  eff_frame (ts_eff s) (ts_eff s') /\ pr_id (ts_p s') = pr_id (ts_p s).
Proof.
  unfold predict_except, bind. rewrite append_logs_run, _send_webhook_run, failed_run.
  cbv [raise]. intros [= <- <-]. repeat split.
Qed.

Lemma convert_inputs_frame event_handler items : forall s r s',
  convert_inputs event_handler items s = (r, s') ->
  eff_frame (ts_eff s) (ts_eff s') /\ pr_id (ts_p s') = pr_id (ts_p s).
Proof.
  induction items as [|[k v] items IH]; intros s r s'; simpl.
  - intros [= <- <-]. split; [apply eff_frame_refl | reflexivity].
  - destruct v as [v|[e|v]].
    + unfold bind. destruct (convert_inputs event_handler items s) as [[e|x] s1] eqn:E;
        cbv [ret]; intros [= <- <-]; eapply IH; eauto.
    + destruct (is_RequestException e).
      * unfold bind. rewrite append_logs_run, _send_webhook_run, failed_run.
        cbv [ret]. intros [= <- <-]. repeat split.
      * intros [= <- <-]. split; [apply eff_frame_refl | reflexivity].
    + unfold bind. destruct (convert_inputs event_handler items s) as [[e|x] s1] eqn:E;
        cbv [ret]; intros [= <- <-]; eapply IH; eauto.
Qed.

Lemma fetch_frame output_type g s r s' :
  fetch output_type g s = (r, s') -> s' = s.
Proof. destruct g; cbv [fetch ret raise]; congruence. Qed.

Lemma resume_body_id worker_predict request event_handler frame s r s' :
  resume_body worker_predict request event_handler frame s = (r, s') ->
  pr_id (ts_p s') = pr_id (ts_p s).
Proof.
  destruct frame as [|ot ev rest]; simpl; unfold bind.
  - destruct (convert_inputs event_handler (rq_input request) s) as [[e|[d|]] s1] eqn:E;
      apply convert_inputs_frame in E as [_ E].
    + intros [= <- <-]. exact E.
    + intros H. apply fetch_frame in H. subst s'. exact E.
    + intros [= <- <-]. exact E.
  - destruct (loop_body event_handler ot ev s) as [[e|[ot1|]] s1] eqn:E;
      apply loop_body_frame in E as [_ E].
    + intros [= <- <-]. exact E.
    + intros H. apply fetch_frame in H. subst s'. exact E.
    + intros [= <- <-]. exact E.
Qed.

Lemma resume_predict_id worker_predict request event_handler frame s r s' :
  resume_predict worker_predict request event_handler frame s = (r, s') ->
  pr_id (ts_p s') = pr_id (ts_p s).
Proof.
  unfold resume_predict, try_except.
  destruct (resume_body worker_predict request event_handler frame s) as [[e|f] s1] eqn:E;
    apply resume_body_id in E.
  - unfold bind.
    destruct (predict_except event_handler e s1) as [[e'|[]] s2] eqn:E2;
      apply predict_except_frame in E2 as [_ E2]; cbv [ret];
      intros [= <- <-]; congruence.
  - intros [= <- <-]. exact E.
Qed.

(** *** The runner's methods *)

Lemma is_busy_run s :
  is_busy s =
    match _result (runner s) with
    | None => (inr false, s)
    | Some t => if task_done s t then (inr false, reclaim s) else (inr true, s)
    end.
Proof.
  unfold is_busy, bind, gets. destruct (_result (runner s)) as [t|]; [|reflexivity].
  destruct (task_done s t); reflexivity.
Qed.

Lemma outstanding_Some s t c :
  outstanding s = Some (t, c) ->
  _result (runner s) = Some t /\
  (exists must_cancel,
      tasks s !! t = Some {| t_state := Pending c; t_must_cancel := must_cancel |}) /\
  task_done s t = false.
Proof.
  unfold outstanding, task_done.
  destruct (_result (runner s)) as [t'|]; [|discriminate].
  destruct (tasks s !! t') as [[[c'|r] mc]|] eqn:E; try discriminate.
  intros [= <- <-]. rewrite E. eauto.
Qed.

Lemma outstanding_busy s t c :
  outstanding s = Some (t, c) -> is_busy s = (inr true, s).
Proof.
  intros H. apply outstanding_Some in H as (Hr & _ & Hd).
  rewrite is_busy_run, Hr, Hd. reflexivity.
Qed.

Lemma handler_init_run event_handler prediction r0 e :
  pr_id r0 = rq_id prediction -> pr_input r0 = rq_input prediction ->
  pr_error r0 = None -> pr_completed_at r0 = None -> pr_metrics r0 = None ->
  exists e',
    handler_init event_handler {| ts_p := r0; ts_eff := e |} =
      (inr tt, {| ts_p := fresh_response prediction (clock (clock_reads e));
                  ts_eff := e' |}) /\
    eff_frame e e'.
Proof.
  destruct r0 as [i inp st o l er sa ca m]. simpl. intros -> -> -> -> ->.
  unfold handler_init, bind. cbv [modify_p modify lift_eff now]. simpl.
  destruct (negb SKIP_START_EVENT).
  - rewrite _send_webhook_run. eexists. split; [reflexivity|]. repeat split.
  - eexists. split; [reflexivity|]. repeat split.
Qed.

(** [predict] on an idle runner: a new response and a new task, under new
    handles, and the runner holds both. *)
Lemma Runner_predict_idle prediction upload worker_predict s :
  _result (runner s) = None ->
  exists event_handler s',
    Runner_predict prediction upload worker_predict s =
      (inr (length (responses s), length (tasks s)), s') /\
    _response (runner s') = Some (length (responses s)) /\
    _result (runner s') = Some (length (tasks s)) /\
    _shutdown_event (runner s') = _shutdown_event (runner s) /\
    _upload_url (runner s') = _upload_url (runner s) /\
    responses s' =
      (responses s ++ [fresh_response prediction (clock (clock_reads (eff s)))])%list /\
    tasks s' =
      (tasks s ++ [{| t_state := Pending (PredictCoro (length (responses s)) event_handler
                                            prediction worker_predict PF_start);
                      t_must_cancel := false |}])%list /\
    should_cancel (eff s') = false /\
    worker_cancels (eff s') = worker_cancels (eff s) /\
    probes_ready (eff s') = probes_ready (eff s).
Proof.
  intros Hidle. unfold Runner_predict. unfold bind at 1. rewrite is_busy_run, Hidle.
  unfold bind at 1. cbv [modify]. unfold bind at 1. cbv [gets]. unfold bind at 1.
  unfold create_event_handler.
  match goal with |- context [handler_init ?h {| ts_p := ?r; ts_eff := ?e |}] =>
    destruct (handler_init_run h prediction r e eq_refl eq_refl eq_refl eq_refl eq_refl)
      as (e' & -> & Hf1 & Hf2 & Hf3);
    exists h
  end.
  eexists. split; [reflexivity|]. simpl. repeat split; assumption.
Qed.

(** *** The invariant *)

Lemma wf_same s s' :
  _response (runner s') = _response (runner s) ->
  _result (runner s') = _result (runner s) ->
  responses s' = responses s ->
  tasks s' = tasks s ->
  wf s -> wf s'.
Proof.
  intros H1 H2 H3 H4 [Hi Hc Ho]. split.
  - rewrite H1, H2. exact Hi.
  - intros t. rewrite H2, H4. intros Ht. destruct (Hc t Ht) as (tk & Htk & Hok).
    exists tk. split; [exact Htk|]. unfold current_ok in *. rewrite H1, H3. exact Hok.
  - intros t tk. rewrite H2, H4. apply Ho.
Qed.

Lemma wf_init shutdown_event upload_url : wf (init shutdown_event upload_url).
Proof.
  split; simpl; try discriminate. auto.
Qed.

Lemma wf_reclaim s t :
  wf s -> _result (runner s) = Some t -> task_done s t = true -> wf (reclaim s).
Proof.
  intros [Hi Hc Ho] Hr Hd. split; simpl; try discriminate; [auto|].
  intros t' tk Htk Hp. specialize (Ho t' tk Htk Hp).
  rewrite Hr in Ho. injection Ho as <-.
  unfold task_done in Hd. rewrite Htk, Hp in Hd. discriminate.
Qed.

(** When [is_busy] answers false, the state it leaves is well formed, the
    runner holds nothing, and no task is pending. *)
Lemma is_busy_false s s1 :
  wf s -> is_busy s = (inr false, s1) ->
  wf s1 /\ _result (runner s1) = None /\ _response (runner s1) = None /\
  (s1 = s \/ s1 = reclaim s) /\
  (forall t tk, tasks s1 !! t = Some tk -> is_pending tk = false).
Proof.
  intros Hwf. rewrite is_busy_run.
  destruct (_result (runner s)) as [t|] eqn:Hr.
  - destruct (task_done s t) eqn:Hd; [|discriminate].
    intros [= <-]. pose proof (wf_reclaim s t Hwf Hr Hd) as Hw'.
    split; [exact Hw'|]. split; [reflexivity|]. split; [reflexivity|].
    split; [right; reflexivity|].
    intros t' tk Htk. destruct (is_pending tk) eqn:Hp; [|reflexivity].
    destruct Hwf as [_ _ Ho]. specialize (Ho t' tk Htk Hp).
    rewrite Hr in Ho. injection Ho as <-.
    unfold task_done in Hd. unfold reclaim in Htk. simpl in Htk.
    rewrite Htk, Hp in Hd. discriminate.
  - intros [= <-]. split; [exact Hwf|]. destruct Hwf as [Hi Hc Ho].
    split; [exact Hr|]. split; [exact (Hi Hr)|]. split; [left; reflexivity|].
    intros t' tk Htk. destruct (is_pending tk) eqn:Hp; [|reflexivity].
    specialize (Ho t' tk Htk Hp). congruence.
Qed.

Lemma is_busy_true s b s1 :
  is_busy s = (inr b, s1) -> b = true -> s1 = s.
Proof.
  rewrite is_busy_run. destruct (_result (runner s)) as [t|]; [|congruence].
  destruct (task_done s t); congruence.
Qed.

Lemma is_busy_never_raises s : exists b s1, is_busy s = (inr b, s1).
Proof.
  rewrite is_busy_run. destruct (_result (runner s)) as [t|]; [|eauto].
  destruct (task_done s t); eauto.
Qed.

Lemma is_busy_false_idle s s1 :
  is_busy s = (inr false, s1) ->
  _result (runner s1) = None /\ is_busy s1 = (inr false, s1).
Proof.
  rewrite is_busy_run. destruct (_result (runner s)) as [t|] eqn:Hr.
  - destruct (task_done s t); [|discriminate]. intros [= <-].
    split; [reflexivity|]. rewrite is_busy_run. reflexivity.
  - intros [= <-]. split; [exact Hr|]. rewrite is_busy_run, Hr. reflexivity.
Qed.

(** A method that starts with [is_busy] does on a runner whose task is done
    what it does once that task is reclaimed. *)
Lemma Runner_predict_reclaimed prediction upload worker_predict s s1 :
  is_busy s = (inr false, s1) ->
  Runner_predict prediction upload worker_predict s =
  Runner_predict prediction upload worker_predict s1.
Proof.
  intros H. destruct (is_busy_false_idle s s1 H) as [_ H1].
  unfold Runner_predict, bind at 1. rewrite H.
  symmetry. unfold bind at 1. rewrite H1. reflexivity.
Qed.

Lemma Runner_predict_busy prediction upload worker_predict s :
  is_busy s = (inr true, s) ->
  snd (Runner_predict prediction upload worker_predict s) = s.
Proof.
  intros H. unfold Runner_predict, bind at 1. rewrite H.
  cbv [bind gets]. destruct (_response (runner s)); [|reflexivity].
  destruct (_result (runner s)); [|reflexivity].
  destruct (negb _ && _); reflexivity.
Qed.

Lemma wf_add_task s s' c :
  wf s ->
  (forall t tk, tasks s !! t = Some tk -> is_pending tk = false) ->
  tasks s' = (tasks s ++ [{| t_state := Pending c; t_must_cancel := false |}])%list ->
  _result (runner s') = Some (length (tasks s)) ->
  current_ok s' {| t_state := Pending c; t_must_cancel := false |} ->
  wf s'.
Proof.
  intros Hwf Hnone Ht Hr Hok. split.
  - rewrite Hr. discriminate.
  - intros t. rewrite Hr. intros [= <-]. eexists. split; [|exact Hok].
    rewrite Ht. apply list_lookup_middle. reflexivity.
  - intros t tk. rewrite Ht, Hr. intros Htk Hp.
    destruct (decide (t < length (tasks s))) as [Hlt|Hge].
    + rewrite lookup_app_l in Htk by exact Hlt.
      rewrite (Hnone t tk Htk) in Hp. discriminate.
    + apply lookup_lt_Some in Htk as Hlen. rewrite length_app in Hlen. simpl in Hlen.
      f_equal. lia.
Qed.

Lemma wf_Runner_setup g s : wf s -> wf (snd (Runner_setup g s)).
Proof.
  intros Hwf. unfold Runner_setup, bind at 1.
  destruct (is_busy_never_raises s) as (b & s1 & Hb). rewrite Hb. destruct b.
  - apply is_busy_true in Hb; [subst s1|reflexivity]. exact Hwf.
  - apply is_busy_false in Hb as (Hwf1 & Hr1 & Hp1 & _ & Hnone); [|exact Hwf].
    cbv [bind create_task gets modify ret]. simpl.
    eapply wf_add_task; [exact Hwf1 | exact Hnone | reflexivity | reflexivity |].
    unfold current_ok. simpl. exact Hp1.
Qed.

Lemma wf_Runner_predict prediction upload worker_predict s :
  wf s -> wf (snd (Runner_predict prediction upload worker_predict s)).
Proof.
  intros Hwf. destruct (is_busy_never_raises s) as (b & s1 & Hb). destruct b.
  - pose proof (is_busy_true _ _ _ Hb eq_refl) as ->.
    rewrite Runner_predict_busy by exact Hb. exact Hwf.
  - rewrite (Runner_predict_reclaimed _ _ _ _ _ Hb).
    apply is_busy_false in Hb as (Hwf1 & Hr1 & Hp1 & _ & Hnone); [|exact Hwf].
    destruct (Runner_predict_idle prediction upload worker_predict s1 Hr1)
      as (h & s' & -> & Hp' & Hr' & _ & _ & Hresp & Htasks & _).
    simpl. eapply wf_add_task; [exact Hwf1 | exact Hnone | exact Htasks | exact Hr' |].
    unfold current_ok. simpl. split; [exact Hp'|].
    eexists. split; [rewrite Hresp; apply list_lookup_middle; reflexivity|].
    reflexivity.
Qed.

Lemma wf_cancel prediction_id s : wf s -> wf (snd (cancel prediction_id s)).
Proof.
  intros Hwf. unfold cancel, bind at 1.
  destruct (is_busy_never_raises s) as (b & s1 & Hb). rewrite Hb. destruct b.
  - pose proof (is_busy_true _ _ _ Hb eq_refl) as ->. simpl.
    cbv [bind gets]. destruct (_response (runner s)); [|exact Hwf].
    destruct (negb _ && _); [exact Hwf|].
    cbv [modify]. simpl. eapply wf_same; [| | | | exact Hwf]; reflexivity.
  - apply is_busy_false in Hb as (Hwf1 & _); [|exact Hwf]. exact Hwf1.
Qed.

Lemma wf_set_task s s' t tk' :
  wf s ->
  _result (runner s) = Some t ->
  t < length (tasks s) ->
  tasks s' = <[t := tk']> (tasks s) ->
  _response (runner s') = _response (runner s) ->
  _result (runner s') = _result (runner s) ->
  current_ok s' tk' ->
  wf s'.
Proof.
  intros [Hi Hc Ho] Hr Hlt Ht Hp' Hr' Hok. split.
  - rewrite Hr', Hr. discriminate.
  - intros t0. rewrite Hr', Hr. intros [= <-]. exists tk'. split; [|exact Hok].
    rewrite Ht. apply list_lookup_insert_eq. exact Hlt.
  - intros t0 tk. rewrite Ht, Hr'. intros Htk Hpend.
    destruct (decide (t0 = t)) as [->|Hne]; [exact Hr|].
    rewrite list_lookup_insert_ne in Htk by congruence.
    eapply Ho; eauto.
Qed.

Lemma wf_shutdown s : wf s -> wf (snd (shutdown s)).
Proof.
  intros Hwf. unfold shutdown, bind, gets.
  destruct (_result (runner s)) as [t|] eqn:Hr; cbv [modify ret]; simpl.
  - unfold task_cancel. destruct (tasks s !! t) as [tk|] eqn:Htk.
    + destruct (is_pending tk) eqn:Hp.
      * eapply wf_set_task;
          [exact Hwf | exact Hr | eapply lookup_lt_Some; exact Htk
          | reflexivity | reflexivity | reflexivity |].
        destruct Hwf as [_ Hc _]. destruct (Hc t Hr) as (tk0 & Htk0 & Hok).
        rewrite Htk in Htk0. injection Htk0 as <-.
        unfold current_ok in *. simpl. exact Hok.
      * eapply wf_same; [| | | | exact Hwf]; reflexivity.
    + eapply wf_same; [| | | | exact Hwf]; reflexivity.
  - eapply wf_same; [| | | | exact Hwf]; reflexivity.
Qed.

Lemma handle_error_runner r s :
  _response (runner (handle_error r s)) = _response (runner s) /\
  _result (runner (handle_error r s)) = _result (runner s) /\
  responses (handle_error r s) = responses s /\
  tasks (handle_error r s) = tasks s /\
  eff (handle_error r s) = eff s.
Proof. destruct r; repeat split. Qed.

Lemma wf_finish s s0 t r :
  wf s ->
  _result (runner s) = Some t ->
  t < length (tasks s) ->
  tasks s0 = tasks s ->
  _response (runner s0) = _response (runner s) ->
  _result (runner s0) = _result (runner s) ->
  wf (finish t r s0).
Proof.
  intros Hwf Hr Hlt Ht Hp' Hr'. unfold finish.
  destruct (handle_error_runner r
    (set_tasks (<[t := {| t_state := Finished r; t_must_cancel := false |}]> (tasks s0)) s0))
    as (E1 & E2 & _ & E4 & _).
  eapply wf_set_task; [exact Hwf | exact Hr | exact Hlt | | | |].
  - rewrite E4. simpl. rewrite Ht. reflexivity.
  - rewrite E1. simpl. exact Hp'.
  - rewrite E2. simpl. exact Hr'.
  - unfold current_ok. simpl. exact I.
Qed.

Lemma wf_run_task t s : wf s -> wf (run_task t s).
Proof.
  intros Hwf. unfold run_task.
  destruct (tasks s !! t) as [[[c|r] mc]|] eqn:Htk; try exact Hwf.
  assert (Hr : _result (runner s) = Some t).
  { destruct Hwf as [_ _ Ho]. eapply Ho; [exact Htk | reflexivity]. }
  assert (Hlt : t < length (tasks s)) by (eapply lookup_lt_Some; exact Htk).
  assert (Hok : current_ok s {| t_state := Pending c; t_must_cancel := mc |}).
  { destruct Hwf as [_ Hc _]. destruct (Hc t Hr) as (tk0 & Htk0 & Hok).
    rewrite Htk in Htk0. injection Htk0 as <-. exact Hok. }
  destruct mc.
  { eapply wf_finish; eauto. }
  destruct c as [frame|l h request wp frame].
  - unfold current_ok in Hok. simpl in Hok.
    destruct (resume_setup frame (eff s)) as [[ex|[frame'|res]] e'].
    + eapply wf_finish; eauto.
    + unfold suspend. eapply wf_set_task;
        [exact Hwf | exact Hr | exact Hlt | reflexivity | reflexivity | reflexivity |].
      unfold current_ok. simpl. exact Hok.
    + eapply wf_finish; eauto.
  - unfold current_ok in Hok. simpl in Hok. destruct Hok as (Hp & r & Hl & Hid).
    rewrite Hl.
    destruct (resume_predict wp request h frame {| ts_p := r; ts_eff := eff s |})
      as [res ts] eqn:E.
    apply resume_predict_id in E. simpl in E.
    destruct res as [ex|[frame'|]].
    + eapply wf_finish; eauto.
    + unfold suspend. eapply wf_set_task;
        [exact Hwf | exact Hr | exact Hlt | reflexivity | reflexivity | reflexivity |].
      unfold current_ok. simpl. split; [exact Hp|].
      exists (ts_p ts). split; [|congruence].
      apply list_lookup_insert_eq. eapply lookup_lt_Some; exact Hl.
    + eapply wf_finish; eauto.
Qed.

(** Every reachable state is well formed. *)
Lemma reachable_wf s : reachable s -> wf s.
Proof.
  induction 1 as [se uu|s a _ IH]; [apply wf_init|].
  destruct a; simpl.
  - apply wf_Runner_setup; exact IH.
  - apply wf_Runner_predict; exact IH.
  - destruct (is_busy_never_raises s) as ([|] & s1 & Hb); rewrite Hb; simpl.
    + apply is_busy_true in Hb; [subst; exact IH | reflexivity].
    + apply is_busy_false in Hb as [Hw _]; [exact Hw | exact IH].
  - apply wf_cancel; exact IH.
  - apply wf_shutdown; exact IH.
  - apply wf_run_task; exact IH.
Qed.

(** *** Admission, reclamation and cancellation *)

Lemma id_eqb_eq a b : id_eqb a b = true <-> a = b.
Proof.
  destruct a as [x|], b as [y|]; simpl; split; try congruence; try reflexivity.
  - intros H. apply String.eqb_eq in H. congruence.
  - intros [= ->]. apply String.eqb_refl.
Qed.

Lemma id_eqb_neq a b : id_eqb a b = false <-> a <> b.
Proof.
  split.
  - intros H E. apply id_eqb_eq in E. congruence.
  - intros H. destruct (id_eqb a b) eqn:E; [|reflexivity].
    apply id_eqb_eq in E. contradiction.
Qed.

(** In a reachable state with a predict task outstanding, the runner holds
    that task's response, and its identity is the request's. *)
Lemma outstanding_predict s t l event_handler request worker_predict frame :
  reachable s ->
  outstanding s = Some (t, PredictCoro l event_handler request worker_predict frame) ->
  _response (runner s) = Some l /\ _result (runner s) = Some t /\
  response_id s l = rq_id request /\ exists r, responses s !! l = Some r.
Proof.
  intros Hreach Hout. apply reachable_wf in Hreach as [_ Hc _].
  apply outstanding_Some in Hout as (Hr & (mc & Htk) & _).
  destruct (Hc t Hr) as (tk & Htk' & Hok). rewrite Htk in Htk'. injection Htk' as <-.
  unfold current_ok in Hok. simpl in Hok. destruct Hok as (Hp & r & Hl & Hid).
  unfold response_id. rewrite Hl. eauto.
Qed.

Lemma outstanding_setup s t frame :
  reachable s ->
  outstanding s = Some (t, SetupCoro frame) ->
  _response (runner s) = None /\ _result (runner s) = Some t.
Proof.
  intros Hreach Hout. apply reachable_wf in Hreach as [_ Hc _].
  apply outstanding_Some in Hout as (Hr & (mc & Htk) & _).
  destruct (Hc t Hr) as (tk & Htk' & Hok). rewrite Htk in Htk'. injection Htk' as <-.
  unfold current_ok in Hok. simpl in Hok. auto.
Qed.

Lemma outstanding_None s :
  reachable s -> outstanding s = None -> exists s1, is_busy s = (inr false, s1).
Proof.
  intros Hreach Hout. apply reachable_wf in Hreach as [_ Hc _].
  rewrite is_busy_run. unfold outstanding in Hout.
  destruct (_result (runner s)) as [t|] eqn:Hr; [|eauto].
  destruct (Hc t eq_refl) as (tk & Htk & _). unfold task_done. rewrite Htk in *.
  destruct tk as [[c|r] mc]; [discriminate|]. simpl. eauto.
Qed.

(** C1, amended. While a task is outstanding: if it is a predict task and
    the incoming request carries an identity (not None) equal to the active
    job's, [predict] returns the response and the task the runner already
    holds, and leaves the whole state, stores included, as it was; in every
    other busy case (a different identity, no identity on the incoming
    request, or a setup task outstanding) it raises [RunnerBusyError]. *)
Theorem predict_while_busy s t c prediction upload worker_predict :
  reachable s ->
  outstanding s = Some (t, c) ->
  match c with
  | PredictCoro l _ request _ _ =>
      (forall i, rq_id prediction = Some i -> rq_id request = Some i ->
         Runner_predict prediction upload worker_predict s = (inr (l, t), s) /\
         _response (runner s) = Some l /\ _result (runner s) = Some t) /\
      (rq_id prediction = None \/ rq_id prediction <> rq_id request ->
         Runner_predict prediction upload worker_predict s =
           (inl (Exn RunnerBusyError ""), s))
  | SetupCoro _ =>
      Runner_predict prediction upload worker_predict s =
        (inl (Exn RunnerBusyError ""), s)
  end.
Proof.
  intros Hreach Hout. pose proof (outstanding_busy _ _ _ Hout) as Hbusy.
  destruct c as [frame|l h request wp frame].
  - destruct (outstanding_setup _ _ _ Hreach Hout) as [Hp _].
    unfold Runner_predict, bind at 1. rewrite Hbusy. cbv [bind gets]. rewrite Hp.
    reflexivity.
  - destruct (outstanding_predict _ _ _ _ _ _ _ Hreach Hout) as (Hp & Hr & Hid & _).
    assert (Hrun : Runner_predict prediction upload worker_predict s =
      if negb (id_eqb (rq_id prediction) None) &&
         id_eqb (rq_id prediction) (rq_id request)
      then (inr (l, t), s) else (inl (Exn RunnerBusyError ""), s)).
    { unfold Runner_predict, bind at 1. rewrite Hbusy. cbv [bind gets].
      rewrite Hp, Hr, Hid. destruct (negb _ && _); reflexivity. }
    split.
    + intros i Hi Hi'. rewrite Hrun, Hi, Hi'. simpl. rewrite String.eqb_refl. auto.
    + intros [Hn|Hn]; rewrite Hrun.
      * rewrite Hn. reflexivity.
      * apply id_eqb_neq in Hn. rewrite Hn, andb_false_r. reflexivity.
Qed.

(** C6. When the task the runner holds has completed, [is_busy] answers
    false and clears the runner's task and response; [predict], called then
    or directly, succeeds: it returns a new response and a new task under
    handles no earlier object has, the new response is in its initial state
    with the request's identity, and the responses of earlier jobs stay as
    they were. While the task is outstanding, [is_busy] answers true and
    changes nothing. *)
Theorem is_busy_reclaims s :
  (forall t,
      _result (runner s) = Some t -> task_done s t = true ->
      is_busy s = (inr false, reclaim s) /\
      _response (runner (reclaim s)) = None /\
      _result (runner (reclaim s)) = None /\
      forall prediction upload worker_predict,
      exists s',
        Runner_predict prediction upload worker_predict (reclaim s) =
          (inr (length (responses s), length (tasks s)), s') /\
        Runner_predict prediction upload worker_predict s =
          (inr (length (responses s), length (tasks s)), s') /\
        responses s !! length (responses s) = None /\
        tasks s !! length (tasks s) = None /\
        _response (runner s') = Some (length (responses s)) /\
        _result (runner s') = Some (length (tasks s)) /\
        responses s' !! length (responses s) =
          Some (fresh_response prediction (clock (clock_reads (eff s)))) /\
        (forall l r, responses s !! l = Some r -> responses s' !! l = Some r) /\
        should_cancel (eff s') = false) /\
  (forall t c, outstanding s = Some (t, c) -> is_busy s = (inr true, s)).
Proof.
  split; [|intros t c; apply outstanding_busy].
  intros t Hr Hd.
  assert (Hb : is_busy s = (inr false, reclaim s)).
  { rewrite is_busy_run, Hr, Hd. reflexivity. }
  split; [exact Hb|]. split; [reflexivity|]. split; [reflexivity|].
  intros prediction upload wp.
  destruct (Runner_predict_idle prediction upload wp (reclaim s) eq_refl)
    as (h & s' & Hrun & Hp' & Hr' & _ & _ & Hresp & _ & Hsc & _).
  exists s'. rewrite (Runner_predict_reclaimed _ _ _ _ _ Hb).
  simpl in *. repeat split; try assumption.
  - apply lookup_ge_None. lia.
  - apply lookup_ge_None. lia.
  - rewrite Hresp. apply list_lookup_middle. reflexivity.
  - intros l r Hl. rewrite Hresp. rewrite lookup_app_l; [exact Hl|].
    eapply lookup_lt_Some; exact Hl.
Qed.

(** What resuming a predict task does to the system. *)
Lemma run_task_predict s t l event_handler request worker_predict frame r res ts :
  tasks s !! t =
    Some {| t_state := Pending (PredictCoro l event_handler request worker_predict frame);
            t_must_cancel := false |} ->
  responses s !! l = Some r ->
  resume_predict worker_predict request event_handler frame
    {| ts_p := r; ts_eff := eff s |} = (res, ts) ->
  eff (run_task t s) = ts_eff ts /\
  responses (run_task t s) = <[l := ts_p ts]> (responses s) /\
  tasks (run_task t s) =
    <[t := {| t_state :=
                match res with
                | inr (Some frame') =>
                    Pending (PredictCoro l event_handler request worker_predict frame')
                | inr None => Finished (PredictReturned l)
                | inl ex => Finished (TaskRaised ex)
                end;
              t_must_cancel := false |}]> (tasks s) /\
  runner (run_task t s) =
    match res with
    | inl _ => with__shutdown_event
                 (option_map (fun _ => true) (_shutdown_event (runner s))) (runner s)
    | inr _ => runner s
    end.
Proof.
  intros Htk Hl Hres. unfold run_task. rewrite Htk, Hl, Hres.
  destruct res as [ex|[frame'|]]; repeat split.
Qed.

Lemma resume_predict_loop_eff worker_predict request event_handler
    output_type ev rest s res s' :
  resume_predict worker_predict request event_handler
    (PF_loop output_type ev rest) s = (res, s') ->
  eff_frame (ts_eff (snd (poll_cancel s))) (ts_eff s').
Proof.
  unfold resume_predict, try_except, resume_body, bind.
  destruct (loop_body event_handler output_type ev s) as [[e|[ot1|]] s1] eqn:E;
    apply loop_body_frame in E as [E _].
  - destruct (predict_except event_handler e s1) as [[e'|[]] s2] eqn:E2;
      apply predict_except_frame in E2 as [E2 _]; cbv [ret]; intros [= <- <-];
      eapply eff_frame_trans; eauto.
  - destruct (fetch ot1 rest s1) as [[e|f] s2] eqn:E2;
      apply fetch_frame in E2; subst s2.
    + destruct (predict_except event_handler e s1) as [[e'|[]] s2] eqn:E3;
        apply predict_except_frame in E3 as [E3 _]; cbv [ret]; intros [= <- <-];
        eapply eff_frame_trans; eauto.
    + intros [= <- <-]. exact E.
  - cbv [ret]. intros [= <- <-]. exact E.
Qed.

(** C5. With no task outstanding, [cancel] returns without an error and
    does what [is_busy] does (nothing at all when the runner holds no
    task): the cancellation event, the responses and the tasks stay as they
    were. With a predict task outstanding, [cancel] with an identity other
    than the active job's raises [UnknownPredictionError] and leaves the
    state, the cancellation event included, as it was; with the active
    job's identity, or none, it sets the cancellation event and changes
    nothing else. The driving task, at the next resumption of its loop,
    leaves the event clear and has called [worker.cancel()] once if the
    event was set, and not at all if it was not. *)
Theorem cancel_protocol s :
  reachable s ->
  (outstanding s = None ->
     forall prediction_id,
       cancel prediction_id s = (inr tt, snd (is_busy s)) /\
       eff (snd (is_busy s)) = eff s /\
       responses (snd (is_busy s)) = responses s /\
       tasks (snd (is_busy s)) = tasks s /\
       (_result (runner s) = None -> snd (is_busy s) = s)) /\
  (forall t l event_handler request worker_predict frame,
     outstanding s = Some (t, PredictCoro l event_handler request worker_predict frame) ->
     (forall i, rq_id request <> Some i ->
        cancel (Some i) s = (inl (Exn UnknownPredictionError ""), s)) /\
     (forall prediction_id,
        prediction_id = None \/ prediction_id = rq_id request ->
        cancel prediction_id s =
          (inr tt, set_eff (with_should_cancel true (eff s)) s))) /\
  (forall t l event_handler request worker_predict output_type ev rest,
     tasks s !! t =
       Some {| t_state := Pending (PredictCoro l event_handler request worker_predict
                                     (PF_loop output_type ev rest));
               t_must_cancel := false |} ->
     should_cancel (eff (run_task t s)) = false /\
     worker_cancels (eff (run_task t s)) =
       (if should_cancel (eff s) then S (worker_cancels (eff s))
        else worker_cancels (eff s))).
Proof.
  intros Hreach. split; [|split].
  - intros Hout pid. destruct (outstanding_None s Hreach Hout) as (s1 & Hb).
    rewrite Hb. simpl. split.
    { unfold cancel, bind at 1. rewrite Hb. reflexivity. }
    rewrite is_busy_run in Hb. destruct (_result (runner s)) as [t|].
    + destruct (task_done s t); [|discriminate]. injection Hb as <-.
      repeat split. discriminate.
    + injection Hb as <-. repeat split.
  - intros t l h request wp frame Hout.
    pose proof (outstanding_busy _ _ _ Hout) as Hbusy.
    destruct (outstanding_predict _ _ _ _ _ _ _ Hreach Hout) as (Hp & Hr & Hid & _).
    assert (Hrun : forall pid, cancel pid s =
      if negb (id_eqb pid None) && negb (id_eqb pid (rq_id request))
      then (inl (Exn UnknownPredictionError ""), s)
      else (inr tt, set_eff (with_should_cancel true (eff s)) s)).
    { intros pid. unfold cancel, bind at 1. rewrite Hbusy. simpl. cbv [bind gets].
      rewrite Hp, Hid. destruct (negb _ && negb _); reflexivity. }
    split.
    + intros i Hne.
      assert (H : id_eqb (Some i) (rq_id request) = false)
        by (apply id_eqb_neq; congruence).
      rewrite Hrun, H. reflexivity.
    + intros pid [->| ->]; rewrite Hrun; [reflexivity|].
      assert (H : id_eqb (rq_id request) (rq_id request) = true)
        by (apply id_eqb_eq; reflexivity).
      rewrite H, andb_false_r. reflexivity.
  - intros t l h request wp ot ev rest Htk.
    assert (Hout : outstanding s =
      Some (t, PredictCoro l h request wp (PF_loop ot ev rest))).
    { unfold outstanding. apply reachable_wf in Hreach as [_ _ Ho].
      rewrite (Ho t _ Htk eq_refl), Htk. reflexivity. }
    destruct (outstanding_predict _ _ _ _ _ _ _ Hreach Hout) as (_ & _ & _ & r & Hl).
    destruct (resume_predict wp request h (PF_loop ot ev rest)
                {| ts_p := r; ts_eff := eff s |}) as [res ts] eqn:E.
    destruct (run_task_predict _ _ _ _ _ _ _ _ _ _ Htk Hl E) as (-> & _).
    apply resume_predict_loop_eff in E. rewrite poll_cancel_run in E.
    destruct E as (E1 & E2 & _). simpl in E1, E2. split; assumption.
Qed.

(** C10. With a setup task outstanding, [cancel] trips its assertion
    that a response exists, whatever identity it is given (a non-None one
    in particular): it raises [AssertionError], neither returning nor
    raising [UnknownPredictionError], and changes nothing. With no task or
    a predict task outstanding, the only exception [cancel] can raise is
    [UnknownPredictionError]. *)
Theorem cancel_during_setup_asserts s :
  reachable s ->
  (forall t frame,
     outstanding s = Some (t, SetupCoro frame) ->
     forall prediction_id,
       cancel prediction_id s = (inl (Exn AssertionError ""), s)) /\
  ((forall t frame, outstanding s <> Some (t, SetupCoro frame)) ->
   forall prediction_id e,
     fst (cancel prediction_id s) = inl e -> exn_cls e = UnknownPredictionError).
Proof.
  intros Hreach. split.
  - intros t frame Hout pid.
    pose proof (outstanding_busy _ _ _ Hout) as Hbusy.
    destruct (outstanding_setup _ _ _ Hreach Hout) as [Hp _].
    unfold cancel, bind at 1. rewrite Hbusy. simpl. cbv [bind gets]. rewrite Hp.
    reflexivity.
  - intros Hns pid e.
    destruct (outstanding s) as [[t c]|] eqn:Hout.
    + destruct c as [frame|l h request wp frame]; [destruct (Hns t frame eq_refl)|].
      pose proof (outstanding_busy _ _ _ Hout) as Hbusy.
      destruct (outstanding_predict _ _ _ _ _ _ _ Hreach Hout) as (Hp & _).
      unfold cancel, bind at 1. rewrite Hbusy. simpl. cbv [bind gets]. rewrite Hp.
      destruct (negb _ && negb _); simpl; [|discriminate].
      intros [= <-]. reflexivity.
    + destruct (outstanding_None s Hreach Hout) as (s1 & Hb).
      unfold cancel, bind at 1. rewrite Hb. simpl. discriminate.
Qed.

(** C3, amended. An exception raised while a predict task translates its
    events (or converts its inputs) is recorded in the response: status
    failed, error message [str(e)], the traceback appended to the logs. It
    is then raised again and leaves the driving task: the task completes
    with that exception, and the done-callback sets the shutdown event when
    the runner has one. The runner itself is no longer busy. *)
Theorem predict_exception_recorded_and_reraised
    s t l event_handler request worker_predict frame r e ts1 :
  reachable s ->
  tasks s !! t =
    Some {| t_state := Pending (PredictCoro l event_handler request worker_predict frame);
            t_must_cancel := false |} ->
  responses s !! l = Some r ->
  resume_body worker_predict request event_handler frame
    {| ts_p := r; ts_eff := eff s |} = (inl e, ts1) ->
  let s' := run_task t s in
  (exists r',
      responses s' !! l = Some r' /\
      pr_status r' = FAILED /\
      pr_error r' = Some (exn_msg e) /\
      pr_logs r' = (pr_logs (ts_p ts1) ++ format_exc e)%string) /\
  tasks s' !! t = Some {| t_state := Finished (TaskRaised e); t_must_cancel := false |} /\
  _shutdown_event (runner s') =
    option_map (fun _ => true) (_shutdown_event (runner s)) /\
  is_busy s' = (inr false, reclaim s').
Proof.
  intros Hreach Htk Hl Hbody s'.
  destruct (predict_except_run event_handler e ts1) as (ts2 & Hex & Hst & Herr & Hlogs & _).
  assert (E : resume_predict worker_predict request event_handler frame
                {| ts_p := r; ts_eff := eff s |} = (inl e, ts2)).
  { unfold resume_predict, try_except. rewrite Hbody. unfold bind. rewrite Hex.
    reflexivity. }
  destruct (run_task_predict _ _ _ _ _ _ _ _ _ _ Htk Hl E) as (He & Hresp & Htasks & Hrun).
  fold s' in He, Hresp, Htasks, Hrun.
  assert (Hlt : t < length (tasks s)) by (eapply lookup_lt_Some; exact Htk).
  assert (Htk' : tasks s' !! t =
    Some {| t_state := Finished (TaskRaised e); t_must_cancel := false |}).
  { rewrite Htasks. apply list_lookup_insert_eq. exact Hlt. }
  split; [|split; [exact Htk'|split]].
  - exists (ts_p ts2). split; [|auto].
    rewrite Hresp. apply list_lookup_insert_eq. eapply lookup_lt_Some; exact Hl.
  - rewrite Hrun. reflexivity.
  - assert (Hr : _result (runner s) = Some t).
    { apply reachable_wf in Hreach as [_ _ Ho]. eapply Ho; [exact Htk | reflexivity]. }
    rewrite is_busy_run, Hrun. simpl. rewrite Hr.
    unfold task_done. rewrite Htk'. reflexivity.
Qed.

(** *** The upload client's retry policy *)








(** *** Further properties of the runner *)

(** X1. In every reachable state at most one task is pending, and it is the
    task the runner holds in [_result]: admission is single-flight. *)
Theorem single_flight s t1 t2 tk1 tk2 :
  reachable s ->
  tasks s !! t1 = Some tk1 -> is_pending tk1 = true ->
  tasks s !! t2 = Some tk2 -> is_pending tk2 = true ->
  t1 = t2 /\ _result (runner s) = Some t1.
Proof.
  intros Hreach H1 P1 H2 P2. apply reachable_wf in Hreach as [_ _ Ho].
  pose proof (Ho t1 tk1 H1 P1) as E1. pose proof (Ho t2 tk2 H2 P2) as E2.
  split; [congruence | exact E1].
Qed.


(** X3. [PredictionRunner.setup] in a reachable state: with any task
    outstanding it raises [RunnerBusyError] and changes nothing; otherwise
    it returns a new task handle, the runner holds that task and no
    response, and the responses and the effects (the cancellation event
    included) are as they were. *)
Theorem setup_admission s g :
  reachable s ->
  (forall t c, outstanding s = Some (t, c) ->
     Runner_setup g s = (inl (Exn RunnerBusyError ""), s)) /\
  (outstanding s = None ->
     exists s',
       Runner_setup g s = (inr (length (tasks s)), s') /\
       outstanding s' = Some (length (tasks s), SetupCoro (SF_start g)) /\
       _response (runner s') = None /\
       tasks s !! length (tasks s) = None /\
       responses s' = responses s /\
       eff s' = eff s).
Proof.
  intros Hreach. split.
  - intros t c Hout. unfold Runner_setup, bind at 1.
    rewrite (outstanding_busy _ _ _ Hout). reflexivity.
  - intros Hout. destruct (outstanding_None s Hreach Hout) as (s1 & Hb).
    pose proof (is_busy_false s s1 (reachable_wf s Hreach) Hb)
      as (_ & _ & Hp1 & Hs1 & _).
    unfold Runner_setup, bind at 1. rewrite Hb.
    assert (Hp1' : _response (runner s1) = None) by exact Hp1.
    destruct Hs1 as [->| ->].
    + eexists. split; [reflexivity|]. split.
      { unfold outstanding. simpl.
        rewrite list_lookup_middle by reflexivity. reflexivity. }
      simpl. repeat split; try assumption. apply lookup_ge_None. lia.
    + eexists. split; [reflexivity|]. split.
      { unfold outstanding. simpl.
        rewrite list_lookup_middle by reflexivity. reflexivity. }
      simpl. repeat split. apply lookup_ge_None. lia.
Qed.

(** *** Further properties of setup *)

Lemma setup_loop_raises evs ex : forall logs status,
  setup_loop (prepend evs (Raises ex)) logs status =
    ((logs ++ log_messages evs ++ [format_exc ex])%list, Some FAILED).
Proof.
  induction evs as [|ev evs IH]; intros logs status; simpl; [reflexivity|].
  destruct ev; rewrite IH; try reflexivity.
  rewrite <- app_assoc. reflexivity.
Qed.

Lemma setup_loop_last_done evs c err d rest : forall logs status,
  existsb is_Done rest = false ->
  setup_loop (prepend (evs ++ Done c err d :: rest) Exhausted) logs status =
    ((logs ++ log_messages evs ++ log_messages rest)%list,
     Some (if err then FAILED else SUCCEEDED)).
Proof.
  induction evs as [|ev evs IH]; intros logs status Hd; simpl.
  - apply setup_loop_no_done. exact Hd.
  - destruct ev; rewrite IH by exact Hd; try reflexivity.
    rewrite <- app_assoc. reflexivity.
Qed.

Lemma concat_app (l1 l2 : list string) :
  String.concat "" (l1 ++ l2) = (String.concat "" l1 ++ String.concat "" l2)%string.
Proof.
  induction l2 as [|x l2 IH] using rev_ind.
  - rewrite app_nil_r. simpl.
    induction (String.concat "" l1) as [|ch a IHa]; simpl; [reflexivity | f_equal; exact IHa].
  - rewrite app_assoc, !concat_snoc, IH.
    generalize (String.concat "" l1) as a. intros a.
    induction a as [|ch a IHa]; simpl; [reflexivity | f_equal; exact IHa].
Qed.

(** X4. When the worker raises during setup, after any events, [setup]
    catches the exception and returns: the status is failed even if a
    successful [Done] was seen before, the logs are the logged messages
    followed by the traceback (with no missing-done diagnostic), and the
    readiness probe is not signalled. *)
Theorem setup_worker_exception evs ex e :
  exists r e',
    setup (prepend evs (Raises ex)) e = (inr r, e') /\
    sr_status r = FAILED /\
    sr_logs r = (String.concat "" (log_messages evs) ++ format_exc ex)%string /\
    probes_ready e' = probes_ready e.
Proof.
  unfold setup, bind, now. rewrite (setup_loop_raises evs ex [] None). simpl app.
  match goal with |- context [setup_finish ?a ?l ?st ?e0] =>
    destruct (setup_finish_run a l st e0) as (r & e' & Hrun & Hst & Hlogs & Hpr) end.
  exists r, e'. rewrite Hrun. split; [reflexivity|].
  rewrite Hst in Hpr. simpl in Hpr. simpl in Hst.
  repeat split; [exact Hst | | exact Hpr].
  rewrite Hlogs. apply concat_snoc.
Qed.

(** X5. When the setup stream is exhausted and has a [Done] event, the last
    [Done] decides: the status is failed if it carries an error and
    succeeded otherwise (its canceled flag is not looked at, and earlier
    [Done] events do not count), the logs are all logged messages without
    the diagnostic, the probe is signalled exactly when the status is
    succeeded, and the two timestamps are the first and the second clock
    reading of the run. *)
Theorem setup_last_done_decides evs c err d rest e :
  existsb is_Done rest = false ->
  exists r e',
    setup (prepend (evs ++ Done c err d :: rest) Exhausted) e = (inr r, e') /\
    sr_status r = (if err then FAILED else SUCCEEDED) /\
    sr_logs r =
      (String.concat "" (log_messages evs) ++ String.concat "" (log_messages rest))%string /\
    probes_ready e' = (if err then probes_ready e else S (probes_ready e)) /\
    sr_started_at r = clock (clock_reads e) /\
    sr_completed_at r = clock (S (clock_reads e)).
Proof.
  intros Hd. unfold setup, bind, now.
  rewrite (setup_loop_last_done evs c err d rest [] None Hd). simpl app.
  rewrite <- concat_app.
  unfold setup_finish. destruct err; do 2 eexists; (split; [reflexivity|]); repeat split.
Qed.

Lemma setup_fetch_returns started_at logs status g e :
  exists x e', setup_fetch started_at logs status g e = (inr x, e').
Proof.
  destruct g as [|ex|ev rest]; simpl; unfold bind.
  - destruct (setup_finish_run started_at logs status e) as (r & e' & -> & _). eauto.
  - destruct (setup_finish_run started_at (logs ++ [format_exc ex]) (Some FAILED) e)
      as (r & e' & -> & _). eauto.
  - eauto.
Qed.

Lemma resume_setup_returns frame e :
  exists x e', resume_setup frame e = (inr x, e').
Proof.
  destruct frame as [g|started_at logs status ev rest]; simpl.
  - unfold bind, now. apply setup_fetch_returns.
  - destruct ev; apply setup_fetch_returns.
Qed.

(** X6. Resuming a setup task never sets the shutdown event and never
    touches a response or the runner's own fields, whatever the worker's
    stream does (exceptions of the worker are caught inside [setup]); the
    task is left suspended or finished with a [SetupResult], or cancelled
    if its cancellation was requested. *)
Theorem setup_task_never_shuts_down s t frame must_cancel :
  tasks s !! t =
    Some {| t_state := Pending (SetupCoro frame); t_must_cancel := must_cancel |} ->
  runner (run_task t s) = runner s /\
  responses (run_task t s) = responses s /\
  exists tk,
    tasks (run_task t s) !! t = Some tk /\
    match t_state tk with
    | Pending (SetupCoro _) => must_cancel = false
    | Finished (SetupReturned _) => must_cancel = false
    | Finished TaskCancelled => must_cancel = true
    | _ => False
    end.
Proof.
  intros Htk. pose proof (lookup_lt_Some _ _ _ Htk) as Hlt.
  unfold run_task. rewrite Htk. destruct must_cancel.
  - simpl. repeat split. eexists. split; [apply list_lookup_insert_eq; exact Hlt|].
    reflexivity.
  - destruct (resume_setup_returns frame (eff s)) as ([frame'|r] & e' & ->); simpl.
    + repeat split. eexists. split; [apply list_lookup_insert_eq; exact Hlt|]. reflexivity.
    + repeat split. eexists. split; [apply list_lookup_insert_eq; exact Hlt|]. reflexivity.
Qed.

(** *** Further properties of the event translator *)

Lemma log_and_fail_run event_handler tb error s :
  exists sA s',
    append_logs event_handler tb s = (inr tt, sA) /\
    failed event_handler error sA = (inr tt, s') /\
    ts_p s' = failed_response tb error (clock (clock_reads (ts_eff s))) (ts_p s).
Proof.
  rewrite append_logs_run, _send_webhook_run. eexists. eexists.
  split; [reflexivity|]. rewrite failed_run. split; reflexivity.
Qed.

Lemma convert_inputs_failing event_handler k ex post pre : forall s,
  forallb converts pre = true ->
  convert_inputs event_handler (pre ++ (k, URLPath (inl ex)) :: post) s =
    (if is_RequestException ex
     then (append_logs event_handler (format_exc ex) ;;
           failed event_handler (exn_msg ex) ;; ret None)
     else raise ex) s.
Proof.
  induction pre as [|[k' v] pre IH]; intros s Hpre; [reflexivity|].
  simpl in Hpre. apply andb_true_iff in Hpre as [Hv Hpre].
  assert (Hstep : convert_inputs event_handler
                    (((k', v) :: pre) ++ (k, URLPath (inl ex)) :: post) s =
                  (r <- convert_inputs event_handler
                          (pre ++ (k, URLPath (inl ex)) :: post) ;;
                   ret (option_map (cons (k', match v with
                                               | Plain x => x
                                               | URLPath (inr x) => x
                                               | URLPath (inl _) => VNone
                                               end)) r)) s).
  { destruct v as [x|[e|x]]; [reflexivity | discriminate Hv | reflexivity]. }
  rewrite Hstep. unfold bind at 1. rewrite IH by exact Hpre.
  destruct (is_RequestException ex).
  - destruct (log_and_fail_run event_handler (format_exc ex) (exn_msg ex) s)
      as (sA & s' & HA & HB & _).
    unfold bind. rewrite HA, HB. reflexivity.
  - reflexivity.
Qed.

(** X7. When the first input whose download fails raises [ex]: the
    response is failed with error [str(ex)] and the traceback appended to
    its logs, and the worker is never asked for events (the outcome is the
    same whatever the worker would produce). If [ex] is a
    [RequestException], [predict] returns normally; any other exception
    leaves the same response and is raised out of [predict]. *)
Theorem download_failure worker_predict request event_handler s pre k ex post :
  rq_input request = (pre ++ (k, URLPath (inl ex)) :: post)%list ->
  forallb converts pre = true ->
  exists s',
    ts_p s' = failed_response (format_exc ex) (exn_msg ex)
                (clock (clock_reads (ts_eff s))) (ts_p s) /\
    predict worker_predict request event_handler s =
      (if is_RequestException ex then inr tt else inl ex, s') /\
    (forall worker_predict',
        predict worker_predict' request event_handler s =
        predict worker_predict request event_handler s).
Proof.
  intros Hin Hpre.
  destruct (log_and_fail_run event_handler (format_exc ex) (exn_msg ex) s)
    as (sA & s' & HA & HB & Hp).
  assert (Hany : forall wp,
    predict wp request event_handler s =
      (if is_RequestException ex then inr tt else inl ex, s')).
  { intros wp. unfold predict, try_except, _predict. unfold bind at 1.
    rewrite Hin, convert_inputs_failing by exact Hpre.
    destruct (is_RequestException ex).
    - unfold bind. rewrite HA, HB. reflexivity.
    - cbv [raise]. unfold predict_except, bind. rewrite HA, HB. reflexivity. }
  exists s'. split; [exact Hp|]. split; [apply Hany|].
  intros wp'. rewrite !Hany. reflexivity.
Qed.

(** X11. A stream that is exhausted without a [Done] event, and whose
    events were translated without a failure, makes [predict] return
    normally with the response not completed: its status, error, completion
    timestamp and metrics are the ones it started with (status processing
    for a fresh response). *)
Theorem stream_without_done_not_completed worker_predict request event_handler
    s0 input_dict s pre output_type1 s1 :
  convert_inputs event_handler (rq_input request) s0 = (inr (Some input_dict), s) ->
  worker_predict input_dict = prepend pre Exhausted ->
  existsb is_Done pre = false ->
  run_events event_handler None pre s = (inr (Continue output_type1), s1) ->
  predict worker_predict request event_handler s0 = (inr tt, s1) /\
  pr_status (ts_p s1) = pr_status (ts_p s0) /\
  pr_error (ts_p s1) = pr_error (ts_p s0) /\
  pr_completed_at (ts_p s1) = pr_completed_at (ts_p s0) /\
  pr_metrics (ts_p s1) = pr_metrics (ts_p s0).
Proof.
  intros Hconv Hwp Hnd Hrun.
  pose proof (convert_inputs_Some _ _ _ _ _ Hconv) as ->.
  split.
  - unfold predict, try_except, _predict, bind.
    rewrite Hconv, Hwp, _predict_loop_prepend, Hrun. reflexivity.
  - apply run_events_verdict in Hrun; [|exact Hnd].
    destruct Hrun as (_ & H1 & H2 & H3 & H4 & _). auto.
Qed.

Lemma _upload_files_run self output s :
  _upload_files self output s =
    match uploaded self output with
    | Some v => (inr v, s)
    | None => (inl (Exn FileUploadError "Got error trying to upload output files"), s)
    end.
Proof.
  unfold _upload_files, uploaded. destruct (_file_uploader self) as [u|]; [|reflexivity].
  destruct (u output); reflexivity.
Qed.

Lemma set_output_run self output s :
  set_output self output s =
    if is_None (pr_output (ts_p s)) then
      match uploaded self output with
      | Some v => (inr tt, {| ts_p := with_output v (ts_p s); ts_eff := ts_eff s |})
      | None => (inl (Exn FileUploadError "Got error trying to upload output files"), s)
      end
    else (inl (Exn AssertionError "Predictor unexpectedly returned multiple outputs"), s).
Proof.
  unfold set_output. cbv [bind gets py_assert].
  destruct (is_None (pr_output (ts_p s))); cbv [ret raise]; [|reflexivity].
  rewrite _upload_files_run. destruct (uploaded self output); reflexivity.
Qed.

Lemma append_output_run self output s :
  append_output self output s =
    match pr_output (ts_p s) with
    | VList items =>
        match uploaded self output with
        | Some v =>
            _send_webhook self OUTPUT
              {| ts_p := with_output (VList (items ++ [v])) (ts_p s); ts_eff := ts_eff s |}
        | None => (inl (Exn FileUploadError "Got error trying to upload output files"), s)
        end
    | _ => (inl (Exn AssertionError "Cannot append output before setting output"), s)
    end.
Proof.
  unfold append_output. cbv [bind gets].
  destruct (pr_output (ts_p s)); try reflexivity.
  rewrite _upload_files_run. destruct (uploaded self output); reflexivity.
Qed.

(** A resumption whose iteration raises: the exception is recorded by the
    [except] clause of [predict] and raised again. *)
Lemma resume_predict_raises worker_predict request event_handler
    output_type ev rest s e s1 :
  loop_body event_handler output_type ev s = (inl e, s1) ->
  exists s',
    resume_predict worker_predict request event_handler
      (PF_loop output_type ev rest) s = (inl e, s') /\
    ts_p s' = failed_response (format_exc e) (exn_msg e)
                (clock (clock_reads (ts_eff s1))) (ts_p s1).
Proof.
  intros Hbody.
  destruct (log_and_fail_run event_handler (format_exc e) (exn_msg e) s1)
    as (sA & s' & HA & HB & Hp).
  exists s'. split; [|exact Hp].
  unfold resume_predict, try_except, resume_body, bind. rewrite Hbody.
  unfold predict_except, bind. rewrite HA, HB. reflexivity.
Qed.

(** X8. When the upload of an output payload fails, for a job whose shape
    was declared and whose stored output is in step with it: that
    resumption of [predict] raises [FileUploadError], the response is
    failed with the error message "Got error trying to upload output
    files" and the traceback appended to its logs, and the stored output is
    left as it was. *)
Theorem upload_failure_fails_job worker_predict request event_handler
    (multi : bool) payload rest s :
  uploaded event_handler payload = None ->
  (if multi return Prop then exists items, pr_output (ts_p s) = VList items
   else pr_output (ts_p s) = VNone) ->
  let e := Exn FileUploadError "Got error trying to upload output files" in
  exists s',
    resume_predict worker_predict request event_handler
      (PF_loop (Some multi) (PredictionOutput payload) rest) s = (inl e, s') /\
    ts_p s' = failed_response (format_exc e) "Got error trying to upload output files"
                (clock (clock_reads (ts_eff s))) (ts_p s) /\
    pr_output (ts_p s') = pr_output (ts_p s).
Proof.
  intros Hup Hout e.
  assert (Hbody : loop_body event_handler (Some multi) (PredictionOutput payload) s =
                  (inl e, snd (poll_cancel s))).
  { rewrite loop_body_unfold, poll_cancel_run. cbn [snd]. unfold bind.
    destruct multi.
    - destruct Hout as (items & Hitems).
      rewrite append_output_run. cbn [ts_p]. rewrite Hitems, Hup. reflexivity.
    - rewrite set_output_run. cbn [ts_p]. rewrite Hout, Hup. reflexivity. }
  destruct (resume_predict_raises worker_predict request event_handler _ _ rest _ _ _ Hbody)
    as (s' & Hrun & Hp).
  rewrite poll_cancel_run in Hp. cbn [snd ts_p ts_eff clock_reads] in Hp.
  exists s'. split; [exact Hrun|]. split; [exact Hp|]. rewrite Hp. reflexivity.
Qed.

(** X15. For a single-shape job whose stored output is not None, a further
    output event trips [set_output]'s assertion: that resumption of
    [predict] raises [AssertionError], the response is failed with the
    error message "Predictor unexpectedly returned multiple outputs", and
    the stored output is the first one still. When the stored output is
    None (nothing set yet, or None was set), the payload is stored and the
    loop goes on. *)
Theorem single_output_is_set_once worker_predict request event_handler payload rest s :
  let e := Exn AssertionError "Predictor unexpectedly returned multiple outputs" in
  (is_None (pr_output (ts_p s)) = false ->
   exists s',
     resume_predict worker_predict request event_handler
       (PF_loop (Some false) (PredictionOutput payload) rest) s = (inl e, s') /\
     ts_p s' = failed_response (format_exc e)
                 "Predictor unexpectedly returned multiple outputs"
                 (clock (clock_reads (ts_eff s))) (ts_p s) /\
     pr_output (ts_p s') = pr_output (ts_p s)) /\
  (forall v,
     is_None (pr_output (ts_p s)) = true ->
     uploaded event_handler payload = Some v ->
     exists s',
       loop_body event_handler (Some false) (PredictionOutput payload) s =
         (inr (Continue (Some false)), s') /\
       ts_p s' = with_output v (ts_p s) /\
       webhooks_sent (ts_eff s') = webhooks_sent (ts_eff s)).
Proof.
  intros e. split.
  - intros Hset.
    assert (Hbody : loop_body event_handler (Some false) (PredictionOutput payload) s =
                    (inl e, snd (poll_cancel s))).
    { rewrite loop_body_unfold, poll_cancel_run. cbn [snd]. unfold bind.
      rewrite set_output_run. cbn [ts_p]. rewrite Hset. reflexivity. }
    destruct (resume_predict_raises worker_predict request event_handler _ _ rest _ _ _ Hbody)
      as (s' & Hrun & Hp).
    rewrite poll_cancel_run in Hp. cbn [snd ts_p ts_eff clock_reads] in Hp.
    exists s'. split; [exact Hrun|]. split; [exact Hp|]. rewrite Hp. reflexivity.
  - intros v Hnone Hup. rewrite loop_body_unfold, poll_cancel_run. cbn [snd]. unfold bind.
    rewrite set_output_run. cbn [ts_p]. rewrite Hnone, Hup.
    eexists. split; [reflexivity|]. split; reflexivity.
Qed.

Lemma multi_outputs_run event_handler outs vs :
  Forall2 (fun o v => uploaded event_handler o = Some v) outs vs ->
  forall s items,
    pr_output (ts_p s) = VList items ->
    exists s',
      run_events event_handler (Some true) (map PredictionOutput outs) s =
        (inr (Continue (Some true)), s') /\
      pr_output (ts_p s') = VList (items ++ vs) /\
      same_verdict (ts_p s) (ts_p s') /\
      pr_logs (ts_p s') = pr_logs (ts_p s) /\
      map fst (webhooks_sent (ts_eff s')) =
        (map fst (webhooks_sent (ts_eff s)) ++
         (if sends event_handler OUTPUT then replicate (length outs) OUTPUT else []))%list.
Proof.
  induction 1 as [|o v outs vs Hup _ IH]; intros s items Hout.
  - exists s. simpl. rewrite app_nil_r. split; [reflexivity|].
    split; [exact Hout|]. split; [apply same_verdict_refl|].
    split; [reflexivity|].
    destruct (sends event_handler OUTPUT); rewrite app_nil_r; reflexivity.
  - simpl map. simpl run_events. unfold bind at 1.
    rewrite loop_body_unfold, poll_cancel_run. cbn [snd]. unfold bind at 1.
    rewrite append_output_run. cbn [ts_p]. rewrite Hout, Hup, _send_webhook_run.
    cbn [ts_p ts_eff should_cancel clock_reads webhooks_sent worker_cancels probes_ready].
    cbv [ret].
    match goal with |- context [run_events _ _ _ ?s1] =>
      destruct (IH s1 (items ++ [v])%list eq_refl) as (s' & Hrun & Ho & Hv & Hl & Hw)
    end.
    exists s'. split; [exact Hrun|].
    split; [rewrite Ho, <- app_assoc; reflexivity|].
    split; [exact Hv|]. split; [exact Hl|].
    rewrite Hw. cbn [ts_eff webhooks_sent].
    destruct (sends event_handler OUTPUT); [|reflexivity].
    rewrite map_app, <- app_assoc. reflexivity.
Qed.

(** X9. For a multi-shape job: after [PredictionOutputType(multi=True)] on
    a response with no output, a run of output events whose uploads
    succeed leaves the output as the list of the uploaded payloads in
    arrival order, sends one "output" notification per payload when the
    sender passes that tag (and none otherwise), and leaves status, error,
    logs and timestamps as they were. *)
Theorem multi_outputs_accumulate event_handler outs vs s :
  uploaded event_handler (VList []) = Some (VList []) ->
  Forall2 (fun o v => uploaded event_handler o = Some v) outs vs ->
  pr_output (ts_p s) = VNone ->
  exists s',
    run_events event_handler None
      (PredictionOutputType true :: map PredictionOutput outs) s =
      (inr (Continue (Some true)), s') /\
    pr_output (ts_p s') = VList vs /\
    same_verdict (ts_p s) (ts_p s') /\
    pr_logs (ts_p s') = pr_logs (ts_p s) /\
    map fst (webhooks_sent (ts_eff s')) =
      (map fst (webhooks_sent (ts_eff s)) ++
       (if sends event_handler OUTPUT then replicate (length outs) OUTPUT else []))%list.
Proof.
  intros Hnil Hups Hout. simpl run_events. unfold bind at 1.
  rewrite loop_body_unfold, poll_cancel_run. cbn [snd]. unfold bind at 1.
  rewrite set_output_run. cbn [ts_p]. rewrite Hout, Hnil. cbn [is_None]. cbv [ret].
  match goal with |- context [run_events _ _ _ ?s1] =>
    destruct (multi_outputs_run event_handler outs vs Hups s1 [] eq_refl)
      as (s' & Hrun & Ho & Hv & Hl & Hw)
  end.
  exists s'. split; [exact Hrun|]. split; [exact Ho|].
  split; [exact Hv|]. split; [exact Hl|]. exact Hw.
Qed.

(** *** What the translator never changes *)

Lemma string_app_nil_r (a : string) : (a ++ "")%string = a.
Proof. induction a as [|ch a IH]; simpl; [reflexivity | f_equal; exact IH]. Qed.

Lemma string_app_assoc (a b c : string) : ((a ++ b) ++ c)%string = (a ++ b ++ c)%string.
Proof. induction a as [|ch a IH]; simpl; [reflexivity | f_equal; exact IH]. Qed.

Lemma advance_refl self s : advance self s s.
Proof.
  split; [|reflexivity]. repeat split. exists "". symmetry. apply string_app_nil_r.
Qed.

Lemma advance_trans self s1 s2 s3 :
  advance self s1 s2 -> advance self s2 s3 -> advance self s1 s3.
Proof.
  intros [(A1 & A2 & A3 & x & A4) A5] [(B1 & B2 & B3 & y & B4) B5]. split.
  - repeat split; try congruence. exists (x ++ y)%string.
    rewrite B4, A4. apply string_app_assoc.
  - intros H. rewrite (B5 H), (A5 H). reflexivity.
Qed.

Lemma advance_same_p self s s' :
  ts_p s' = ts_p s ->
  (_webhook_sender self = None -> webhooks_sent (ts_eff s') = webhooks_sent (ts_eff s)) ->
  advance self s s'.
Proof.
  intros Hp Hw. split; [|exact Hw]. rewrite Hp. repeat split.
  exists "". symmetry. apply string_app_nil_r.
Qed.

Lemma sends_no_sender self ev : _webhook_sender self = None -> sends self ev = false.
Proof. unfold sends. intros ->. reflexivity. Qed.

Lemma _send_webhook_advance self ev s : advance self s (snd (_send_webhook self ev s)).
Proof.
  rewrite _send_webhook_run. apply advance_same_p; [reflexivity|].
  intros H. simpl. rewrite (sends_no_sender self ev H). reflexivity.
Qed.

Lemma append_logs_advance self logs s : advance self s (snd (append_logs self logs s)).
Proof.
  rewrite append_logs_run, _send_webhook_run. split.
  - repeat split. exists logs. reflexivity.
  - intros H. simpl. rewrite (sends_no_sender self LOGS H). reflexivity.
Qed.

Lemma completed_state_advance self r' s :
  pr_id r' = pr_id (ts_p s) -> pr_input r' = pr_input (ts_p s) ->
  pr_started_at r' = pr_started_at (ts_p s) -> pr_logs r' = pr_logs (ts_p s) ->
  advance self s (completed_state self r' s).
Proof.
  intros H1 H2 H3 H4. split.
  - simpl. repeat split; try assumption. exists "". rewrite H4. symmetry.
    apply string_app_nil_r.
  - intros H. simpl. rewrite (sends_no_sender self COMPLETED H). reflexivity.
Qed.

Lemma failed_advance self error s : advance self s (snd (failed self error s)).
Proof. rewrite failed_run. apply completed_state_advance; reflexivity. Qed.

Lemma set_output_advance self output s : advance self s (snd (set_output self output s)).
Proof.
  rewrite set_output_run. destruct (is_None (pr_output (ts_p s)));
    [destruct (uploaded self output)|]; simpl; try apply advance_refl.
  split; [|reflexivity]. repeat split. exists "". symmetry. apply string_app_nil_r.
Qed.

Lemma append_output_advance self output s :
  advance self s (snd (append_output self output s)).
Proof.
  rewrite append_output_run. destruct (pr_output (ts_p s)); try apply advance_refl.
  destruct (uploaded self output); [|apply advance_refl].
  rewrite _send_webhook_run. split.
  - repeat split. exists "". symmetry. apply string_app_nil_r.
  - intros H. simpl. rewrite (sends_no_sender self OUTPUT H). reflexivity.
Qed.

Lemma bind_ret_snd {A B} (c : M TS A) (k : B) s :
  snd ((c ;; ret k) s) = snd (c s).
Proof. unfold bind. destruct (c s) as [[e|a] s1]; reflexivity. Qed.

Lemma bind_ret_snd' {A B} (c : M TS A) (k : A -> B) s :
  snd ((r <- c ;; ret (k r)) s) = snd (c s).
Proof. unfold bind. destruct (c s) as [[e|a] s1]; reflexivity. Qed.

Lemma loop_body_advance event_handler output_type ev s :
  advance event_handler s (snd (loop_body event_handler output_type ev s)).
Proof.
  rewrite loop_body_unfold.
  apply advance_trans with (s2 := snd (poll_cancel s)).
  { rewrite poll_cancel_run. apply advance_same_p; reflexivity. }
  generalize (snd (poll_cancel s)). intros s1.
  destruct ev as [|m|multi|payload|c e d|].
  - apply advance_refl.
  - rewrite bind_ret_snd. apply append_logs_advance.
  - destruct output_type.
    + rewrite bind_ret_snd. apply failed_advance.
    + rewrite bind_ret_snd. destruct multi; [apply set_output_advance | apply advance_refl].
  - destruct output_type as [[|]|]; rewrite bind_ret_snd.
    + apply append_output_advance.
    + apply set_output_advance.
    + apply failed_advance.
  - rewrite bind_ret_snd. destruct c; [rewrite canceled_run|destruct e;
      [rewrite failed_run | rewrite succeeded_run]];
      apply completed_state_advance; reflexivity.
  - apply advance_refl.
Qed.

Lemma predict_except_advance event_handler e s :
  advance event_handler s (snd (predict_except event_handler e s)).
Proof.
  destruct (log_and_fail_run event_handler (format_exc e) (exn_msg e) s)
    as (sA & s' & HA & HB & _).
  unfold predict_except, bind. rewrite HA, HB. simpl.
  eapply advance_trans.
  - pose proof (append_logs_advance event_handler (format_exc e) s) as H.
    rewrite HA in H. exact H.
  - pose proof (failed_advance event_handler (exn_msg e) sA) as H.
    rewrite HB in H. exact H.
Qed.

Lemma convert_inputs_advance event_handler items : forall s,
  advance event_handler s (snd (convert_inputs event_handler items s)).
Proof.
  induction items as [|[k v] items IH]; intros s; simpl; [apply advance_refl|].
  destruct v as [v|[e|v]].
  - rewrite bind_ret_snd'. apply IH.
  - destruct (is_RequestException e); [|apply advance_refl].
    destruct (log_and_fail_run event_handler (format_exc e) (exn_msg e) s)
      as (sA & s' & HA & HB & _).
    unfold bind. rewrite HA, HB. simpl.
    eapply advance_trans.
    + pose proof (append_logs_advance event_handler (format_exc e) s) as H.
      rewrite HA in H. exact H.
    + pose proof (failed_advance event_handler (exn_msg e) sA) as H.
      rewrite HB in H. exact H.
  - rewrite bind_ret_snd'. apply IH.
Qed.

Lemma resume_body_advance worker_predict request event_handler frame s :
  advance event_handler s
    (snd (resume_body worker_predict request event_handler frame s)).
Proof.
  destruct frame as [|ot ev rest]; simpl; unfold bind.
  - pose proof (convert_inputs_advance event_handler (rq_input request) s) as H.
    destruct (convert_inputs event_handler (rq_input request) s) as [[e|[d|]] s1];
      simpl in H; simpl; try exact H.
    destruct (fetch None (worker_predict d) s1) as [x s2] eqn:E.
    apply fetch_frame in E. subst s2. exact H.
  - pose proof (loop_body_advance event_handler ot ev s) as H.
    destruct (loop_body event_handler ot ev s) as [[e|[ot1|]] s1];
      simpl in H; simpl; try exact H.
    destruct (fetch ot1 rest s1) as [x s2] eqn:E.
    apply fetch_frame in E. subst s2. exact H.
Qed.

Lemma resume_predict_advance worker_predict request event_handler frame s :
  advance event_handler s
    (snd (resume_predict worker_predict request event_handler frame s)).
Proof.
  unfold resume_predict, try_except.
  pose proof (resume_body_advance worker_predict request event_handler frame s) as H.
  destruct (resume_body worker_predict request event_handler frame s) as [[e|x] s1];
    simpl in H; simpl; [|exact H].
  rewrite bind_ret_snd. eapply advance_trans; [exact H|].
  apply predict_except_advance.
Qed.

Lemma is_busy_stores s :
  responses (snd (is_busy s)) = responses s /\
  tasks (snd (is_busy s)) = tasks s /\
  eff (snd (is_busy s)) = eff s.
Proof.
  rewrite is_busy_run. destruct (_result (runner s)) as [t|]; [|repeat split].
  destruct (task_done s t); repeat split.
Qed.

Lemma continues_refl r : continues r r.
Proof. repeat split. exists "". symmetry. apply string_app_nil_r. Qed.

(** What each step does to the store of responses: nothing, a new response
    at the end, or a new state at one handle. *)
Lemma perform_responses a s :
  responses (perform a s) = responses s \/
  (exists r, responses (perform a s) = (responses s ++ [r])%list) \/
  (exists l r r', responses s !! l = Some r /\ continues r r' /\
                  responses (perform a s) = <[l := r']> (responses s)).
Proof.
  destruct a as [g|prediction upload wp| |pid| |t]; simpl.
  - left. unfold Runner_setup, bind at 1.
    destruct (is_busy_never_raises s) as (b & s1 & Hb).
    pose proof (is_busy_stores s) as (Hr & _). rewrite Hb in *. simpl in Hr.
    destruct b; simpl; [exact Hr|].
    cbv [bind create_task gets modify ret]. simpl. exact Hr.
  - destruct (is_busy_never_raises s) as (b & s1 & Hb). destruct b.
    + pose proof (is_busy_true _ _ _ Hb eq_refl) as ->.
      left. rewrite Runner_predict_busy by exact Hb. reflexivity.
    + right. left. rewrite (Runner_predict_reclaimed _ _ _ _ _ Hb).
      pose proof (is_busy_stores s) as (Hr & _). rewrite Hb in Hr. simpl in Hr.
      destruct (is_busy_false_idle s s1 Hb) as [Hidle _].
      destruct (Runner_predict_idle prediction upload wp s1 Hidle)
        as (h & s' & -> & _ & _ & _ & _ & Hresp & _).
      eexists. simpl. rewrite Hresp, Hr. reflexivity.
  - left. apply is_busy_stores.
  - left. unfold cancel, bind at 1.
    destruct (is_busy_never_raises s) as (b & s1 & Hb).
    pose proof (is_busy_stores s) as (Hr & _). rewrite Hb in *. simpl in Hr.
    destruct b; simpl; [|exact Hr].
    cbv [bind gets]. destruct (_response (runner s1)); [|exact Hr].
    destruct (negb _ && negb _); exact Hr.
  - left. unfold shutdown, bind, gets.
    destruct (_result (runner s)) as [t|]; cbv [modify ret]; simpl; [|reflexivity].
    unfold task_cancel. destruct (tasks s !! t) as [tk|]; [|reflexivity].
    destruct (is_pending tk); reflexivity.
  - unfold run_task.
    destruct (tasks s !! t) as [[[c|r] mc]|] eqn:Htk; try (left; reflexivity).
    destruct mc; [left; destruct c; reflexivity|].
    destruct c as [frame|l h request wp frame].
    + left. destruct (resume_setup frame (eff s)) as [[ex|[frame'|res]] e'];
        reflexivity.
    + destruct (responses s !! l) as [r|] eqn:Hl; [|left; reflexivity].
      right. right.
      pose proof (resume_predict_advance wp request h frame
                    {| ts_p := r; ts_eff := eff s |}) as [Hc _].
      destruct (resume_predict wp request h frame {| ts_p := r; ts_eff := eff s |})
        as [res ts].
      exists l, r, (ts_p ts). split; [exact Hl|]. split; [exact Hc|].
      destruct res as [ex|[frame'|]]; reflexivity.
Qed.

(** X10. Whatever happens next (a call of a runner method or the event
    loop resuming a task), a response that is in the store stays at its
    handle, with its identity, input and start time unchanged and its logs
    extended at the end only. *)
Theorem response_only_continues a s l r :
  responses s !! l = Some r ->
  exists r', responses (perform a s) !! l = Some r' /\ continues r r'.
Proof.
  intros Hl. destruct (perform_responses a s) as [->|[(x & ->)|(l0 & r0 & r' & H0 & Hc & ->)]].
  - exists r. split; [exact Hl | apply continues_refl].
  - exists r. split; [|apply continues_refl].
    rewrite lookup_app_l; [exact Hl|]. eapply lookup_lt_Some; exact Hl.
  - destruct (decide (l0 = l)) as [->|Hne].
    + exists r'. rewrite Hl in H0. injection H0 as <-. split; [|exact Hc].
      apply list_lookup_insert_eq. eapply lookup_lt_Some; exact Hl.
    + exists r. split; [|apply continues_refl].
      rewrite list_lookup_insert_ne by exact Hne. exact Hl.
Qed.

(** *** Handlers, notifications and uploads *)

(** [predict] on an idle runner, with the handler and the notification it
    sends spelled out. *)
Lemma Runner_predict_idle_handler prediction (upload : bool) worker_predict s :
  _result (runner s) = None ->
  let upload_url := if upload then _upload_url (runner s) else None in
  let event_handler := handler_for prediction upload_url in
  let r0 := fresh_response prediction (clock (clock_reads (eff s))) in
  exists s',
    Runner_predict prediction upload worker_predict s =
      (inr (length (responses s), length (tasks s)), s') /\
    tasks s' =
      (tasks s ++ [{| t_state := Pending (PredictCoro (length (responses s)) event_handler
                                            prediction worker_predict PF_start);
                      t_must_cancel := false |}])%list /\
    _upload_url (runner s') = _upload_url (runner s) /\
    webhooks_sent (eff s') =
      (if negb SKIP_START_EVENT && sends event_handler START
       then webhooks_sent (eff s) ++ [(START, r0)]
       else webhooks_sent (eff s))%list.
Proof.
  intros Hidle upload_url event_handler r0.
  unfold Runner_predict. unfold bind at 1. rewrite is_busy_run, Hidle.
  unfold bind at 1. cbv [modify]. unfold bind at 1. cbv [gets]. unfold bind at 1.
  unfold create_event_handler.
  fold upload_url. change {| _webhook_sender := _; _file_uploader := _ |}
    with event_handler.
  unfold handler_init, bind. cbv [modify_p modify lift_eff now]. simpl.
  destruct (negb SKIP_START_EVENT).
  - rewrite _send_webhook_run. simpl. eexists. split; [reflexivity|]. simpl.
    repeat split.
  - eexists. split; [reflexivity|]. simpl. repeat split.
Qed.

Lemma handle_error_upload_url r s :
  _upload_url (runner (handle_error r s)) = _upload_url (runner s).
Proof. destruct r; reflexivity. Qed.

(** No step changes the runner's upload url. *)
Lemma perform_upload_url a s :
  _upload_url (runner (perform a s)) = _upload_url (runner s).
Proof.
  destruct a as [g|prediction upload wp| |pid| |t]; simpl.
  - unfold Runner_setup, bind at 1. rewrite is_busy_run.
    destruct (_result (runner s)) as [t|]; [destruct (task_done s t)|]; reflexivity.
  - destruct (is_busy_never_raises s) as (b & s1 & Hb). destruct b.
    + pose proof (is_busy_true _ _ _ Hb eq_refl) as ->.
      rewrite Runner_predict_busy by exact Hb. reflexivity.
    + rewrite (Runner_predict_reclaimed _ _ _ _ _ Hb).
      destruct (is_busy_false_idle s s1 Hb) as [Hidle _].
      destruct (Runner_predict_idle prediction upload wp s1 Hidle)
        as (h & s' & -> & _ & _ & _ & Hu & _).
      simpl. rewrite Hu. rewrite is_busy_run in Hb.
      destruct (_result (runner s)) as [t|]; [destruct (task_done s t)|];
        try discriminate; injection Hb as <-; reflexivity.
  - rewrite is_busy_run.
    destruct (_result (runner s)) as [t|]; [destruct (task_done s t)|]; reflexivity.
  - unfold cancel, bind at 1. rewrite is_busy_run.
    destruct (_result (runner s)) as [t|]; [destruct (task_done s t)|]; try reflexivity.
    simpl. cbv [bind gets]. destruct (_response (runner s)); [|reflexivity].
    destruct (negb _ && negb _); reflexivity.
  - unfold shutdown, bind, gets.
    destruct (_result (runner s)) as [t|]; cbv [modify ret]; simpl; [|reflexivity].
    unfold task_cancel. destruct (tasks s !! t) as [tk|]; [|reflexivity].
    destruct (is_pending tk); reflexivity.
  - unfold run_task.
    destruct (tasks s !! t) as [[[c|r] mc]|]; try reflexivity.
    destruct mc; [reflexivity|].
    destruct c as [frame|l h request wp frame].
    + destruct (resume_setup frame (eff s)) as [[ex|[frame'|res]] e']; reflexivity.
    + destruct (responses s !! l) as [r|]; [|reflexivity].
      destruct (resume_predict wp request h frame {| ts_p := r; ts_eff := eff s |})
        as [[ex|[frame'|]] ts]; reflexivity.
Qed.

(** What each step does to the store of tasks: nothing, a new task at the
    end, or a new state of one task; handlers are built by
    [create_event_handler] and then kept. *)
Lemma perform_tasks a s :
  let url := _upload_url (runner s) in
  tasks (perform a s) = tasks s \/
  (exists tk, tasks (perform a s) = (tasks s ++ [tk])%list /\ handler_ok url tk) \/
  (exists t tk tk',
      tasks s !! t = Some tk /\
      tasks (perform a s) = <[t := tk']> (tasks s) /\
      (handler_ok url tk -> handler_ok url tk')).
Proof.
  intros url. destruct a as [g|prediction upload wp| |pid| |t]; simpl.
  - unfold Runner_setup. unfold bind. rewrite is_busy_run.
    destruct (_result (runner s)) as [t|]; [destruct (task_done s t)|].
    + right. left. eexists. split; [reflexivity|]. exact I.
    + left. reflexivity.
    + right. left. eexists. split; [reflexivity|]. exact I.
  - destruct (is_busy_never_raises s) as (b & s1 & Hb). destruct b.
    + pose proof (is_busy_true _ _ _ Hb eq_refl) as ->.
      left. rewrite Runner_predict_busy by exact Hb. reflexivity.
    + right. left. rewrite (Runner_predict_reclaimed _ _ _ _ _ Hb).
      pose proof (is_busy_stores s) as (_ & Ht & _). rewrite Hb in Ht. simpl in Ht.
      destruct (is_busy_false_idle s s1 Hb) as [Hidle _].
      destruct (Runner_predict_idle_handler prediction upload wp s1 Hidle)
        as (s' & -> & Htasks & _).
      simpl. rewrite Htasks, Ht. eexists. split; [reflexivity|].
      unfold handler_ok. simpl. eexists. split; [reflexivity|].
      destruct upload; [right|left; reflexivity].
      unfold url. rewrite is_busy_run in Hb.
      destruct (_result (runner s)) as [t|]; [destruct (task_done s t)|];
        try discriminate; injection Hb as <-; reflexivity.
  - left. apply is_busy_stores.
  - left. unfold cancel, bind at 1.
    destruct (is_busy_never_raises s) as (b & s1 & Hb).
    pose proof (is_busy_stores s) as (_ & Ht & _). rewrite Hb in *. simpl in Ht.
    destruct b; simpl; [|exact Ht].
    cbv [bind gets]. destruct (_response (runner s1)); [|exact Ht].
    destruct (negb _ && negb _); exact Ht.
  - unfold shutdown, bind, gets.
    destruct (_result (runner s)) as [t|]; cbv [modify ret]; simpl; [|left; reflexivity].
    unfold task_cancel. destruct (tasks s !! t) as [tk|] eqn:Htk; [|left; reflexivity].
    destruct (is_pending tk); [|left; reflexivity].
    right. right. exists t, tk. eexists. split; [exact Htk|].
    split; [reflexivity|]. intros H. exact H.
  - unfold run_task.
    destruct (tasks s !! t) as [[[c|r] mc]|] eqn:Htk; try (left; reflexivity).
    right. right. exists t. eexists.
    destruct mc.
    { eexists. split; [exact Htk|]. unfold finish.
      split; [reflexivity|]. intros _. exact I. }
    destruct c as [frame|l h request wp frame].
    + destruct (resume_setup frame (eff s)) as [[ex|[frame'|res]] e'];
        (eexists; split; [exact Htk|]; split; [reflexivity|]; intros _; exact I).
    + destruct (responses s !! l) as [r|] eqn:Hl.
      * destruct (resume_predict wp request h frame {| ts_p := r; ts_eff := eff s |})
          as [[ex|[frame'|]] ts];
          (eexists; split; [exact Htk|]; split; [reflexivity|]).
        -- intros _. exact I.
        -- intros H. exact H.
        -- intros _. exact I.
      * eexists. split; [exact Htk|]. split; [|intros H; exact H].
        symmetry. apply list_insert_id. exact Htk.
Qed.

(** In every reachable state each pending predict task runs with the
    handler [create_event_handler] built for its request. *)
Lemma reachable_handlers s :
  reachable s -> Forall (handler_ok (_upload_url (runner s))) (tasks s).
Proof.
  induction 1 as [se uu|s a _ IH]; [constructor|].
  rewrite perform_upload_url.
  destruct (perform_tasks a s) as [->|[(tk & -> & Hok)|(t & tk & tk' & Ht & -> & Hok)]].
  - exact IH.
  - apply Forall_app. split; [exact IH|]. constructor; [exact Hok | constructor].
  - apply Forall_insert; [exact IH|]. apply Hok.
    eapply Forall_lookup_1; [exact IH | exact Ht].
Qed.

(** X13. A job whose request names no webhook never causes a notification:
    in a reachable state, submitting such a job sends nothing, and no
    resumption of its driving task sends anything. *)
Theorem no_webhook_no_notifications s :
  reachable s ->
  (forall prediction upload worker_predict,
      rq_webhook prediction = None ->
      webhooks_sent (eff (perform (Call_predict prediction upload worker_predict) s)) =
      webhooks_sent (eff s)) /\
  (forall t l event_handler request worker_predict frame must_cancel,
      tasks s !! t =
        Some {| t_state := Pending (PredictCoro l event_handler request worker_predict frame);
                t_must_cancel := must_cancel |} ->
      rq_webhook request = None ->
      webhooks_sent (eff (perform (Loop_run t) s)) = webhooks_sent (eff s)).
Proof.
  intros Hreach. split.
  - intros prediction upload wp Hnone. simpl.
    destruct (is_busy_never_raises s) as (b & s1 & Hb). destruct b.
    + pose proof (is_busy_true _ _ _ Hb eq_refl) as ->.
      rewrite Runner_predict_busy by exact Hb. reflexivity.
    + rewrite (Runner_predict_reclaimed _ _ _ _ _ Hb).
      pose proof (is_busy_stores s) as (_ & _ & He). rewrite Hb in He. simpl in He.
      destruct (is_busy_false_idle s s1 Hb) as [Hidle _].
      destruct (Runner_predict_idle_handler prediction upload wp s1 Hidle)
        as (s' & -> & _ & _ & Hw).
      simpl. rewrite Hw, He.
      assert (Hs : forall uu, sends (handler_for prediction uu) START = false).
      { intros uu. unfold sends, handler_for. simpl. rewrite Hnone. reflexivity. }
      rewrite Hs, andb_false_r. reflexivity.
  - intros t l h request wp frame mc Htk Hnone. simpl.
    pose proof (reachable_handlers s Hreach) as Hall.
    pose proof (Forall_lookup_1 _ _ _ _ Hall Htk) as Hok.
    unfold handler_ok in Hok. simpl in Hok. destruct Hok as (uu & -> & _).
    unfold run_task. rewrite Htk. destruct mc; [reflexivity|].
    destruct (responses s !! l) as [r|]; [|reflexivity].
    pose proof (resume_predict_advance wp request (handler_for request uu) frame
                  {| ts_p := r; ts_eff := eff s |}) as [_ Hw].
    destruct (resume_predict wp request (handler_for request uu) frame
                {| ts_p := r; ts_eff := eff s |}) as [res ts].
    simpl in Hw.
    assert (Hsender : _webhook_sender (handler_for request uu) = None).
    { unfold handler_for. simpl. rewrite Hnone. reflexivity. }
    specialize (Hw Hsender).
    destruct res as [ex|[frame'|]]; simpl; exact Hw.
Qed.

(** X16. Submitting a job to a runner that holds no task sends the "start"
    notification, carrying the new response in its initial state, exactly
    when [SKIP_START_EVENT] is off and the job's webhook sender passes the
    tag; otherwise it sends nothing. *)
Theorem submission_start_notification prediction (upload : bool) worker_predict s :
  _result (runner s) = None ->
  let event_handler :=
    handler_for prediction (if upload then _upload_url (runner s) else None) in
  webhooks_sent (eff (perform (Call_predict prediction upload worker_predict) s)) =
    (if negb SKIP_START_EVENT && sends event_handler START
     then webhooks_sent (eff s) ++
          [(START, fresh_response prediction (clock (clock_reads (eff s))))]
     else webhooks_sent (eff s))%list.
Proof.
  intros Hidle h. simpl.
  destruct (Runner_predict_idle_handler prediction upload worker_predict s Hidle)
    as (s' & -> & _ & _ & Hw).
  exact Hw.
Qed.

(** X17. On a runner built without an upload url no handler has a file
    uploader: for every pending predict task of a reachable state,
    [_upload_files] returns every output as it is and never raises. *)
Theorem no_upload_url_no_uploader s t l event_handler request worker_predict frame
    must_cancel :
  reachable s ->
  _upload_url (runner s) = None ->
  tasks s !! t =
    Some {| t_state := Pending (PredictCoro l event_handler request worker_predict frame);
            t_must_cancel := must_cancel |} ->
  _file_uploader event_handler = None /\
  forall output ts, _upload_files event_handler output ts = (inr output, ts).
Proof.
  intros Hreach Hurl Htk.
  pose proof (reachable_handlers s Hreach) as Hall.
  pose proof (Forall_lookup_1 _ _ _ _ Hall Htk) as Hok.
  unfold handler_ok in Hok. simpl in Hok. destruct Hok as (uu & -> & Huu).
  assert (uu = None) as -> by (destruct Huu; congruence).
  split; [reflexivity|]. intros output ts. reflexivity.
Qed.

(** *** Shutdown, and the event loop against the coroutine *)

(** X12. [shutdown] never raises, terminates the worker, and leaves the
    runner's fields, the responses and the cancellation event as they
    were. When a task is outstanding its cancellation is requested: at its
    next resumption the task ends cancelled without running any further,
    so the response stays as it was (a job in flight is not marked
    canceled), the shutdown event is not set, and the runner is no longer
    busy. *)
Theorem shutdown_cancels_outstanding s :
  fst (shutdown s) = inr tt /\
  worker_terminated (snd (shutdown s)) = true /\
  runner (snd (shutdown s)) = runner s /\
  responses (snd (shutdown s)) = responses s /\
  eff (snd (shutdown s)) = eff s /\
  (forall t c,
      outstanding s = Some (t, c) ->
      let s2 := run_task t (snd (shutdown s)) in
      tasks s2 !! t =
        Some {| t_state := Finished TaskCancelled; t_must_cancel := false |} /\
      responses s2 = responses s /\
      eff s2 = eff s /\
      runner s2 = runner s /\
      is_busy s2 = (inr false, reclaim s2)).
Proof.
  assert (Hshape : forall t tk,
    _result (runner s) = Some t -> tasks s !! t = Some tk -> is_pending tk = true ->
    shutdown s =
      (inr tt,
       set_worker_terminated true
         (set_tasks (<[t := {| t_state := t_state tk; t_must_cancel := true |}]> (tasks s))
            s))).
  { intros t tk Hr Htk Hp. unfold shutdown, bind, gets. rewrite Hr. cbv [modify ret].
    unfold task_cancel. rewrite Htk, Hp. reflexivity. }
  assert (Hgen : fst (shutdown s) = inr tt /\
                 worker_terminated (snd (shutdown s)) = true /\
                 runner (snd (shutdown s)) = runner s /\
                 responses (snd (shutdown s)) = responses s /\
                 eff (snd (shutdown s)) = eff s).
  { unfold shutdown, bind, gets.
    destruct (_result (runner s)) as [t|]; cbv [modify ret]; simpl; [|repeat split].
    unfold task_cancel. destruct (tasks s !! t) as [tk|]; [|repeat split].
    destruct (is_pending tk); repeat split. }
  destruct Hgen as (G1 & G2 & G3 & G4 & G5).
  repeat (split; [assumption|]).
  intros t c Hout s2. apply outstanding_Some in Hout as (Hr & (mc & Htk) & _).
  pose proof (lookup_lt_Some _ _ _ Htk) as Hlt.
  assert (Hs2 : s2 =
    finish t TaskCancelled
      (set_worker_terminated true
         (set_tasks (<[t := {| t_state := Pending c; t_must_cancel := true |}]> (tasks s))
            s))).
  { unfold s2. rewrite (Hshape t _ Hr Htk eq_refl). cbn [snd t_state].
    unfold run_task. cbn [tasks set_worker_terminated set_tasks].
    rewrite list_lookup_insert_eq by exact Hlt. reflexivity. }
  rewrite Hs2. unfold finish. cbn [handle_error].
  cbn [tasks responses eff runner set_tasks set_worker_terminated].
  rewrite list_insert_insert_eq.
  assert (Hl : <[t := {| t_state := Finished TaskCancelled; t_must_cancel := false |}]>
                 (tasks s) !! t =
               Some {| t_state := Finished TaskCancelled; t_must_cancel := false |})
    by (apply list_lookup_insert_eq; exact Hlt).
  repeat split; try exact Hl.
  rewrite is_busy_run. cbn [runner set_tasks set_worker_terminated]. rewrite Hr.
  unfold task_done. cbn [tasks set_tasks set_worker_terminated]. rewrite Hl. reflexivity.
Qed.

Lemma run_loop_finished n t s r must_cancel :
  tasks s !! t = Some {| t_state := Finished r; t_must_cancel := must_cancel |} ->
  run_loop n t s = s.
Proof.
  intros Htk. induction n as [|n IH]; [reflexivity|].
  simpl. assert (Hrun : run_task t s = s) by (unfold run_task; rewrite Htk; reflexivity).
  rewrite Hrun. exact IH.
Qed.

Lemma run_loop_drive t l event_handler request worker_predict n :
  forall s frame r res ts,
    tasks s !! t =
      Some {| t_state := Pending (PredictCoro l event_handler request worker_predict frame);
              t_must_cancel := false |} ->
    responses s !! l = Some r ->
    drive_predict n worker_predict request event_handler frame
      {| ts_p := r; ts_eff := eff s |} = (res, ts) ->
    res <> inr None ->
    responses (run_loop n t s) = <[l := ts_p ts]> (responses s) /\
    eff (run_loop n t s) = ts_eff ts /\
    tasks (run_loop n t s) =
      <[t := {| t_state := Finished (task_result_of l res); t_must_cancel := false |}]>
        (tasks s) /\
    runner (run_loop n t s) =
      match res with
      | inl _ => with__shutdown_event
                   (option_map (fun _ => true) (_shutdown_event (runner s))) (runner s)
      | inr _ => runner s
      end.
Proof.
  induction n as [|n IH]; intros s frame r res ts Htk Hl Hdrive Hres.
  { simpl in Hdrive. injection Hdrive as <- <-. contradiction. }
  pose proof (lookup_lt_Some _ _ _ Htk) as Hlt.
  pose proof (lookup_lt_Some _ _ _ Hl) as Hll.
  simpl in Hdrive. unfold bind in Hdrive.
  destruct (resume_predict worker_predict request event_handler frame
              {| ts_p := r; ts_eff := eff s |}) as [res1 ts1] eqn:E.
  destruct (run_task_predict _ _ _ _ _ _ _ _ _ _ Htk Hl E) as (He & Hr & Ht & Hru).
  simpl run_loop.
  destruct res1 as [ex|[frame'|]].
  - injection Hdrive as <- <-.
    rewrite (run_loop_finished n t (run_task t s) (TaskRaised ex) false)
      by (rewrite Ht; apply list_lookup_insert_eq; exact Hlt).
    repeat split; assumption.
  - assert (Htk1 : tasks (run_task t s) !! t =
      Some {| t_state := Pending (PredictCoro l event_handler request worker_predict frame');
              t_must_cancel := false |})
      by (rewrite Ht; apply list_lookup_insert_eq; exact Hlt).
    assert (Hl1 : responses (run_task t s) !! l = Some (ts_p ts1))
      by (rewrite Hr; apply list_lookup_insert_eq; exact Hll).
    assert (Hts : {| ts_p := ts_p ts1; ts_eff := eff (run_task t s) |} = ts1)
      by (rewrite He; destruct ts1; reflexivity).
    rewrite <- Hts in Hdrive.
    destruct (IH (run_task t s) frame' (ts_p ts1) res ts Htk1 Hl1 Hdrive Hres)
      as (A & B & C & D).
    rewrite A, B, C, D, Hr, Ht, Hru, !list_insert_insert_eq. repeat split.
  - cbv [ret] in Hdrive. injection Hdrive as <- <-.
    rewrite (run_loop_finished n t (run_task t s) (PredictReturned l) false)
      by (rewrite Ht; apply list_lookup_insert_eq; exact Hlt).
    repeat split; assumption.
Qed.

(** X14. A predict task left to the event loop does what the coroutine
    [predict] does: once the loop has resumed a newly created task more
    often than its stream has events (and nothing else touched the runner
    in between), the response in the store and the effects are exactly the
    ones [predict] leaves when run from start to completion, the task is
    finished, returning the response if [predict] returns and raising if it
    raises, and the shutdown event is set in the latter case only. *)
Theorem event_loop_runs_predict s t l event_handler request worker_predict r n res ts :
  tasks s !! t =
    Some {| t_state := Pending (PredictCoro l event_handler request worker_predict PF_start);
            t_must_cancel := false |} ->
  responses s !! l = Some r ->
  (forall input_dict, S (gen_length (worker_predict input_dict)) < n) ->
  predict worker_predict request event_handler {| ts_p := r; ts_eff := eff s |} =
    (res, ts) ->
  responses (run_loop n t s) = <[l := ts_p ts]> (responses s) /\
  eff (run_loop n t s) = ts_eff ts /\
  tasks (run_loop n t s) =
    <[t := {| t_state := Finished (task_result_of l res); t_must_cancel := false |}]>
      (tasks s) /\
  runner (run_loop n t s) =
    match res with
    | inl _ => with__shutdown_event
                 (option_map (fun _ => true) (_shutdown_event (runner s))) (runner s)
    | inr _ => runner s
    end.
Proof.
  intros Htk Hl Hfuel Hpredict.
  pose proof (drive_predict_complete worker_predict request event_handler n
                {| ts_p := r; ts_eff := eff s |} Hfuel) as Hdrive.
  rewrite Hpredict in Hdrive.
  destruct res as [e|[]].
  - simpl in Hdrive.
    apply (run_loop_drive t l event_handler request worker_predict n s PF_start r
             (inl e) ts Htk Hl Hdrive). discriminate.
  - simpl in Hdrive.
    destruct (run_loop_drive t l event_handler request worker_predict n s PF_start r
                (inr (Some tt)) ts Htk Hl Hdrive) as (A & B & C & D); [discriminate|].
    repeat split; assumption.
Qed.

End Runner.

(** ** The model at work

    The theorems above applied to the sample jobs, and runs of the model on
    inputs where the code departs from a stronger reading. *)

Abbreviation perform0 := (perform sample_clock sample_format_exc false sample_store).
Abbreviation run_task0 := (run_task sample_clock sample_format_exc).
Abbreviation Runner_predict0 := (Runner_predict sample_clock false sample_store).
Abbreviation reachable0 := (reachable sample_clock sample_format_exc false sample_store).
Abbreviation step0 := (reachable_step sample_clock sample_format_exc false sample_store).
Abbreviation start0 := (reachable_init sample_clock sample_format_exc false sample_store).

(** Re-submitting job "a" while it is in flight returns the handles the
    runner holds. *)
Lemma predict_while_busy_witness :
  let s := perform0 (Call_predict job_a true stream_single) (init None None) in
  Runner_predict0 job_a true stream_single s = (inr (0, 0), s).
Proof.
  intros s.
  exact (proj1 (proj1
    (predict_while_busy sample_clock sample_format_exc false sample_store s 0
       (PredictCoro 0 plain_handler job_a stream_single PF_start)
       job_a true stream_single
       (step0 _ (Call_predict job_a true stream_single) (start0 None None))
       eq_refl) "a" eq_refl eq_refl)).
Defined.

(** A job submitted without an identity and re-submitted without one: the
    identities are equal (both None), yet [predict] raises
    [RunnerBusyError]. *)
Lemma predict_same_absent_identity_is_busy :
  let s := perform0 (Call_predict job_anonymous true stream_single) (init None None) in
  outstanding s =
    Some (0, PredictCoro 0 plain_handler job_anonymous stream_single PF_start) /\
  response_id s 0 = rq_id job_anonymous /\
  Runner_predict0 job_anonymous true stream_single s =
    (inl (Exn RunnerBusyError ""), s).
Proof. vm_compute. repeat split. Qed.


(** A second output for a single-shape job trips [set_output]'s assertion:
    the response is failed, and the shutdown event is set. *)
Lemma predict_exception_witness :
  let s := perform0 (Loop_run 0) (perform0 (Loop_run 0) (perform0 (Loop_run 0)
             (perform0 (Call_predict job_a true stream_two_outputs)
                (init (Some false) None)))) in
  _shutdown_event (runner (run_task0 0 s)) = Some true /\
  is_busy (run_task0 0 s) = (inr false, reclaim (run_task0 0 s)).
Proof.
  intros s.
  assert (Hreach : reachable0 s).
  { apply (step0 _ (Loop_run 0)). apply (step0 _ (Loop_run 0)).
    apply (step0 _ (Loop_run 0)).
    apply (step0 _ (Call_predict job_a true stream_two_outputs)). apply start0. }
  assert (Htk : tasks s !! 0 =
    Some {| t_state := Pending (PredictCoro 0 plain_handler job_a stream_two_outputs
                                  (PF_loop (Some false) (PredictionOutput (VStr "y"))
                                     Exhausted));
            t_must_cancel := false |}) by (vm_compute; reflexivity).
  assert (Hl : responses s !! 0 = Some (with_output (VStr "x") (fresh_response job_a 0%Z)))
    by (vm_compute; reflexivity).
  assert (Hbody :
    resume_body sample_clock sample_format_exc stream_two_outputs job_a plain_handler
      (PF_loop (Some false) (PredictionOutput (VStr "y")) Exhausted)
      {| ts_p := with_output (VStr "x") (fresh_response job_a 0%Z); ts_eff := eff s |} =
    (inl (Exn AssertionError "Predictor unexpectedly returned multiple outputs"),
     {| ts_p := with_output (VStr "x") (fresh_response job_a 0%Z);
        ts_eff := sample_eff |})) by (vm_compute; reflexivity).
  destruct (predict_exception_recorded_and_reraised sample_clock sample_format_exc
              false sample_store s 0 0 plain_handler job_a stream_two_outputs
              (PF_loop (Some false) (PredictionOutput (VStr "y")) Exhausted)
              _ _ _ Hreach Htk Hl Hbody) as (_ & _ & H3 & H4).
  split; [|exact H4]. rewrite H3. vm_compute. reflexivity.
Defined.

(** The same run, evaluated: the exception leaves the driving task and the
    shutdown event, unset before, is set. *)
Lemma predict_exception_escapes_and_shuts_down :
  let s := perform0 (Loop_run 0) (perform0 (Loop_run 0) (perform0 (Loop_run 0)
             (perform0 (Call_predict job_a true stream_two_outputs)
                (init (Some false) None)))) in
  let s' := run_task0 0 s in
  _shutdown_event (runner s) = Some false /\
  option_map pr_status (responses s' !! 0) = Some FAILED /\
  tasks s' !! 0 =
    Some {| t_state := Finished (TaskRaised
              (Exn AssertionError "Predictor unexpectedly returned multiple outputs"));
            t_must_cancel := false |} /\
  _shutdown_event (runner s') = Some true.
Proof. vm_compute. repeat split. Qed.

(** The history of a well-behaved job: terminal only at its end. *)
Lemma terminal_status_witness :
  let s0 := {| ts_p := fresh_response job_a 0%Z; ts_eff := sample_eff |} in
  let history :=
    ts_p s0 :: snapshots sample_clock sample_format_exc 10 stream_single
                 job_a plain_handler PF_start s0 in
  exists r, history !! 4 = Some r /\ pr_status r = SUCCEEDED /\
            forall r', history !! 4 = Some r' -> r' = r.
Proof.
  intros s0 history. eexists. split; [reflexivity|]. split; [reflexivity|].
  intros r' H.
  exact (terminal_status_is_final sample_clock sample_format_exc stream_single
           job_a plain_handler s0 10 4 4 _ r' eq_refl (fun _ => eq_refl)
           (le_n 4) eq_refl eq_refl H).
Defined.

(** A stream with a second [Done]: the status, succeeded after the first,
    is canceled after the second. *)
Lemma status_changes_after_done :
  let s0 := {| ts_p := fresh_response job_a 0%Z; ts_eff := sample_eff |} in
  let history :=
    ts_p s0 :: snapshots sample_clock sample_format_exc 10 stream_two_done
                 job_a plain_handler PF_start s0 in
  option_map pr_status (history !! 2) = Some SUCCEEDED /\
  terminal SUCCEEDED = true /\
  option_map pr_status (history !! 3) = Some CANCELED.
Proof. vm_compute. repeat split. Qed.

(** Cancelling: nothing to do on an idle runner; an unknown identity is
    refused; no identity sets the event, and the next resumption of the
    loop clears it and interrupts the worker once. *)
Lemma cancel_protocol_witness :
  let s1 := perform0 (Loop_run 0)
              (perform0 (Call_predict job_a true stream_single) (init None None)) in
  let s2 := perform0 (Call_cancel None) s1 in
  cancel None (init None None) = (inr tt, init None None) /\
  cancel (Some "b") s1 = (inl (Exn UnknownPredictionError ""), s1) /\
  cancel None s1 = (inr tt, set_eff (with_should_cancel true (eff s1)) s1) /\
  should_cancel (eff s2) = true /\
  should_cancel (eff (run_task0 0 s2)) = false /\
  worker_cancels (eff (run_task0 0 s2)) = 1.
Proof.
  intros s1 s2.
  assert (R1 : reachable0 s1).
  { apply (step0 _ (Loop_run 0)).
    apply (step0 _ (Call_predict job_a true stream_single)). apply start0. }
  assert (R2 : reachable0 s2) by (apply (step0 _ (Call_cancel None)); exact R1).
  destruct (cancel_protocol sample_clock sample_format_exc false sample_store
              (init None None) (start0 None None)) as (A & _ & _).
  destruct (A eq_refl None) as (A1 & _ & _ & _ & A5).
  destruct (cancel_protocol sample_clock sample_format_exc false sample_store s1 R1)
    as (_ & B & _).
  assert (O1 : outstanding s1 =
    Some (0, PredictCoro 0 plain_handler job_a stream_single
               (PF_loop None (PredictionOutputType false)
                  (Yield (PredictionOutput (VStr "HI"))
                     (Yield (Done false false None) Exhausted)))))
    by (vm_compute; reflexivity).
  destruct (B _ _ _ _ _ _ O1) as (B1 & B2).
  destruct (cancel_protocol sample_clock sample_format_exc false sample_store s2 R2)
    as (_ & _ & C).
  assert (T2 : tasks s2 !! 0 =
    Some {| t_state := Pending (PredictCoro 0 plain_handler job_a stream_single
                                  (PF_loop None (PredictionOutputType false)
                                     (Yield (PredictionOutput (VStr "HI"))
                                        (Yield (Done false false None) Exhausted))));
            t_must_cancel := false |}) by (vm_compute; reflexivity).
  destruct (C _ _ _ _ _ _ _ _ T2) as (C1 & C2).
  assert (F2 : should_cancel (eff s2) = true) by (vm_compute; reflexivity).
  split; [rewrite A1, (A5 eq_refl); reflexivity|].
  split; [apply B1; discriminate|].
  split; [apply B2; left; reflexivity|].
  split; [exact F2|]. split; [exact C1|].
  rewrite C2, F2. vm_compute. reflexivity.
Defined.

(** A finished job is reclaimed, and the next one gets handles of its
    own. *)
Lemma is_busy_reclaims_witness :
  let s := perform0 (Loop_run 0)
             (perform0 (Call_predict job_a true stream_empty) (init None None)) in
  is_busy s = (inr false, reclaim s) /\
  fst (Runner_predict0 job_anonymous true stream_single s) = inr (1, 1).
Proof.
  intros s.
  destruct (is_busy_reclaims sample_clock false sample_store s) as [H _].
  assert (Hr : _result (runner s) = Some 0) by (vm_compute; reflexivity).
  assert (Hd : task_done s 0 = true) by (vm_compute; reflexivity).
  destruct (H 0 Hr Hd) as (H1 & _ & _ & H4).
  split; [exact H1|].
  destruct (H4 job_anonymous true stream_single) as (s' & _ & H5 & _).
  rewrite H5. vm_compute. reflexivity.
Defined.

(** A canceled job with no earlier [Done]: canceled, and no error
    message. *)
Lemma done_event_witness :
  let s0 := {| ts_p := fresh_response job_a 0%Z; ts_eff := sample_eff |} in
  let s1 := snd (loop_body sample_clock plain_handler None (Done true false None) s0) in
  pr_status (ts_p s1) = CANCELED /\ pr_error (ts_p s1) = None.
Proof.
  intros s0 s1.
  destruct (done_event_marks_result sample_clock plain_handler None true false None s0)
    as (r' & H1 & H2 & _ & _ & _ & _ & _ & _ & _ & H10).
  unfold s1. rewrite H1. split; [exact H2|].
  change (pr_error r' = None).
  exact (H10 [] s0 None eq_refl eq_refl eq_refl eq_refl).
Defined.

(** A failed [Done] followed by a canceled [Done]: the response ends
    canceled and still carries the error message of the failure. *)
Lemma canceled_done_keeps_earlier_error :
  let s0 := {| ts_p := fresh_response job_a 0%Z; ts_eff := sample_eff |} in
  let s1 := snd (loop_body sample_clock plain_handler None
                   (Done false true (Some "boom")) s0) in
  let s2 := snd (loop_body sample_clock plain_handler None
                   (Done true false None) s1) in
  pr_error (ts_p s0) = None /\
  pr_status (ts_p s1) = FAILED /\ pr_error (ts_p s1) = Some "boom" /\
  pr_status (ts_p s2) = CANCELED /\ pr_error (ts_p s2) = Some "boom" /\
  run_events sample_clock plain_handler None
    [Done false true (Some "boom"); Done true false None] s0 =
    (inr (Continue None), s2).
Proof. vm_compute. repeat split. Defined.

(** A setup that only logs "loading": failed, with the diagnostic after
    the message, and the probe not signalled. *)
Lemma setup_without_done_witness :
  exists r e',
    setup sample_clock sample_format_exc (prepend [Log "loading"] Exhausted) sample_eff =
      (inr r, e') /\
    sr_status r = FAILED /\
    sr_logs r = "loadingError: did not receive 'done' event from setup!" /\
    probes_ready e' = 0.
Proof.
  exact (proj1 (setup_without_done_and_probe sample_clock sample_format_exc)
           [Log "loading"] sample_eff eq_refl).
Defined.



(** Cancelling a job by identity while setup runs. *)
Lemma cancel_during_setup_witness :
  let s := perform0 (Call_setup (Yield (Log "loading") Exhausted)) (init None None) in
  cancel (Some "a") s = (inl (Exn AssertionError ""), s).
Proof.
  intros s.
  assert (R : reachable0 s)
    by (apply (step0 _ (Call_setup (Yield (Log "loading") Exhausted))); apply start0).
  destruct (cancel_during_setup_asserts sample_clock sample_format_exc false
              sample_store s R) as [H _].
  apply (H 0 (SF_start (Yield (Log "loading") Exhausted))).
  vm_compute. reflexivity.
Defined.

(** The end-to-end scenarios: a single output, a sequence of outputs with
    one "output" notification each, and the elapsed time as metric. *)
Example scenario_single_output :
  let s0 := {| ts_p := fresh_response job_a 0%Z; ts_eff := sample_eff |} in
  let r := ts_p (snd (predict sample_clock sample_format_exc stream_single
                        job_a plain_handler s0)) in
  pr_status r = SUCCEEDED /\ pr_output r = VStr "HI" /\ pr_metrics r = Some 1000%Z.
Proof. vm_compute. repeat split. Qed.

Example scenario_multi_output :
  let s0 := {| ts_p := fresh_response job_a 0%Z; ts_eff := sample_eff |} in
  let s1 := snd (predict sample_clock sample_format_exc stream_multi
                   job_a webhook_handler s0) in
  pr_status (ts_p s1) = SUCCEEDED /\
  pr_output (ts_p s1) = VList [VStr "a"; VStr "b"] /\
  map fst (webhooks_sent (ts_eff s1)) = [OUTPUT; OUTPUT; COMPLETED].
Proof. vm_compute. repeat split. Qed.

(** Driving the sample job by resumptions gives the result of the whole
    run. *)
Example scenario_driven :
  let s0 := {| ts_p := fresh_response job_a 0%Z; ts_eff := sample_eff |} in
  drive_predict sample_clock sample_format_exc 5 stream_single job_a plain_handler
    PF_start s0 =
  completed (predict sample_clock sample_format_exc stream_single job_a plain_handler s0).
Proof. vm_compute. reflexivity. Qed.

(** One job in flight: the only pending task is the one the runner holds. *)
Lemma single_flight_witness :
  let s := perform0 (Call_predict job_a true stream_single) (init None None) in
  (0 = 0) /\ _result (runner s) = Some 0.
Proof.
  intros s.
  assert (R : reachable0 s)
    by (apply (step0 _ (Call_predict job_a true stream_single)); apply start0).
  assert (T : tasks s !! 0 =
    Some {| t_state := Pending (PredictCoro 0 plain_handler job_a stream_single PF_start);
            t_must_cancel := false |}) by (vm_compute; reflexivity).
  exact (single_flight sample_clock sample_format_exc false sample_store s 0 0 _ _
           R T eq_refl T eq_refl).
Defined.


(** Setup is refused while job "a" is in flight, and admitted on a new
    runner. *)
Lemma setup_admission_witness :
  let s := perform0 (Call_predict job_a true stream_single) (init None None) in
  Runner_setup Exhausted s = (inl (Exn RunnerBusyError ""), s) /\
  fst (Runner_setup Exhausted (init None None)) = inr 0.
Proof.
  intros s.
  assert (R : reachable0 s)
    by (apply (step0 _ (Call_predict job_a true stream_single)); apply start0).
  split.
  - apply (proj1 (setup_admission sample_clock sample_format_exc false sample_store
                    s Exhausted R) 0
             (PredictCoro 0 plain_handler job_a stream_single PF_start)).
    vm_compute. reflexivity.
  - destruct (proj2 (setup_admission sample_clock sample_format_exc false sample_store
                       (init None None) Exhausted (start0 None None)) eq_refl)
      as (s' & H & _).
    rewrite H. reflexivity.
Defined.

(** A setup that logs, reports an error, then logs again. *)
Lemma setup_last_done_witness :
  exists r e',
    setup sample_clock sample_format_exc
      (prepend ([Log "a"; Done false false None] ++ Done false true None :: [Log "b"])
         Exhausted) sample_eff = (inr r, e') /\
    sr_status r = FAILED /\ sr_logs r = "ab" /\ probes_ready e' = 0.
Proof.
  destruct (setup_last_done_decides sample_clock sample_format_exc
              [Log "a"; Done false false None] false true None [Log "b"] sample_eff
              eq_refl) as (r & e' & H1 & H2 & H3 & H4 & _).
  exists r, e'. repeat split; assumption.
Defined.

(** A setup whose worker raises at once: the task returns a result and the
    shutdown event stays unset. *)
Lemma setup_task_witness :
  let s := perform0 (Call_setup (Raises (Exn OtherException "boom")))
             (init (Some false) None) in
  _shutdown_event (runner (run_task0 0 s)) = Some false.
Proof.
  intros s.
  assert (T : tasks s !! 0 =
    Some {| t_state := Pending (SetupCoro (SF_start (Raises (Exn OtherException "boom"))));
            t_must_cancel := false |}) by (vm_compute; reflexivity).
  destruct (setup_task_never_shuts_down sample_clock sample_format_exc s 0 _ _ T)
    as (H & _).
  rewrite H. vm_compute. reflexivity.
Defined.

(** The response of job "a" after two turns of the event loop: still at
    handle 0, still "a". *)
Lemma response_only_continues_witness :
  let s := perform0 (Call_predict job_a true stream_single) (init None None) in
  exists r', responses (perform0 (Loop_run 0) s) !! 0 = Some r' /\
             continues (fresh_response job_a 0%Z) r'.
Proof.
  intros s.
  apply (response_only_continues sample_clock sample_format_exc false sample_store
           (Loop_run 0) s 0 (fresh_response job_a 0%Z)).
  vm_compute. reflexivity.
Defined.

(** A job whose image cannot be downloaded: failed with the download's
    message, and [predict] returns. *)
Lemma download_failure_witness :
  let s0 := {| ts_p := fresh_response job_url_fails 0%Z; ts_eff := sample_eff |} in
  let out := predict sample_clock sample_format_exc stream_single job_url_fails
               plain_handler s0 in
  fst out = inr tt /\
  pr_status (ts_p (snd out)) = FAILED /\
  pr_error (ts_p (snd out)) = Some "404" /\
  pr_logs (ts_p (snd out)) = "Traceback: 404".
Proof.
  intros s0 out.
  destruct (download_failure sample_clock sample_format_exc stream_single
              job_url_fails plain_handler s0 [("text", Plain (VStr "hi"))] "image"
              (Exn RequestException "404") [] eq_refl eq_refl) as (s' & Hp & Hrun & _).
  unfold out. rewrite Hrun. cbn [fst snd]. rewrite Hp. vm_compute. repeat split.
Defined.

(** A job whose stream ends after a log line and a heartbeat: returned,
    and still processing. *)
Lemma stream_without_done_witness :
  let s0 := {| ts_p := fresh_response job_a 0%Z; ts_eff := sample_eff |} in
  let out := predict sample_clock sample_format_exc stream_logs_only job_a
               plain_handler s0 in
  fst out = inr tt /\ pr_status (ts_p (snd out)) = PROCESSING /\
  pr_completed_at (ts_p (snd out)) = None.
Proof.
  intros s0 out.
  assert (Hrun : run_events sample_clock plain_handler None [Log "a"; Heartbeat] s0 =
                 (inr (Continue None),
                  snd (run_events sample_clock plain_handler None [Log "a"; Heartbeat] s0)))
    by (vm_compute; reflexivity).
  destruct (stream_without_done_not_completed sample_clock sample_format_exc
              stream_logs_only job_a plain_handler s0 [("text", VStr "hi")] s0
              [Log "a"; Heartbeat] None _ eq_refl eq_refl eq_refl Hrun)
    as (H1 & H2 & _ & H4 & _).
  unfold out. rewrite H1. cbn [fst snd]. rewrite H2, H4. repeat split.
Defined.

(** An output whose upload fails. *)
Lemma upload_failure_witness :
  let s0 := {| ts_p := fresh_response job_a 0%Z; ts_eff := sample_eff |} in
  let out := resume_predict sample_clock sample_format_exc stream_single job_a
               failing_upload_handler
               (PF_loop (Some false) (PredictionOutput (VStr "x")) Exhausted) s0 in
  fst out = inl (Exn FileUploadError "Got error trying to upload output files") /\
  pr_status (ts_p (snd out)) = FAILED /\ pr_output (ts_p (snd out)) = VNone.
Proof.
  intros s0 out.
  destruct (upload_failure_fails_job sample_clock sample_format_exc stream_single job_a
              failing_upload_handler false (VStr "x") Exhausted s0 eq_refl eq_refl)
    as (s' & Hrun & Hp & Ho).
  unfold out. rewrite Hrun. cbn [fst snd]. rewrite Ho, Hp. repeat split.
Defined.

(** A second output after "x" was stored. *)
Lemma single_output_witness :
  let s0 := {| ts_p := with_output (VStr "x") (fresh_response job_a 0%Z);
               ts_eff := sample_eff |} in
  let out := resume_predict sample_clock sample_format_exc stream_single job_a
               plain_handler
               (PF_loop (Some false) (PredictionOutput (VStr "y")) Exhausted) s0 in
  fst out = inl (Exn AssertionError "Predictor unexpectedly returned multiple outputs") /\
  pr_output (ts_p (snd out)) = VStr "x".
Proof.
  intros s0 out.
  destruct (proj1 (single_output_is_set_once sample_clock sample_format_exc stream_single
                     job_a plain_handler (VStr "y") Exhausted s0) eq_refl)
    as (s' & Hrun & _ & Ho).
  unfold out. rewrite Hrun. cbn [fst snd]. rewrite Ho. repeat split.
Defined.

(** Two outputs of a multi-shape job, with a webhook sender. *)
Lemma multi_outputs_witness :
  let s0 := {| ts_p := fresh_response job_a 0%Z; ts_eff := sample_eff |} in
  exists s',
    run_events sample_clock webhook_handler None
      (PredictionOutputType true :: map PredictionOutput [VStr "a"; VStr "b"]) s0 =
      (inr (Continue (Some true)), s') /\
    pr_output (ts_p s') = VList [VStr "a"; VStr "b"] /\
    map fst (webhooks_sent (ts_eff s')) = [OUTPUT; OUTPUT].
Proof.
  intros s0.
  assert (F : Forall2 (fun o v => uploaded webhook_handler o = Some v)
                [VStr "a"; VStr "b"] [VStr "a"; VStr "b"])
    by (repeat constructor).
  destruct (multi_outputs_accumulate sample_clock webhook_handler
              [VStr "a"; VStr "b"] [VStr "a"; VStr "b"] s0 eq_refl F eq_refl)
    as (s' & H1 & H2 & _ & _ & H5).
  exists s'. split; [exact H1|]. split; [exact H2|]. rewrite H5. reflexivity.
Defined.

(** Shutting down while job "a" is in flight. *)
Lemma shutdown_witness :
  let s := perform0 (Call_predict job_a true stream_single) (init None None) in
  let s2 := run_task0 0 (snd (shutdown s)) in
  tasks s2 !! 0 = Some {| t_state := Finished TaskCancelled; t_must_cancel := false |} /\
  option_map pr_status (responses s2 !! 0) = Some PROCESSING.
Proof.
  intros s s2.
  destruct (shutdown_cancels_outstanding sample_clock sample_format_exc s)
    as (_ & _ & _ & _ & _ & H).
  assert (O : outstanding s =
    Some (0, PredictCoro 0 plain_handler job_a stream_single PF_start))
    by (vm_compute; reflexivity).
  destruct (H 0 _ O) as (H1 & H2 & _).
  split; [exact H1|]. unfold s2. rewrite H2. vm_compute. reflexivity.
Defined.

(** Job "a" names no webhook: nothing is sent when it is submitted or
    driven. *)
Lemma no_webhook_witness :
  let s := perform0 (Call_predict job_a true stream_single) (init None None) in
  webhooks_sent (eff s) = [] /\ webhooks_sent (eff (perform0 (Loop_run 0) s)) = [].
Proof.
  intros s.
  destruct (no_webhook_no_notifications sample_clock sample_format_exc false sample_store
              (init None None) (start0 None None)) as (A & _).
  assert (R : reachable0 s)
    by (apply (step0 _ (Call_predict job_a true stream_single)); apply start0).
  destruct (no_webhook_no_notifications sample_clock sample_format_exc false sample_store
              s R) as (_ & B).
  assert (T : tasks s !! 0 =
    Some {| t_state := Pending (PredictCoro 0 plain_handler job_a stream_single PF_start);
            t_must_cancel := false |}) by (vm_compute; reflexivity).
  assert (E : webhooks_sent (eff s) = []).
  { unfold s. rewrite (A job_a true stream_single eq_refl). reflexivity. }
  split; [exact E|]. rewrite (B 0 _ _ _ _ _ _ T eq_refl). exact E.
Defined.

(** Submitting a job with a webhook and the default filter sends "start". *)
Lemma submission_start_witness :
  map fst (webhooks_sent
             (eff (perform0 (Call_predict job_hooked true stream_single)
                     (init None None)))) = [START].
Proof.
  rewrite (submission_start_notification sample_clock sample_format_exc false sample_store
             job_hooked true stream_single (init None None) eq_refl).
  vm_compute. reflexivity.
Defined.

(** A runner built without an upload url: the handler of job "a" uploads
    nothing. *)
Lemma no_uploader_witness :
  _file_uploader plain_handler = None.
Proof.
  assert (R : reachable0 (perform0 (Call_predict job_a true stream_single)
                            (init None None)))
    by (apply (step0 _ (Call_predict job_a true stream_single)); apply start0).
  assert (T : tasks (perform0 (Call_predict job_a true stream_single) (init None None))
                !! 0 =
    Some {| t_state := Pending (PredictCoro 0 plain_handler job_a stream_single PF_start);
            t_must_cancel := false |}) by (vm_compute; reflexivity).
  exact (proj1 (no_upload_url_no_uploader sample_clock sample_format_exc false
                  sample_store _ 0 0 plain_handler job_a stream_single PF_start false
                  R eq_refl T)).
Defined.

(** Job "a" left to the event loop for five turns ends as [predict] ends. *)
Lemma event_loop_witness :
  let s := perform0 (Call_predict job_a true stream_single) (init None None) in
  let s' := run_loop sample_clock sample_format_exc 5 0 s in
  option_map pr_status (responses s' !! 0) = Some SUCCEEDED /\
  tasks s' !! 0 = Some {| t_state := Finished (PredictReturned 0); t_must_cancel := false |}.
Proof.
  intros s s'.
  assert (T : tasks s !! 0 =
    Some {| t_state := Pending (PredictCoro 0 plain_handler job_a stream_single PF_start);
            t_must_cancel := false |}) by (vm_compute; reflexivity).
  assert (L : responses s !! 0 = Some (fresh_response job_a 0%Z))
    by (vm_compute; reflexivity).
  assert (P : predict sample_clock sample_format_exc stream_single job_a plain_handler
                {| ts_p := fresh_response job_a 0%Z; ts_eff := eff s |} =
              (inr tt,
               snd (predict sample_clock sample_format_exc stream_single job_a
                      plain_handler
                      {| ts_p := fresh_response job_a 0%Z; ts_eff := eff s |})))
    by (vm_compute; reflexivity).
  assert (F : forall d : list (string * value), S (gen_length (stream_single d)) < 5)
    by (intros d; vm_compute; lia).
  destruct (event_loop_runs_predict sample_clock sample_format_exc s 0 0 plain_handler
              job_a stream_single _ 5 _ _ T L F P) as (A & _ & C & _).
  unfold s'. rewrite A, C. vm_compute. repeat split.
Defined.
